(** * InterscaleHUB: the receive and emit loops of the two pipelines

    A shallow embedding of the communicators of the InterscaleHUB
    ([Interscale_hub/communicator_nest_to_tvb.py] and
    [refactored_modular/communicator_tvb_to_nest.py]) and of the manager's
    [stop] ([refactored_modular/manager_tvb_to_nest.py]).

    Every rank runs one sequential control flow that talks to the outside
    through blocking MPI calls and through the cells of a buffer in shared
    memory.  A loop is therefore modelled as a function from what the outside
    delivers (the messages that arrive, the values that successive reads of
    the state cell observe, what the mediator returns) to the sequence of
    calls that the rank performs, in program order, and the way the loop
    ends.  Calls to [logger.info] and [logger.debug] are left out; the calls
    of [interscalehub_utils.log_exception] are kept. *)

From Stdlib Require Import String ZArith List Lia Bool PrimFloat.
From Stdlib Require FloatOps SpecFloat.
From Stdlib Require Import Permutation FinFun.
Import ListNotations.
Open Scope Z_scope.

(** ** Values shared by both directions *)

(** [EBRAINS_RichEndpoint ... common_enums.Response], the two members used. *)
Inductive Response : Set := OK | ERROR.

(** Exceptions that the modelled statements can raise. *)
Inductive exn : Set := IndexError | ValueError.

(** How a [while True] loop ends: a [return], an exception, or neither: the
    rank stays blocked in a receive or keeps polling the state cell because
    the outside delivers nothing more. *)
Inductive outcome : Set :=
| Returned (r : Response)
| Raised (e : exn)
| Waiting.

(** [self._comm_receiver] and [self._comm_sender]. *)
Inductive intercomm : Set := COMM_RECEIVER | COMM_SENDER.

(** What a message carries, by MPI datatype.  [CHECK] is the one-byte
    [CXX_BOOL] control message, whose content the code never reads; [OBJ] is
    a pickled Python object of the lowercase [isend]/[irecv] calls, of which
    the code reads the truth value only. *)
Inductive message : Set :=
| CHECK
| OBJ (truthy : bool)
| MPI_BOOL (b : bool)
| MPI_INT (l : list Z)
| MPI_DOUBLE (l : list float).

Inductive mpi_call : Set :=
| Recv (comm : intercomm) (source tag : Z) (data : message)
| RecvInto (comm : intercomm) (source tag : Z) (starting_index : Z)
           (data : list float)
| Send (comm : intercomm) (dest tag : Z) (data : message).

(** [MPI.Status]: source and tag of the last completed receive. *)
Record Status : Set := mkStatus { Get_source : Z; Get_tag : Z }.

(** [range(lo, hi)] *)
Definition range (lo hi : nat) : list Z := map Z.of_nat (seq lo (hi - lo)).

(** [np.sum] of a list of integers. *)
Definition sum (l : list Z) : Z := fold_right Z.add 0 l.

(** A value stored with dtype ['i'] (32 bits, two's complement). *)
Definition int32 (z : Z) : Z := (z + 2 ^ 31) mod 2 ^ 32 - 2 ^ 31.

(** Python's [l[j]]: a negative index counts from the end. *)
Definition py_index {A : Type} (l : list A) (j : Z) : option A :=
  let n := Z.of_nat (length l) in
  if (0 <=? j) && (j <? n) then nth_error l (Z.to_nat j)
  else if (- n <=? j) && (j <? 0) then nth_error l (Z.to_nat (n + j))
  else None.

(** ** Computations that record their calls *)

Inductive result (A : Type) : Type :=
| Val (a : A)
| Exit (o : outcome).
Arguments Val {A} a.
Arguments Exit {A} o.

Section Exec.
Variable E : Type.

Definition M (A : Type) : Type := (list E * result A)%type.

Definition ret {A : Type} (a : A) : M A := ([], Val a).

Definition bind {A B : Type} (m : M A) (f : A -> M B) : M B :=
  match m with
  | (tr, Val a) => let (tr', r) := f a in (tr ++ tr', r)
  | (tr, Exit o) => (tr, Exit o)
  end.

Definition call (e : E) : M unit := ([e], Val tt).

Definition exit_with {A : Type} (o : outcome) : M A := ([], Exit o).

(** A loop whose every iteration takes the next element of [inputs]; an
    iteration that exits ends the loop, one that yields a value goes on
    with it ([continue], or the end of the body). *)
Fixpoint iterate {S I : Type} (body : S -> I -> M S) (s : S)
         (inputs : list I) : M S :=
  match inputs with
  | [] => ret s
  | i :: rest => bind (body s i) (fun s' => iterate body s' rest)
  end.

(** [while True:] the loop never leaves by itself. *)
Definition while_true {S I : Type} (body : S -> I -> M S) (s : S)
           (inputs : list I) : list E * outcome :=
  match iterate body s inputs with
  | (tr, Val _) => (tr, Waiting)
  | (tr, Exit o) => (tr, o)
  end.
End Exec.

Arguments ret {E A} a.
Arguments bind {E A B} m f.
Arguments call {E} e.
Arguments exit_with {E A} o.
Arguments iterate {E S I} body s inputs.
Arguments while_true {E S I} body s inputs.

Notation "x <- m ;; k" := (bind m (fun x => k))
  (at level 61, m at next level, right associativity).
Notation "m ;;; k" := (bind m (fun _ => k))
  (at level 61, right associativity).

(** ** NEST to TVB: [CommunicatorNestTvb] *)

Module NestTvb.

(** [Interscale_hub.interscalehub_enums]: the module is not part of the
    sources at hand; the members are the ones the communicator names. *)
Inductive DATA_BUFFER_STATES : Set :=
| WAIT | READY_TO_RECEIVE | READY_TO_TRANSFORM.

Inductive DATA_BUFFER_TYPES : Set := INPUT | OUTPUT.

Inductive event : Set :=
| Mpi (c : mpi_call)
| get_at (index : Z) (buffer_type : DATA_BUFFER_TYPES) (value : float)
| sleep
| set_ready_state_at (index : Z) (state : DATA_BUFFER_STATES)
                     (buffer_type : DATA_BUFFER_TYPES)
| set_header_at (index : Z) (header : Z) (buffer_type : DATA_BUFFER_TYPES)
| spikes_to_rate (count : Z) (size_at_index : Z)
                 (buffer_type : DATA_BUFFER_TYPES)
| log_exception (log_message : string) (mpi_tag_received : Z)
| logger_exception (log_message : string).

(** The two messages that [_receive] and [_send] hand to
    [log_exception]. *)
Definition abnormal_state : string :=
  "Abnormal state : the state of Nest is different between rank. Tag received: ".
Definition bad_mpi_tag : string := "bad mpi tag :".

Section Communicator.
(** The value of each member of the enumeration, as the state cell (a
    64-bit float) holds it. *)
Variable state_value : DATA_BUFFER_STATES -> float.

(** [while get_at(index=-1, INPUT) != state: time.sleep(0.001)]; [polls]
    are the values that the successive reads of the cell observe. *)
Fixpoint wait_until (state : DATA_BUFFER_STATES) (polls : list float)
  : M event unit :=
  match polls with
  | [] => exit_with Waiting
  | v :: later =>
      call (get_at (-1) INPUT v) ;;;
      if PrimFloat.eqb v (state_value state) then ret tt
      else call sleep ;;; wait_until state later
  end.

(** *** [_receive] *)

(** What the NEST ranks deliver in one iteration: [tags], the tag of the
    control message of each rank; [polls]; and [packets], for each rank
    the value of [shape[0]] and the doubles that follow it. *)
Record step : Set := mkStep {
  tags : list Z;
  polls : list float;
  packets : list (Z * list float)
}.

(** [Recv([check, 1, CXX_BOOL], source=i, tag=ANY_TAG, status=status_)] *)
Definition recv_check (s : step) (i : Z) : M event Status :=
  match nth_error (tags s) (Z.to_nat i) with
  | Some t => call (Mpi (Recv COMM_RECEIVER i t CHECK)) ;;;
              ret (mkStatus i t)
  | None => exit_with Waiting
  end.

(** The body of [for i in range(1, self._num_sending)]. *)
Definition check_rank (s : step) (status_rank_0 : Z) (status_ : Status)
           (i : Z) : M event Status :=
  status_ <- recv_check s i ;;
  if negb (status_rank_0 =? Get_tag status_) then
    call (log_exception abnormal_state (Get_tag status_)) ;;;
    exit_with (Returned ERROR)
  else ret status_.

(** The body of [for source in range(self._num_sending)]; the state is
    [running_head].  [shape] has dtype ['i'], so [running_head += shape[0]]
    adds 32-bit integers: the sum wraps at 32 bits (NumPy 2; an older NumPy
    adds in 64 bits, which gives the same value as long as the sum fits 32
    bits). *)
Definition receive_from (s : step) (running_head : Z) (source : Z)
  : M event Z :=
  call (Mpi (Send COMM_RECEIVER source 0 (MPI_BOOL true))) ;;;
  match nth_error (packets s) (Z.to_nat source) with
  | None => exit_with Waiting
  | Some (shape, data) =>
      call (Mpi (Recv COMM_RECEIVER source 0 (MPI_INT [shape]))) ;;;
      call (Mpi (RecvInto COMM_RECEIVER source 0 running_head data)) ;;;
      ret (int32 (running_head + shape))
  end.

(** One iteration of the [while True] of [_receive]; the state of the
    loop is its local [count]. *)
Definition _receive_body (num_sending : nat) (count : Z) (s : step)
  : M event Z :=
  let running_head := 0 in
  status_ <- recv_check s 0 ;;
  let status_rank_0 := Get_tag status_ in
  status_ <- iterate (check_rank s status_rank_0) status_
                     (range 1 num_sending) ;;
  if Get_tag status_ =? 0 then
    wait_until READY_TO_RECEIVE (polls s) ;;;
    running_head <- iterate (receive_from s) running_head
                            (range 0 num_sending) ;;
    call (set_ready_state_at (-1) READY_TO_TRANSFORM INPUT) ;;;
    call (set_header_at (-2) running_head INPUT) ;;;
    ret count
  else if Get_tag status_ =? 1 then
    ret (count + 1)
  else if Get_tag status_ =? 2 then
    exit_with (Returned OK)
  else
    call (log_exception bad_mpi_tag (Get_tag status_)) ;;;
    exit_with (Returned ERROR).

Definition _receive (num_sending : nat) (steps : list step)
  : list event * outcome :=
  while_true (_receive_body num_sending) 0 steps.

(** *** [_send] *)

(** What reaches the emit loop in one iteration: the messages that
    [req.wait] hands back as a false object ([refused], source and tag of
    each), then the one that ends the inner [while not accept]
    ([source], [tag]); [demand_polls]; and what the mediator returns,
    [times] and [rates].  The mediator is not part of the sources at
    hand: [times] has the two entries that [SpikesToRate.transform]
    builds. *)
Record demand : Set := mkDemand {
  refused : list (Z * Z);
  source : Z;
  tag : Z;
  demand_polls : list float;
  times : float * float;
  rates : list float
}.

(** [while not accept: req = irecv(ANY_SOURCE, ANY_TAG);
    accept = req.wait(status_)] *)
Definition await_demand (d : demand) : M event Status :=
  iterate (fun (_ : unit) (m : Z * Z) =>
             call (Mpi (Recv COMM_SENDER (fst m) (snd m) (OBJ false))))
          tt (refused d) ;;;
  call (Mpi (Recv COMM_SENDER (source d) (tag d) (OBJ true))) ;;;
  ret (mkStatus (source d) (tag d)).

(** One iteration of the [while True] of [_send]; the state of the loop
    is its local [count]. *)
Definition _send_body (count : Z) (d : demand) : M event Z :=
  status_ <- await_demand d ;;
  if Get_tag status_ =? 0 then
    wait_until READY_TO_TRANSFORM (demand_polls d) ;;;
    call (spikes_to_rate count (-2) INPUT) ;;;
    let data := rates d in
    call (set_ready_state_at (-1) READY_TO_RECEIVE INPUT) ;;;
    call (Mpi (Send COMM_SENDER (Get_source status_) 0
                    (MPI_DOUBLE [fst (times d); snd (times d)]))) ;;;
    let size := Z.of_nat (length data) in
    call (Mpi (Send COMM_SENDER (Get_source status_) 0
                    (MPI_INT [size]))) ;;;
    call (Mpi (Send COMM_SENDER (Get_source status_) 0
                    (MPI_DOUBLE data))) ;;;
    ret (count + 1)
  else if Get_tag status_ =? 1 then
    exit_with (Returned OK)
  else
    call (log_exception bad_mpi_tag (Get_tag status_)) ;;;
    exit_with (Returned ERROR).

Definition _send (demands : list demand) : list event * outcome :=
  while_true _send_body 0 demands.

(** *** [start] and [stop] *)

(** [start] on the rank [rank] of the intra-communicator; [None] is
    Python's [None], the value of a call that falls off the end. *)
Definition start (rank : Z) (remote_size : nat) (steps : list step)
           (demands : list demand) : list event * option outcome :=
  if rank =? 0 then
    let (tr, o) := _receive remote_size steps in (tr, Some o)
  else if rank =? 1 then
    let (tr, o) := _send demands in (tr, Some o)
  else ([], None).

Definition stop : list event * Response :=
  ([logger_exception "stop() is not implemented yet"], OK).
End Communicator.
End NestTvb.

(** ** TVB to NEST: [CommunicatorTvbNest]

    The file carries the markers of an unresolved merge; the model follows
    the side of the merge that bears the name of the file
    ([communicator_tvb_to_nest.py]).  In the statements modelled here the two
    sides differ only in how the mediator is reached. *)

Module TvbNest.

(** [refactored_modular.interscalehub_enums], not part of the sources at
    hand; the members are the ones the communicator names. *)
Inductive DATA_BUFFER_STATES : Set := READY | HEAD.

Inductive event : Set :=
| Mpi (c : mpi_call)
| get_at (index : Z) (value : float)
| sleep
| set_ready_at (index : Z)
| set_head_at (index : Z)
| set_custom_value_at (index : Z) (value : Z)
| rate_to_spike
| log_exception (log_message : string) (mpi_tag_received : Z).

Definition bad_mpi_tag : string := "bad mpi tag :".

Section Communicator.
Variable state_value : DATA_BUFFER_STATES -> float.

(** [while get_at(index=-1) != state: time.sleep(0.001)] *)
Fixpoint wait_until (state : DATA_BUFFER_STATES) (polls : list float)
  : M event unit :=
  match polls with
  | [] => exit_with Waiting
  | v :: later =>
      call (get_at (-1) v) ;;;
      if PrimFloat.eqb v (state_value state) then ret tt
      else call sleep ;;; wait_until state later
  end.

(** *** [_receive] *)

(** What TVB delivers in one iteration: the first message, with its tag
    ([step_tag]) and its doubles ([step_times], start and end of the
    step); [polls]; then the value of [size[0]] and the doubles of the
    rate ([rate]). *)
Record step : Set := mkStep {
  step_tag : Z;
  step_times : list float;
  polls : list float;
  size : Z;
  rate : list float
}.

(** The [isend] of the readiness flag to every TVB rank, with the
    [Waitall] that completes them. *)
Definition announce (num_sending : nat) : M event unit :=
  iterate (fun (_ : unit) (rank : Z) =>
             call (Mpi (Send COMM_RECEIVER rank 0 (OBJ true))))
          tt (range 0 num_sending).

Definition _receive_body (num_sending : nat) (_ : unit) (s : step)
  : M event unit :=
  announce num_sending ;;;
  call (Mpi (RecvInto COMM_RECEIVER 0 (step_tag s) 0 (step_times s))) ;;;
  let status_ := mkStatus 0 (step_tag s) in
  if Get_tag status_ =? 0 then
    wait_until READY (polls s) ;;;
    call (Mpi (Recv COMM_RECEIVER (Get_source status_) 0
                    (MPI_INT [size s]))) ;;;
    call (Mpi (RecvInto COMM_RECEIVER (Get_source status_) 0 2
                        (rate s))) ;;;
    call (set_head_at (-1)) ;;;
    call (set_custom_value_at (-2) (size s)) ;;;
    ret tt
  else if Get_tag status_ =? 1 then
    exit_with (Returned OK)
  else
    call (log_exception bad_mpi_tag (Get_tag status_)) ;;;
    exit_with (Returned ERROR).

Definition _receive (num_sending : nat) (steps : list step)
  : list event * outcome :=
  let (tr, o) := while_true (_receive_body num_sending) tt steps in
  (set_ready_at (-1) :: set_head_at (-2) :: tr, o).

(** *** [_send] *)

(** What reaches the emit loop in one iteration: [tags], the tag of the
    control message of each NEST rank; [polls]; [spikes_times], what the
    mediator returns; and [requests], for each rank the value of
    [size_list[0]] and the content of [list_id] after its receive. *)
Record demand : Set := mkDemand {
  tags : list Z;
  demand_polls : list float;
  spikes_times : list (list float);
  requests : list (Z * list Z)
}.

(** [Recv([check, 1, CXX_BOOL], source=rank, tag=ANY_TAG, status=status_)] *)
Definition recv_check (d : demand) (_ : Status) (rank : Z)
  : M event Status :=
  match nth_error (tags d) (Z.to_nat rank) with
  | Some t => call (Mpi (Recv COMM_SENDER rank t CHECK)) ;;;
              ret (mkStatus rank t)
  | None => exit_with Waiting
  end.

(** [for i in list_id: shape += [...]; data += [...]]; the state is the
    pair of [shape] and [data]. *)
Definition select (id_first_spike_detector : Z) (d : demand)
           (acc : list Z * list (list float)) (i : Z)
  : M event (list Z * list (list float)) :=
  match py_index (spikes_times d) (i - id_first_spike_detector) with
  | Some train =>
      ret (fst acc ++ [Z.of_nat (length train)], snd acc ++ [train])
  | None => exit_with (Raised IndexError)
  end.

(** The body of the second [for rank in range(self.__num_receiving)]. *)
Definition serve (id_first_spike_detector : Z) (d : demand)
           (status_ : Status) (rank : Z) : M event Status :=
  match nth_error (requests d) (Z.to_nat rank) with
  | None => exit_with Waiting
  | Some (size_list, list_id) =>
      call (Mpi (Recv COMM_SENDER rank 0 (MPI_INT [size_list]))) ;;;
      let status_ := mkStatus rank 0 in
      if negb (size_list =? 0) then
        if size_list <? 0 then exit_with (Raised ValueError)
        else
          call (Mpi (Recv COMM_SENDER (Get_source status_) 0
                          (MPI_INT list_id))) ;;;
          let status_ := mkStatus (Get_source status_) 0 in
          acc <- iterate (select id_first_spike_detector d) ([], [])
                         list_id ;;
          let (shape, data) := acc in
          let send_shape := map int32 (sum shape :: shape) in
          match list_id with
          | [] => exit_with (Raised IndexError)
          | first :: _ =>
              call (Mpi (Send COMM_SENDER (Get_source status_) first
                              (MPI_INT send_shape))) ;;;
              call (Mpi (Send COMM_SENDER rank first
                              (MPI_DOUBLE (concat data)))) ;;;
              ret status_
          end
      else ret status_
  end.

(** One iteration of the [while True] of [_send]; the state of the loop
    is [status_], which is created once, before the loop. *)
Definition _send_body (id_first_spike_detector : Z) (num_receiving : nat)
           (status_ : Status) (d : demand) : M event Status :=
  status_ <- iterate (recv_check d) status_ (range 0 num_receiving) ;;
  if Get_tag status_ =? 0 then
    wait_until HEAD (demand_polls d) ;;;
    call rate_to_spike ;;;
    call (set_ready_at (-1)) ;;;
    iterate (serve id_first_spike_detector d) status_
            (range 0 num_receiving)
  else if Get_tag status_ =? 1 then
    ret status_
  else if Get_tag status_ =? 2 then
    exit_with (Returned OK)
  else
    call (log_exception bad_mpi_tag (Get_tag status_)) ;;;
    exit_with (Returned ERROR).

(** [status0] is the freshly built [MPI.Status()]. *)
Definition _send (id_first_spike_detector : Z) (num_receiving : nat)
           (status0 : Status) (demands : list demand)
  : list event * outcome :=
  while_true (_send_body id_first_spike_detector num_receiving)
             status0 demands.

Definition stop : Response := OK.
End Communicator.
End TvbNest.

(** ** [TvbToNestManager]: the channels and [stop] *)

Module Manager.

(** The connection that [__set_up_connection] opens from a path. *)
Inductive path : Set := input_path | output_path.

(** The attributes that [__data_channel_setup] assigns; [None] is an
    attribute that holds [None] or was never assigned. *)
Record channels : Set := mkChannels {
  input_comm : option path;
  input_port : option path;
  output_comm : option path;
  output_port : option path
}.

Definition data_channel_setup (rank : Z) : channels :=
  if rank =? 0 then
    mkChannels None None (Some output_path) (Some output_path)
  else
    mkChannels (Some input_path) (Some input_path) None None.

Inductive event : Set :=
| communicator_stop (r : Response)
| close_and_finalize (comm port : option path).

(** [TvbToNestManager.stop] on the rank [rank] of the intra-communicator. *)
Definition stop (rank : Z) (m : channels) : list event :=
  communicator_stop TvbNest.stop ::
  (if rank =? 0 then [close_and_finalize (output_comm m) (output_port m)]
   else [close_and_finalize (input_comm m) (input_port m)]).
End Manager.

(** ** How a computation ends *)

(** The computation leaves its loop by [return r]. *)
Definition returns {E A : Type} (m : M E A) (r : Response) : Prop :=
  snd m = Exit (Returned r).

(** The computation does not leave its loop by a [return]. *)
Definition stays {E A : Type} (m : M E A) : Prop :=
  forall r, snd m <> Exit (Returned r).

(** ** The traces that the specification describes

    Closed forms of what a step should leave behind, in the words of the
    specification; the facts below compare the loops with them. *)

Module NestTvbTrace.
Import NestTvb.

(** The control message of each of [ranks], all with the tag [t]. *)
Definition checks (t : Z) (ranks : list Z) : list event :=
  map (fun i => Mpi (Recv COMM_RECEIVER i t CHECK)) ranks.

(** The reads of the state cell of a wait that ends: [skipped] are the
    values that made the rank sleep, [v] the value that let it go on. *)
Definition polled (skipped : list float) (v : float) : list event :=
  flat_map (fun u => [get_at (-1) INPUT u; sleep]) skipped
  ++ [get_at (-1) INPUT v].

(** The reads of the state cell of a wait that has not ended. *)
Definition polling (skipped : list float) : list event :=
  flat_map (fun u => [get_at (-1) INPUT u; sleep]) skipped.

(** The shape values of the ranks before [source], summed. *)
Definition offset (pk : list (Z * list float)) (source : nat) : Z :=
  sum (map fst (firstn source pk)).

(** The exchange with the rank [source]: the go-ahead, the shape, and the
    payload, which lands at [offset pk source]. *)
Definition transfer (pk : list (Z * list float)) (source : nat)
  : list event :=
  match nth_error pk source with
  | Some (shape, data) =>
      [Mpi (Send COMM_RECEIVER (Z.of_nat source) 0 (MPI_BOOL true));
       Mpi (Recv COMM_RECEIVER (Z.of_nat source) 0 (MPI_INT [shape]));
       Mpi (RecvInto COMM_RECEIVER (Z.of_nat source) 0 (offset pk source)
                     data)]
  | None => []
  end.

(** The messages that [req.wait] hands back as false objects. *)
Definition refusals (l : list (Z * Z)) : list event :=
  map (fun m => Mpi (Recv COMM_SENDER (fst m) (snd m) (OBJ false))) l.

(** The three messages of an emit, to the rank [dest]. *)
Definition emitted (dest : Z) (times : float * float) (rates : list float)
  : list event :=
  [Mpi (Send COMM_SENDER dest 0 (MPI_DOUBLE [fst times; snd times]));
   Mpi (Send COMM_SENDER dest 0 (MPI_INT [Z.of_nat (length rates)]));
   Mpi (Send COMM_SENDER dest 0 (MPI_DOUBLE rates))].

(** The counts that the calls of the mediator carry, in order. *)
Definition counts (tr : list event) : list Z :=
  flat_map (fun e => match e with
                     | spikes_to_rate count _ _ => [count]
                     | _ => []
                     end) tr.

(** An event that moves payload: a message sent, a receive of a shape or
    into the buffer, a write to the buffer, a call of the mediator. *)
Definition moves_payload (e : event) : bool :=
  match e with
  | Mpi (Recv _ _ _ CHECK) | Mpi (Recv _ _ _ (OBJ _)) => false
  | Mpi _ => true
  | get_at _ _ _ | sleep => false
  | set_ready_state_at _ _ _ | set_header_at _ _ _ => true
  | spikes_to_rate _ _ _ => true
  | log_exception _ _ | logger_exception _ => false
  end.
End NestTvbTrace.

Module TvbNestTrace.
Import TvbNest.

(** The control message of each of [ranks], all with the tag [t]. *)
Definition checks (t : Z) (ranks : list Z) : list event :=
  map (fun i => Mpi (Recv COMM_SENDER i t CHECK)) ranks.

Definition polled (skipped : list float) (v : float) : list event :=
  flat_map (fun u => [get_at (-1) u; sleep]) skipped ++ [get_at (-1) v].

Definition polling (skipped : list float) : list event :=
  flat_map (fun u => [get_at (-1) u; sleep]) skipped.

(** The readiness flag, sent to each of [ranks]. *)
Definition announced (ranks : list Z) : list event :=
  map (fun rank => Mpi (Send COMM_RECEIVER rank 0 (OBJ true))) ranks.

(** The spike train of the generator [id]: the one at index [id] minus the
    id of the first one. *)
Definition train_of (id_first_spike_detector : Z)
           (spikes : list (list float)) (id : Z) : list float :=
  nth (Z.to_nat (id - id_first_spike_detector)) spikes [].

(** The two parts of the packet for the requested [ids]: the total count
    followed by the count of each train, and the spike times of the trains
    one after the other. *)
Definition packet_sizes (id_first_spike_detector : Z)
           (spikes : list (list float)) (ids : list Z) : list Z :=
  let per_train :=
    map (fun id => Z.of_nat (length (train_of id_first_spike_detector
                                              spikes id))) ids in
  sum per_train :: per_train.

Definition packet_times (id_first_spike_detector : Z)
           (spikes : list (list float)) (ids : list Z) : list float :=
  concat (map (train_of id_first_spike_detector spikes) ids).

(** What the sender exchanges with the rank [rank] that asks for [k] ids,
    [ids]: nothing more than the receive of [k] when [k] is 0, else the
    receive of the ids and the two messages of the packet, both with the
    first id as their tag. *)
Definition answer (id_first_spike_detector : Z)
           (spikes : list (list float)) (rank k : Z) (ids : list Z)
  : list event :=
  Mpi (Recv COMM_SENDER rank 0 (MPI_INT [k]))
  :: (if k =? 0 then []
      else [Mpi (Recv COMM_SENDER rank 0 (MPI_INT ids));
            Mpi (Send COMM_SENDER rank (hd 0 ids)
                      (MPI_INT (packet_sizes id_first_spike_detector
                                             spikes ids)));
            Mpi (Send COMM_SENDER rank (hd 0 ids)
                      (MPI_DOUBLE (packet_times id_first_spike_detector
                                                spikes ids)))]).

(** The answers to the ranks [0 .. n-1], whose requests are [reqs]. *)
Definition answers (id_first_spike_detector : Z)
           (spikes : list (list float)) (reqs : list (Z * list Z))
           (n : nat) : list event :=
  flat_map (fun rank =>
              match nth_error reqs rank with
              | Some (k, ids) =>
                  answer id_first_spike_detector spikes (Z.of_nat rank)
                         k ids
              | None => []
              end) (seq 0 n).

(** A request that the sender can serve: no id, or as many ids as
    announced, each of them the id of one of the spike trains, and a total
    count that fits 32 bits. *)
Definition well_formed (id_first_spike_detector : Z)
           (spikes : list (list float)) (req : Z * list Z) : Prop :=
  let (k, ids) := req in
  k = 0
  \/ (0 < k /\ Z.of_nat (length ids) = k
      /\ Forall (fun id => 0 <= id - id_first_spike_detector
                              < Z.of_nat (length spikes)) ids
      /\ sum (map (fun id => Z.of_nat (length (train_of
                                                 id_first_spike_detector
                                                 spikes id))) ids)
         < 2 ^ 31).
End TvbNestTrace.

(** ** Values for the examples

    The values of the members of the two enumerations are not part of the
    sources at hand.  The theorems below hold for every assignment; the
    examples are run with these ones (the legacy code of the TVB to NEST
    direction wrote 1 for "ready" and 0 for "head"). *)

Definition nest_tvb_values (s : NestTvb.DATA_BUFFER_STATES) : float :=
  match s with
  | NestTvb.WAIT => 0
  | NestTvb.READY_TO_RECEIVE => 1
  | NestTvb.READY_TO_TRANSFORM => 2
  end%float.

Definition tvb_nest_values (s : TvbNest.DATA_BUFFER_STATES) : float :=
  match s with
  | TvbNest.READY => 1
  | TvbNest.HEAD => 0
  end%float.

(** * Further parts of the sources *)

(** ** [InterscaleHubBaseManager]: the groups of ranks *)

Module BaseManager.

(** [x in l], for a list of ranks. *)
Definition mem (x : Z) (l : list Z) : bool := existsb (Z.eqb x) l.

(** [__init__]: [[x for x in range(size) if x not in (receiving + sending)]],
    with [size] the size of the intra-communicator. *)
Definition group_of_ranks_for_transformation (size : nat)
           (receiving sending : list Z) : list Z :=
  filter (fun x => negb (mem x (receiving ++ sending))) (range 0 size).

(** The three attributes that hold the communicator of a group. *)
Inductive attribute : Set :=
| _mpi_com_group_receivers
| _mpi_com_group_transformers
| _mpi_com_group_senders.

Inductive event : Set :=
| Incl (ranks : list Z)
| Excl (ranks : list Z)
| Create_group.

(** [_setup_mpi_groups_including_ranks] and
    [_setup_mpi_groups_excluding_ranks]: the calls made on the group of the
    intra-communicator. *)
Definition _setup_mpi_groups_including_ranks (ranks_to_include : list Z)
  : M event unit :=
  call (Incl ranks_to_include) ;;; call Create_group.

Definition _setup_mpi_groups_excluding_ranks (ranks_to_exclude : list Z)
  : M event unit :=
  call (Excl ranks_to_exclude) ;;; call Create_group.

(** [_setup_mpi_groups_and_comms] on the rank [rank]: the attribute that
    receives a communicator, if any.  [l[0]] of an empty list raises
    [IndexError]. *)
Definition _setup_mpi_groups_and_comms (rank : Z) (size : nat)
           (receiving sending : list Z) : M event (option attribute) :=
  match receiving with
  | [] => exit_with (Raised IndexError)
  | r0 :: _ =>
      if rank =? r0 then
        _setup_mpi_groups_including_ranks receiving ;;;
        ret (Some _mpi_com_group_receivers)
      else
        match sending with
        | [] => exit_with (Raised IndexError)
        | s0 :: _ =>
            if rank =? s0 then
              _setup_mpi_groups_including_ranks sending ;;;
              ret (Some _mpi_com_group_senders)
            else if mem rank (group_of_ranks_for_transformation
                                size receiving sending) then
              _setup_mpi_groups_including_ranks
                (group_of_ranks_for_transformation size receiving sending) ;;;
              ret (Some _mpi_com_group_transformers)
            else ret None
        end
  end.
End BaseManager.

(** ** [ElephantDelegator] *)

Module ElephantDelegator.

(** The two objects that the delegator holds. *)
Inductive member : Set := spike_rate_conversion | elephant_plugin.

Record self : Set := mkSelf {
  spikerate_methods : list string;
  plugin_methods : list string
}.

(** [[f for f in dir(C) if not f.startswith('_')]] *)
Definition public_names (dir : list string) : list string :=
  filter (fun f => negb (String.prefix "_" f)) dir.

(** [__init__], as far as the two lists of names go; the arguments are
    [dir(SpikeRateConvertor)] and [dir(ElephantPlugin)]. *)
Definition __init__ (dir_SpikeRateConvertor dir_ElephantPlugin : list string)
  : self :=
  mkSelf (public_names dir_SpikeRateConvertor)
         (public_names dir_ElephantPlugin).

(** What a call of the method that [__getattr__] returns does: it hands the
    call to one of the two members, or raises [AttributeError]. *)
Inductive called : Set :=
| Delegated (to : member)
| AttributeError.

Definition __getattr__ (s : self) (func : string) : called :=
  if existsb (String.eqb func) (spikerate_methods s) then
    Delegated spike_rate_conversion
  else if existsb (String.eqb func) (plugin_methods s) then
    Delegated elephant_plugin
  else AttributeError.

(** The attributes that [__init__] assigns to the instance ([self.__logger]
    under its mangled name). *)
Definition instance_names : list string :=
  ["_log_settings"; "_configurations_manager"; "_ElephantDelegator__logger";
   "spike_rate_conversion"; "elephant_plugin"; "spikerate_methods";
   "plugin_methods"]%string.

(** An attribute access on a delegator, [delegator.name]: Python looks the
    name up on the instance and on its class first and turns to
    [__getattr__] only when this lookup finds nothing.
    [dir_ElephantDelegator] is [dir(ElephantDelegator)], the names of the
    class and of [object]. *)
Inductive access : Set :=
| Found
| Through_getattr (c : called).

Definition getattr (dir_ElephantDelegator : list string) (s : self)
           (name : string) : access :=
  if existsb (String.eqb name) (instance_names ++ dir_ElephantDelegator)
  then Found
  else Through_getattr (__getattr__ s name).
End ElephantDelegator.

(** ** [SpikesToRate.__reshape_buffer_from_nest]: the spikes of each neuron *)

(** The position that Python's [l[j]] reads or writes in a list of [n]
    elements; [None] is [IndexError]. *)
Definition py_position (n : nat) (j : Z) : option nat :=
  if (0 <=? j) && (j <? Z.of_nat n) then Some (Z.to_nat j)
  else if (- Z.of_nat n <=? j) && (j <? 0) then Some (Z.to_nat (Z.of_nat n + j))
  else None.

(** Python's conversion of an [int] to a 64-bit float, the nearest float
    (for an [int] below [2 ^ 1024]). *)
Definition float_of_int (z : Z) : float :=
  FloatOps.SF2Prim
    (SpecFloat.binary_normalize FloatOps.prec FloatOps.emax z 0 false).

Module SpikesToRate.

(** How the first loop of [__reshape_buffer_from_nest] ends: with the list
    of the spike times of each neuron, with an [IndexError] (of the buffer or
    of the list of neurons), or with the exception that [int] raises on a
    float that has no integer value. *)
Inductive reshaped : Type :=
| Spikes (spikes_neurons : list (list float))
| Raises_IndexError
| Raises_from_int.

Section Reshape.
(** Python's [int] on a 64-bit float; [None] when it raises (nan, inf). *)
Variable int : float -> option Z.

(** [spikes_neurons[j].append(time_step)] *)
Definition append_at (spikes_neurons : list (list float)) (j : Z)
           (time_step : float) : option (list (list float)) :=
  match py_position (length spikes_neurons) j with
  | Some p =>
      Some (firstn p spikes_neurons
            ++ (nth p spikes_neurons [] ++ [time_step])
            :: skipn (S p) spikes_neurons)
  | None => None
  end.

(** The body of [for index_data in range(...)]. *)
Definition add_spike (first_id : Z) (buffer : list float)
           (spikes_neurons : list (list float)) (index_data : nat)
  : reshaped :=
  match nth_error buffer (index_data * 3 + 1) with
  | None => Raises_IndexError
  | Some id =>
      match int id with
      | None => Raises_from_int
      | Some id_neurons =>
          match nth_error buffer (index_data * 3 + 2) with
          | None => Raises_IndexError
          | Some time_step =>
              match append_at spikes_neurons (id_neurons - first_id)
                              time_step with
              | Some l => Spikes l
              | None => Raises_IndexError
              end
          end
      end
  end.

Fixpoint add_spikes (first_id : Z) (buffer : list float)
         (spikes_neurons : list (list float)) (indices : list nat)
  : reshaped :=
  match indices with
  | [] => Spikes spikes_neurons
  | index_data :: rest =>
      match add_spike first_id buffer spikes_neurons index_data with
      | Spikes l => add_spikes first_id buffer l rest
      | raised => raised
      end
  end.

(** The first loop of [__reshape_buffer_from_nest]: [nb_neurons] empty
    lists, then one triple after the other; [triples] is the value of
    [int(np.rint(size_buffer / 3))]. *)
Definition spikes_of_neurons (nb_neurons : nat) (first_id : Z)
           (triples : nat) (buffer : list float) : reshaped :=
  add_spikes first_id buffer (repeat [] nb_neurons) (seq 0 triples).

(** The neuron that the triple [index_data] names: the position of its id,
    counted from [first_id], in the list of neurons. *)
Definition neuron_of (nb_neurons : nat) (first_id : Z) (buffer : list float)
           (index_data : nat) : option nat :=
  match nth_error buffer (index_data * 3 + 1) with
  | Some id =>
      match int id with
      | Some id_neurons => py_position nb_neurons (id_neurons - first_id)
      | None => None
      end
  | None => None
  end.

(** The spike times, in the order of the buffer, of the triples among
    [indices] that name the neuron [j]. *)
Definition times_of (nb_neurons : nat) (first_id : Z) (buffer : list float)
           (indices : list nat) (j : nat) : list float :=
  flat_map (fun index_data =>
              match neuron_of nb_neurons first_id buffer index_data,
                    nth_error buffer (index_data * 3 + 2) with
              | Some p, Some time_step =>
                  if Nat.eqb p j then [time_step] else []
              | _, _ => []
              end) indices.
End Reshape.

(** *** [SpikesToRate.transform] and the second loop of
    [__reshape_buffer_from_nest] *)

(** The value of [int(np.rint(size_buffer / 3))] for an integer
    [size_buffer]: the integer nearest to the third of it (a third of an
    integer lies half way between no two integers); [range] of a negative
    value is empty. *)
Definition rint_third (size_buffer : Z) : nat :=
  Z.to_nat ((2 * size_buffer + 3) / 6).

(** A value of NumPy as [np.concatenate] sees it: a scalar, which has no
    dimension, or an array of one dimension. *)
Inductive ndarray : Set :=
| scalar (x : float)
| array (a : list float).

Fixpoint concatenate_arrays (arrays : list ndarray) : option (list float) :=
  match arrays with
  | [] => Some []
  | scalar _ :: _ => None
  | array a :: rest =>
      match concatenate_arrays rest with
      | Some b => Some (a ++ b)
      | None => None
      end
  end.

(** [np.concatenate]; [None] is its [ValueError], raised on an empty
    sequence (need at least one array to concatenate) and on a value without
    dimension (zero-dimensional arrays cannot be concatenated). *)
Definition concatenate (arrays : list ndarray) : option (list float) :=
  match arrays with
  | [] => None
  | _ => concatenate_arrays arrays
  end.

(** [RectangularKernel(sigma)] of elephant. *)
Inductive kernel : Set :=
| RectangularKernel (sigma : float).

(** How [transform] and [__reshape_buffer_from_nest] end: with a value or
    with an exception, which comes from an index out of range, from [int],
    from [np.concatenate], from [SpikeTrain] or from [instantaneous_rate]. *)
Inductive raised : Set :=
| Index_error
| Error_of_int
| ValueError_of_concatenate
| Error_of_SpikeTrain
| Error_of_instantaneous_rate.

Inductive returned (A : Type) : Type :=
| Returns (a : A)
| Raises (e : raised).
Arguments Returns {A} a.
Arguments Raises {A} e.

Section Transform.
Variable int : float -> option Z.

(** The calls of the libraries.  [train] is neo's spike train and [rates]
    the analog signal of elephant; times are in milliseconds.
    - [around x] is [np.around(x, decimals=2)];
    - [SpikeTrain times t_start t_stop] is [None] when neo raises;
    - [instantaneous_rate spiketrains t_start t_stop sampling_period kernel]
      is [None] when elephant raises;
    - [mean_axis_1 r] is [np.mean(r, axis=1)], the mean over the neurons at
      each sample. *)
Variables train rates : Type.
Variable around : float -> float.
Variable SpikeTrain : list float -> float -> float -> option train.
Variable instantaneous_rate :
  list train -> float -> float -> float -> kernel -> option rates.
Variable mean_axis_1 : rates -> list float.

(** The parameters that [__init__] keeps. *)
Variable time_synch : float.
Variable dt : float.
Variable nb_neurons : nat.
Variable first_id : Z.

(** [SpikeTrain(times * ms, t_start=np.around(count * T, decimals=2),
    t_stop=np.around((count + 1) * T, decimals=2) + 0.0001)] *)
Definition spike_train (count : Z) (times : list float) : returned train :=
  match SpikeTrain times
                   (around (float_of_int count * time_synch))
                   (around (float_of_int (count + 1) * time_synch)
                    + 0x1.a36e2eb1c432dp-14) with
  | Some t => Returns t
  | None => Raises Error_of_SpikeTrain
  end.

(** The body of the second loop, for the list [spikes] of one neuron.  The
    times in the list are elements of the buffer, an array of one dimension,
    hence scalars. *)
Definition to_SpikeTrain (count : Z) (spikes : list float) : returned train :=
  if (1 <? length spikes)%nat then
    match concatenate (map scalar spikes) with
    | Some times => spike_train count times
    | None => Raises ValueError_of_concatenate
    end
  else spike_train count spikes.

(** The second loop, [for i in range(self.__nb_neurons)], over the
    [nb_neurons] lists that the first loop has filled, in their order. *)
Fixpoint to_SpikeTrains (count : Z) (spikes_neurons : list (list float))
  : returned (list train) :=
  match spikes_neurons with
  | [] => Returns []
  | spikes :: rest =>
      match to_SpikeTrain count spikes with
      | Returns t =>
          match to_SpikeTrains count rest with
          | Returns ts => Returns (t :: ts)
          | Raises e => Raises e
          end
      | Raises e => Raises e
      end
  end.

Definition __reshape_buffer_from_nest (count : Z) (size_buffer : Z)
           (buffer : list float) : returned (list train) :=
  match spikes_of_neurons int nb_neurons first_id (rint_third size_buffer)
                          buffer with
  | Spikes spikes_neurons => to_SpikeTrains count spikes_neurons
  | Raises_IndexError => Raises Index_error
  | Raises_from_int => Raises Error_of_int
  end.

(** [transform] returns [times] and [rate]. *)
Definition transform (count : Z) (size_buffer : Z)
           (buffer_of_spikes : list float)
  : returned (list float * list float) :=
  match __reshape_buffer_from_nest count size_buffer buffer_of_spikes with
  | Raises e => Raises e
  | Returns spikes_neurons =>
      match instantaneous_rate
              spikes_neurons
              (around (float_of_int count * time_synch))
              (around (float_of_int (count + 1) * time_synch))
              (dt - 0x1.0c6f7a0b5ed8dp-20)
              (RectangularKernel 1) with
      | None => Raises Error_of_instantaneous_rate
      | Some r =>
          let rate := map (fun x => (x / 10)%float) (mean_axis_1 r) in
          let times := [(float_of_int count * time_synch)%float;
                        (float_of_int (count + 1) * time_synch)%float] in
          Returns (times, rate)
      end
  end.
End Transform.
End SpikesToRate.

(** Python's [int] on a 64-bit float, for the examples: the integer part,
    toward zero; [None] for nan and the infinities, on which [int] raises. *)
Definition python_int (x : float) : option Z :=
  match FloatOps.Prim2SF x with
  | SpecFloat.S754_zero _ => Some 0
  | SpecFloat.S754_infinity _ => None
  | SpecFloat.S754_nan => None
  | SpecFloat.S754_finite negative m e =>
      let magnitude :=
        if 0 <=? e then Z.pos m * 2 ^ e else Z.pos m / 2 ^ (- e) in
      Some (if negative then - magnitude else magnitude)
  end.

(** * Facts *)

(** ** Computations *)

Section ExecFacts.
Context {E : Type}.

Lemma bind_val {A B : Type} (tr : list E) (a : A) (f : A -> M E B) :
  bind (tr, Val a) f = (tr ++ fst (f a), snd (f a)).
Proof. unfold bind. destruct (f a); reflexivity. Qed.

Lemma bind_ret {A B : Type} (a : A) (f : A -> M E B) :
  bind (ret a) f = f a.
Proof. unfold ret. rewrite bind_val. destruct (f a); reflexivity. Qed.

Lemma bind_call {B : Type} (e : E) (f : unit -> M E B) :
  bind (call e) f = (e :: fst (f tt), snd (f tt)).
Proof. unfold call. rewrite bind_val. reflexivity. Qed.

Lemma bind_exit {A B : Type} (tr : list E) (o : outcome) (f : A -> M E B) :
  bind (tr, Exit o) f = (tr, Exit o).
Proof. reflexivity. Qed.

Lemma bind_assoc {A B C : Type} (m : M E A) (f : A -> M E B)
      (g : B -> M E C) :
  bind (bind m f) g = bind m (fun a => bind (f a) g).
Proof.
  destruct m as [tr [a | o]]; [| reflexivity].
  rewrite !bind_val.
  destruct (f a) as [tr' [b | o]]; simpl; [| reflexivity].
  destruct (g b) as [tr'' r]. simpl. now rewrite app_assoc.
Qed.

Lemma iterate_app {S I : Type} (body : S -> I -> M E S) (l1 l2 : list I) :
  forall s, iterate body s (l1 ++ l2)
            = bind (iterate body s l1) (fun s' => iterate body s' l2).
Proof.
  induction l1 as [| i l1 IH]; intros s; cbn [iterate app].
  - now rewrite bind_ret.
  - rewrite bind_assoc.
    destruct (body s i) as [tr [s' | o]]; [| reflexivity].
    rewrite !bind_val. now rewrite IH.
Qed.

(** An iteration that exits ends the loop: what follows is not looked at. *)
Lemma iterate_exit {S I : Type} (body : S -> I -> M E S) (l1 l2 : list I)
      (s : S) (tr : list E) (o : outcome) :
  iterate body s l1 = (tr, Exit o) ->
  iterate body s (l1 ++ l2) = (tr, Exit o).
Proof. intros H. now rewrite iterate_app, H. Qed.

Lemma iterate_snoc {S I : Type} (body : S -> I -> M E S) (l : list I)
      (i : I) (s s' : S) (tr : list E) :
  iterate body s l = (tr, Val s') ->
  iterate body s (l ++ [i]) = (tr ++ fst (body s' i), snd (body s' i)).
Proof.
  intros H. rewrite iterate_app, H, bind_val. cbn [iterate].
  destruct (body s' i) as [tr' [s'' | o]]; [| reflexivity].
  rewrite bind_val. simpl. now rewrite app_nil_r.
Qed.

Lemma while_true_returned {S I : Type} (body : S -> I -> M E S)
      (l1 l2 : list I) (s : S) (tr : list E) (r : Response) :
  while_true body s l1 = (tr, Returned r) ->
  while_true body s (l1 ++ l2) = (tr, Returned r).
Proof.
  unfold while_true. intros H.
  destruct (iterate body s l1) as [tr1 [s1 | o]] eqn:H1; [discriminate |].
  now rewrite (iterate_exit _ _ l2 _ _ _ H1).
Qed.

(** The loop ends in the first iteration that exits. *)
Lemma while_true_step {S I : Type} (body : S -> I -> M E S)
      (pre rest : list I) (i : I) (s s' : S) (tr tr' : list E)
      (o : outcome) :
  iterate body s pre = (tr, Val s') ->
  body s' i = (tr', Exit o) ->
  while_true body s (pre ++ i :: rest) = (tr ++ tr', o).
Proof.
  intros Hpre Hi. unfold while_true.
  rewrite iterate_app, Hpre, bind_val. cbn [iterate]. now rewrite Hi.
Qed.
Lemma stays_bind {A B : Type} (m : M E A) (f : A -> M E B) :
  stays m -> (forall a, stays (f a)) -> stays (bind m f).
Proof.
  intros Hm Hf r. destruct m as [tr [a | o]].
  - rewrite bind_val. cbn [snd]. apply Hf.
  - cbn. intros [= ->]. now apply (Hm r).
Qed.

Lemma stays_call {B : Type} (e : E) (f : unit -> M E B) :
  stays (f tt) -> stays (bind (call e) f).
Proof. intros H r. rewrite bind_call. exact (H r). Qed.

Lemma stays_ret {A : Type} (a : A) : stays (@ret E A a).
Proof. intros r. discriminate. Qed.

Lemma stays_waiting {A : Type} : stays (@exit_with E A Waiting).
Proof. intros r. discriminate. Qed.

Lemma stays_raised {A : Type} (e : exn) : stays (@exit_with E A (Raised e)).
Proof. intros r. discriminate. Qed.

Lemma stays_iterate {S I : Type} (body : S -> I -> M E S) (l : list I) :
  (forall s i, stays (body s i)) -> forall s, stays (iterate body s l).
Proof.
  intros Hb. induction l as [| i l IH]; intros s; cbn [iterate].
  - apply stays_ret.
  - apply stays_bind; [apply Hb | exact IH].
Qed.

Lemma stays_not_returns {A : Type} (m : M E A) (r : Response) :
  stays m -> ~ returns m r.
Proof. intros H. exact (H r). Qed.
End ExecFacts.

(** ** Ranges and sums *)

Lemma range_nil (lo : nat) : range lo lo = [].
Proof. unfold range. now rewrite Nat.sub_diag. Qed.

Lemma range_snoc (lo hi : nat) :
  (lo <= hi)%nat -> range lo (S hi) = range lo hi ++ [Z.of_nat hi].
Proof.
  intros H. unfold range.
  replace (S hi - lo)%nat with (S (hi - lo)) by lia.
  rewrite seq_S, map_app. simpl. do 3 f_equal. lia.
Qed.

Lemma range_cons (lo hi : nat) :
  (lo < hi)%nat -> range lo hi = Z.of_nat lo :: range (S lo) hi.
Proof.
  intros H. unfold range.
  replace (hi - lo)%nat with (S (hi - S lo)) by lia. reflexivity.
Qed.

Lemma range_split (lo mid hi : nat) :
  (lo <= mid <= hi)%nat -> range lo hi = range lo mid ++ range mid hi.
Proof.
  intros H. unfold range.
  replace (hi - lo)%nat with ((mid - lo) + (hi - mid))%nat by lia.
  rewrite seq_app, map_app. do 3 f_equal. lia.
Qed.

Lemma in_range (lo hi : nat) (i : Z) :
  In i (range lo hi) <-> exists k, i = Z.of_nat k /\ (lo <= k < hi)%nat.
Proof.
  unfold range. rewrite in_map_iff. split.
  - intros (k & <- & Hk). apply in_seq in Hk. exists k. split; [easy | lia].
  - intros (k & -> & Hk). exists k. split; [easy |]. apply in_seq. lia.
Qed.

Lemma sum_app (l1 l2 : list Z) : sum (l1 ++ l2) = sum l1 + sum l2.
Proof. induction l1 as [| a l1 IH]; simpl; [reflexivity | rewrite IH; lia]. Qed.

(** ** 32-bit values *)

Lemma int32_small (z : Z) : - 2 ^ 31 <= z < 2 ^ 31 -> int32 z = z.
Proof. intros H. unfold int32. rewrite Z.mod_small; lia. Qed.

Lemma map_int32_small (l : list Z) :
  Forall (fun z => - 2 ^ 31 <= z < 2 ^ 31) l -> map int32 l = l.
Proof.
  induction 1 as [| z l Hz _ IH]; [reflexivity |].
  cbn [map]. now rewrite IH, int32_small.
Qed.

Lemma sum_nonneg (l : list Z) : Forall (fun z => 0 <= z) l -> 0 <= sum l.
Proof. induction 1 as [| z l Hz _ IH]; simpl; lia. Qed.

Lemma le_sum (l : list Z) :
  Forall (fun z => 0 <= z) l -> Forall (fun z => z <= sum l) l.
Proof.
  induction 1 as [| z l Hz Hl IH]; constructor.
  - simpl. pose proof (sum_nonneg l Hl). lia.
  - eapply Forall_impl; [| exact IH]. simpl. intros a Ha. lia.
Qed.

Lemma py_index_nonneg {A : Type} (l : list A) (j : Z) (d : A) :
  0 <= j < Z.of_nat (length l) ->
  py_index l j = Some (nth (Z.to_nat j) l d).
Proof.
  intros H. unfold py_index.
  destruct (Z.leb_spec 0 j); [| lia]. destruct (Z.ltb_spec j (Z.of_nat (length l))); [| lia].
  cbn [andb]. apply nth_error_nth'. lia.
Qed.

(** ** NEST to TVB: the pieces of the two loops *)

Section NestTvbFacts.
Import NestTvb NestTvbTrace.
Variable sv : DATA_BUFFER_STATES -> float.

(** *** The wait on the state cell *)

Lemma wait_until_found (st : DATA_BUFFER_STATES) (skipped : list float)
      (v : float) (later : list float) :
  Forall (fun u => PrimFloat.eqb u (sv st) = false) skipped ->
  PrimFloat.eqb v (sv st) = true ->
  wait_until sv st (skipped ++ v :: later) = (polled skipped v, Val tt).
Proof.
  intros Hs Hv. unfold polled.
  induction Hs as [| u skipped Hu _ IH]; cbn [app wait_until flat_map].
  - rewrite bind_call, Hv. reflexivity.
  - rewrite bind_call, Hu, bind_call, IH. reflexivity.
Qed.

Lemma wait_until_starved (st : DATA_BUFFER_STATES) (polls : list float) :
  Forall (fun u => PrimFloat.eqb u (sv st) = false) polls ->
  wait_until sv st polls = (polling polls, Exit Waiting).
Proof.
  intros Hs. unfold polling.
  induction Hs as [| u polls Hu _ IH]; cbn [wait_until flat_map].
  - reflexivity.
  - rewrite bind_call, Hu, bind_call, IH. reflexivity.
Qed.

(** A wait either ends at the first value that equals the awaited state or
    goes on for ever. *)
Lemma wait_until_cases (st : DATA_BUFFER_STATES) (polls : list float) :
  (exists skipped v later,
      polls = skipped ++ v :: later
      /\ Forall (fun u => PrimFloat.eqb u (sv st) = false) skipped
      /\ PrimFloat.eqb v (sv st) = true)
  \/ Forall (fun u => PrimFloat.eqb u (sv st) = false) polls.
Proof.
  induction polls as [| u polls IH].
  - right. constructor.
  - destruct (PrimFloat.eqb u (sv st)) eqn:Hu.
    + left. exists [], u, polls. repeat split; [constructor | exact Hu].
    + destruct IH as [(sk & v & later & -> & Hs & Hv) | Hall].
      * left. exists (u :: sk), v, later.
        repeat split; [constructor; assumption | exact Hv].
      * right. constructor; assumption.
Qed.

(** *** The control messages of a step *)

Lemma recv_check_some (s : step) (i t : Z) :
  nth_error (tags s) (Z.to_nat i) = Some t ->
  recv_check s i = ([Mpi (Recv COMM_RECEIVER i t CHECK)],
                    Val (mkStatus i t)).
Proof. intros H. unfold recv_check. rewrite H, bind_call. reflexivity. Qed.

Lemma check_rank_agree (s : step) (t0 i : Z) (st : Status) :
  nth_error (tags s) (Z.to_nat i) = Some t0 ->
  check_rank s t0 st i = ([Mpi (Recv COMM_RECEIVER i t0 CHECK)],
                          Val (mkStatus i t0)).
Proof.
  intros H. unfold check_rank. rewrite (recv_check_some _ _ _ H), bind_val.
  cbn [Get_tag]. rewrite Z.eqb_refl. reflexivity.
Qed.

Lemma check_rank_differ (s : step) (t0 j tj : Z) (st : Status) :
  nth_error (tags s) (Z.to_nat j) = Some tj -> tj <> t0 ->
  check_rank s t0 st j
  = ([Mpi (Recv COMM_RECEIVER j tj CHECK); log_exception abnormal_state tj],
     Exit (Returned ERROR)).
Proof.
  intros H Hne. unfold check_rank.
  rewrite (recv_check_some _ _ _ H), bind_val. cbn [Get_tag].
  destruct (Z.eqb_spec t0 tj) as [-> | _]; [now elim Hne |].
  cbn [negb]. rewrite bind_call. reflexivity.
Qed.

Lemma check_all_agree (s : step) (t0 : Z) (ranks : list Z) :
  forall st,
    (forall i, In i ranks -> nth_error (tags s) (Z.to_nat i) = Some t0) ->
    Get_tag st = t0 ->
    exists st',
      iterate (check_rank s t0) st ranks = (checks t0 ranks, Val st')
      /\ Get_tag st' = t0.
Proof.
  induction ranks as [| i ranks IH]; intros st Hall Hst.
  - exists st. split; [reflexivity | exact Hst].
  - cbn [iterate].
    rewrite (check_rank_agree s t0 i st (Hall i (or_introl eq_refl))).
    destruct (IH (mkStatus i t0)) as (st' & Heq & Htag).
    + intros k Hk. apply Hall. now right.
    + reflexivity.
    + exists st'. split; [| exact Htag]. rewrite bind_val, Heq. reflexivity.
Qed.

Lemma check_first_differ (s : step) (t0 j tj : Z) (l1 l2 : list Z)
      (st : Status) :
  (forall i, In i l1 -> nth_error (tags s) (Z.to_nat i) = Some t0) ->
  Get_tag st = t0 ->
  nth_error (tags s) (Z.to_nat j) = Some tj -> tj <> t0 ->
  iterate (check_rank s t0) st (l1 ++ j :: l2)
  = (checks t0 l1
     ++ [Mpi (Recv COMM_RECEIVER j tj CHECK);
         log_exception abnormal_state tj],
     Exit (Returned ERROR)).
Proof.
  intros Hall Hst Hj Hne.
  destruct (check_all_agree s t0 l1 st Hall Hst) as (st' & Heq & _).
  rewrite iterate_app, Heq, bind_val. cbn [iterate].
  rewrite (check_rank_differ s t0 j tj st' Hj Hne). reflexivity.
Qed.

(** Among the ranks from 1 on there is a first one whose tag differs from
    the tag of rank 0, if there is one at all. *)
Lemma first_differing (tgs : list Z) (t0 : Z) (n : nat) :
  (n <= length tgs)%nat ->
  (forall k, (1 <= k < n)%nat -> nth_error tgs k = Some t0)
  \/ exists j tj,
      (1 <= j < n)%nat /\ nth_error tgs j = Some tj /\ tj <> t0
      /\ forall k, (1 <= k < j)%nat -> nth_error tgs k = Some t0.
Proof.
  induction n as [| n IH]; intros Hn.
  - left. intros k Hk. lia.
  - destruct IH as [Hall | Hex]; [lia | |].
    + destruct (Nat.eq_dec n 0) as [-> | Hn0].
      { left. intros k Hk. lia. }
      destruct (nth_error tgs n) as [tn |] eqn:Htn.
      * destruct (Z.eq_dec tn t0) as [-> | Hne].
        -- left. intros k Hk.
           destruct (Nat.eq_dec k n) as [-> | Hkn]; [exact Htn |].
           apply Hall. lia.
        -- right. exists n, tn. repeat split; try lia; assumption.
      * apply nth_error_None in Htn. lia.
    + right. destruct Hex as (j & tj & Hj & Hnth & Hne & Hbefore).
      exists j, tj. repeat split; try lia; assumption.
Qed.

(** *** The payload of a step *)

Lemma offset_S (pk : list (Z * list float)) (n : nat) (shape : Z)
      (data : list float) :
  nth_error pk n = Some (shape, data) ->
  offset pk (S n) = offset pk n + shape.
Proof.
  intros H. unfold offset.
  destruct (nth_error_split pk n H) as (l1 & l2 & -> & <-).
  rewrite (firstn_app (S (length l1))), firstn_all2 by lia.
  replace (S (length l1) - length l1)%nat with 1%nat by lia.
  rewrite firstn_app, firstn_all, Nat.sub_diag. cbn [firstn].
  rewrite app_nil_r, !map_app, !sum_app. simpl. lia.
Qed.

Lemma offset_all (pk : list (Z * list float)) :
  offset pk (length pk) = sum (map fst pk).
Proof. unfold offset. now rewrite firstn_all. Qed.

Lemma receive_from_some (s : step) (head : Z) (n : nat) (shape : Z)
      (data : list float) :
  nth_error (packets s) n = Some (shape, data) ->
  receive_from s head (Z.of_nat n)
  = ([Mpi (Send COMM_RECEIVER (Z.of_nat n) 0 (MPI_BOOL true));
      Mpi (Recv COMM_RECEIVER (Z.of_nat n) 0 (MPI_INT [shape]));
      Mpi (RecvInto COMM_RECEIVER (Z.of_nat n) 0 head data)],
     Val (int32 (head + shape))).
Proof.
  intros H. unfold receive_from.
  rewrite bind_call, Nat2Z.id, H, !bind_call. reflexivity.
Qed.

(** Past 32 bits the running head wraps: after a first shape of
    2147483647 a second shape of 1 gives -2147483648. *)
Lemma receive_from_wraps (s : step) (data : list float) :
  nth_error (packets s) 1 = Some (1, data) ->
  receive_from s 2147483647 1
  = ([Mpi (Send COMM_RECEIVER 1 0 (MPI_BOOL true));
      Mpi (Recv COMM_RECEIVER 1 0 (MPI_INT [1]));
      Mpi (RecvInto COMM_RECEIVER 1 0 2147483647 data)],
     Val (-2147483648)).
Proof. intros H. exact (receive_from_some s 2147483647 1 1 data H). Qed.

(** As long as the sums of the shape values fit 32 bits, the running head
    after the first [n] ranks is the sum of their shape values, and the
    payload of each rank lands at the sum of the shape values of the ranks
    before it. *)
Lemma receive_from_ranks (s : step) (n : nat) :
  (n <= length (packets s))%nat ->
  (forall k, (k <= n)%nat ->
             - 2 ^ 31 <= offset (packets s) k < 2 ^ 31) ->
  iterate (receive_from s) 0 (range 0 n)
  = (flat_map (transfer (packets s)) (seq 0 n),
     Val (offset (packets s) n)).
Proof.
  induction n as [| n IH]; intros Hn Hfit.
  - reflexivity.
  - destruct (nth_error (packets s) n) as [[shape data] |] eqn:Hnth;
      [| apply nth_error_None in Hnth; lia].
    rewrite range_snoc by lia.
    rewrite (iterate_snoc _ _ _ _ _ _
               (IH ltac:(lia) (fun k Hk => Hfit k ltac:(lia)))).
    rewrite (receive_from_some s _ n shape data Hnth).
    rewrite seq_S, flat_map_app. cbn [fst snd flat_map plus].
    unfold transfer at 3. rewrite Hnth, app_nil_r.
    rewrite <- (offset_S _ _ _ _ Hnth).
    now rewrite (int32_small _ (Hfit (S n) (le_n _))).
Qed.

(** *** One iteration of [_receive] *)

(** The control messages of a step in which every rank sends the tag
    [t]. *)
Lemma receive_checks (N : nat) (s : step) (t : Z) :
  (1 <= N)%nat -> tags s = repeat t N ->
  exists st,
    (status_ <- recv_check s 0 ;;
     iterate (check_rank s (Get_tag status_)) status_ (range 1 N))
    = (checks t (range 0 N), Val st)
    /\ Get_tag st = t.
Proof.
  intros HN Htags.
  assert (Hnth : forall k, (k < N)%nat -> nth_error (tags s) k = Some t).
  { intros k Hk. rewrite Htags. now apply nth_error_repeat. }
  rewrite (recv_check_some s 0 t (Hnth 0%nat ltac:(lia))), bind_val.
  cbn [Get_tag].
  destruct (check_all_agree s t (range 1 N) (mkStatus 0 t)) as (st & Heq & Ht).
  - intros i Hi. apply in_range in Hi. destruct Hi as (k & -> & Hk).
    rewrite Nat2Z.id. apply Hnth. lia.
  - reflexivity.
  - exists st. split; [| exact Ht]. rewrite Heq.
    rewrite (range_cons 0 N) by lia. reflexivity.
Qed.

(** A step of payload: every rank sends the tag 0, the state cell comes to
    hold [READY_TO_RECEIVE], and every rank delivers its packet. *)
Lemma receive_body_payload (N : nat) (count : Z) (s : step)
      (skipped : list float) (v : float) (later : list float) :
  (1 <= N)%nat -> tags s = repeat 0 N ->
  polls s = skipped ++ v :: later ->
  Forall (fun u => PrimFloat.eqb u (sv READY_TO_RECEIVE) = false) skipped ->
  PrimFloat.eqb v (sv READY_TO_RECEIVE) = true ->
  length (packets s) = N ->
  (forall k, (k <= N)%nat ->
             - 2 ^ 31 <= offset (packets s) k < 2 ^ 31) ->
  _receive_body sv N count s
  = (checks 0 (range 0 N) ++ polled skipped v
     ++ flat_map (transfer (packets s)) (seq 0 N)
     ++ [set_ready_state_at (-1) READY_TO_TRANSFORM INPUT;
         set_header_at (-2) (sum (map fst (packets s))) INPUT],
     Val count).
Proof.
  intros HN Htags Hpolls Hsk Hv Hpk Hfit. subst N. unfold _receive_body.
  destruct (receive_checks _ s 0 HN Htags) as (st & Heq & Hst).
  rewrite <- bind_assoc, Heq, bind_val, Hst. cbn [Z.eqb].
  rewrite Hpolls, (wait_until_found _ _ _ _ Hsk Hv), bind_val.
  rewrite (receive_from_ranks s (length (packets s)) (le_n _) Hfit).
  rewrite bind_val, !bind_call. cbn [fst snd ret].
  rewrite offset_all. reflexivity.
Qed.

Lemma receive_body_skip (N : nat) (count : Z) (s : step) :
  (1 <= N)%nat -> tags s = repeat 1 N ->
  _receive_body sv N count s = (checks 1 (range 0 N), Val (count + 1)).
Proof.
  intros HN Htags. unfold _receive_body.
  destruct (receive_checks N s 1 HN Htags) as (st & Heq & Hst).
  rewrite <- bind_assoc, Heq, bind_val, Hst. cbn [Z.eqb Pos.eqb fst snd ret].
  now rewrite app_nil_r.
Qed.

Lemma receive_body_end (N : nat) (count : Z) (s : step) :
  (1 <= N)%nat -> tags s = repeat 2 N ->
  _receive_body sv N count s = (checks 2 (range 0 N), Exit (Returned OK)).
Proof.
  intros HN Htags. unfold _receive_body.
  destruct (receive_checks N s 2 HN Htags) as (st & Heq & Hst).
  rewrite <- bind_assoc, Heq, bind_val, Hst.
  cbn [Z.eqb Pos.eqb fst snd exit_with]. now rewrite app_nil_r.
Qed.

Lemma receive_body_bad_tag (N : nat) (count : Z) (s : step) (t : Z) :
  (1 <= N)%nat -> tags s = repeat t N ->
  t <> 0 -> t <> 1 -> t <> 2 ->
  _receive_body sv N count s
  = (checks t (range 0 N) ++ [log_exception bad_mpi_tag t],
     Exit (Returned ERROR)).
Proof.
  intros HN Htags H0 H1 H2. unfold _receive_body.
  destruct (receive_checks N s t HN Htags) as (st & Heq & Hst).
  rewrite <- bind_assoc, Heq, bind_val, Hst.
  destruct (Z.eqb_spec t 0) as [? | _]; [contradiction |].
  destruct (Z.eqb_spec t 1) as [? | _]; [contradiction |].
  destruct (Z.eqb_spec t 2) as [? | _]; [contradiction |].
  rewrite bind_call. reflexivity.
Qed.

(** A step of payload in which the state cell never comes to hold
    [READY_TO_RECEIVE]: the rank polls, and exchanges nothing. *)
Lemma receive_body_polling (N : nat) (count : Z) (s : step) :
  (1 <= N)%nat -> tags s = repeat 0 N ->
  Forall (fun u => PrimFloat.eqb u (sv READY_TO_RECEIVE) = false) (polls s) ->
  _receive_body sv N count s
  = (checks 0 (range 0 N) ++ polling (polls s), Exit Waiting).
Proof.
  intros HN Htags Hp. unfold _receive_body.
  destruct (receive_checks N s 0 HN Htags) as (st & Heq & Hst).
  rewrite <- bind_assoc, Heq, bind_val, Hst. cbn [Z.eqb].
  rewrite (wait_until_starved _ _ Hp). reflexivity.
Qed.

(** The ranks before [j] send the tag of rank 0 and the rank [j] sends
    another one: the step ends there, with the log entry. *)
Lemma receive_body_differ (N : nat) (count : Z) (s : step) (t0 : Z)
      (j : nat) (tj : Z) :
  (1 <= j < N)%nat ->
  nth_error (tags s) 0 = Some t0 ->
  (forall k, (1 <= k < j)%nat -> nth_error (tags s) k = Some t0) ->
  nth_error (tags s) j = Some tj -> tj <> t0 ->
  _receive_body sv N count s
  = (checks t0 (range 0 j)
     ++ [Mpi (Recv COMM_RECEIVER (Z.of_nat j) tj CHECK);
         log_exception abnormal_state tj],
     Exit (Returned ERROR)).
Proof.
  intros Hj H0 Hbefore Hnth Hne. unfold _receive_body.
  rewrite (recv_check_some s 0 t0 H0), bind_val. cbn [Get_tag].
  rewrite (range_split 1 j N) by lia. rewrite (range_cons j N) by lia.
  rewrite (check_first_differ s t0 (Z.of_nat j) tj).
  - rewrite (range_cons 0 j) by lia. reflexivity.
  - intros i Hi. apply in_range in Hi. destruct Hi as (k & -> & Hk).
    rewrite Nat2Z.id. now apply Hbefore.
  - reflexivity.
  - now rewrite Nat2Z.id.
  - exact Hne.
Qed.

(** *** One iteration of [_send] *)

Lemma await_demand_eq (d : demand) :
  await_demand d
  = (refusals (refused d)
     ++ [Mpi (Recv COMM_SENDER (source d) (tag d) (OBJ true))],
     Val (mkStatus (source d) (tag d))).
Proof.
  unfold await_demand.
  assert (H : forall l,
             iterate (fun (_ : unit) (m : Z * Z) =>
                        call (Mpi (Recv COMM_SENDER (fst m) (snd m)
                                        (OBJ false)))) tt l
             = (refusals l, Val tt)).
  { induction l as [| m l IH]; [reflexivity |].
    cbn [iterate]. rewrite bind_call. cbn beta. rewrite IH. reflexivity. }
  rewrite H, bind_val, bind_call. reflexivity.
Qed.

Lemma send_body_payload (count : Z) (d : demand) (skipped : list float)
      (v : float) (later : list float) :
  tag d = 0 ->
  demand_polls d = skipped ++ v :: later ->
  Forall (fun u => PrimFloat.eqb u (sv READY_TO_TRANSFORM) = false) skipped ->
  PrimFloat.eqb v (sv READY_TO_TRANSFORM) = true ->
  _send_body sv count d
  = (refusals (refused d)
     ++ [Mpi (Recv COMM_SENDER (source d) 0 (OBJ true))]
     ++ polled skipped v
     ++ [spikes_to_rate count (-2) INPUT;
         set_ready_state_at (-1) READY_TO_RECEIVE INPUT]
     ++ emitted (source d) (times d) (rates d),
     Val (count + 1)).
Proof.
  intros Ht Hp Hsk Hv. unfold _send_body.
  rewrite await_demand_eq, bind_val. cbn [Get_tag Get_source].
  rewrite Ht. cbn [Z.eqb].
  rewrite Hp, (wait_until_found _ _ _ _ Hsk Hv), bind_val, !bind_call.
  cbn [fst snd ret]. rewrite <- !app_assoc. reflexivity.
Qed.

Lemma send_body_polling (count : Z) (d : demand) :
  tag d = 0 ->
  Forall (fun u => PrimFloat.eqb u (sv READY_TO_TRANSFORM) = false)
         (demand_polls d) ->
  _send_body sv count d
  = (refusals (refused d)
     ++ [Mpi (Recv COMM_SENDER (source d) 0 (OBJ true))]
     ++ polling (demand_polls d),
     Exit Waiting).
Proof.
  intros Ht Hp. unfold _send_body.
  rewrite await_demand_eq, bind_val. cbn [Get_tag Get_source].
  rewrite Ht. cbn [Z.eqb].
  rewrite (wait_until_starved _ _ Hp). cbn [bind fst snd].
  rewrite <- !app_assoc. reflexivity.
Qed.

Lemma send_body_end (count : Z) (d : demand) :
  tag d = 1 ->
  _send_body sv count d
  = (refusals (refused d)
     ++ [Mpi (Recv COMM_SENDER (source d) 1 (OBJ true))],
     Exit (Returned OK)).
Proof.
  intros Ht. unfold _send_body.
  rewrite await_demand_eq, bind_val. cbn [Get_tag Get_source].
  rewrite Ht. cbn [Z.eqb Pos.eqb fst snd exit_with]. now rewrite app_nil_r.
Qed.

Lemma send_body_bad_tag (count : Z) (d : demand) :
  tag d <> 0 -> tag d <> 1 ->
  _send_body sv count d
  = (refusals (refused d)
     ++ [Mpi (Recv COMM_SENDER (source d) (tag d) (OBJ true));
         log_exception bad_mpi_tag (tag d)],
     Exit (Returned ERROR)).
Proof.
  intros H0 H1. unfold _send_body.
  rewrite await_demand_eq, bind_val. cbn [Get_tag Get_source].
  destruct (Z.eqb_spec (tag d) 0) as [? | _]; [contradiction |].
  destruct (Z.eqb_spec (tag d) 1) as [? | _]; [contradiction |].
  rewrite bind_call. cbn [fst snd exit_with].
  rewrite <- app_assoc. reflexivity.
Qed.

(** *** What the traces contain *)

Lemma counts_app (l1 l2 : list event) :
  counts (l1 ++ l2) = counts l1 ++ counts l2.
Proof. apply flat_map_app. Qed.

Lemma counts_refusals (l : list (Z * Z)) : counts (refusals l) = [].
Proof. induction l as [| m l IH]; [reflexivity | exact IH]. Qed.

Lemma counts_polling (l : list float) : counts (polling l) = [].
Proof. induction l as [| u l IH]; [reflexivity | exact IH]. Qed.

Lemma counts_polled (l : list float) (v : float) : counts (polled l v) = [].
Proof.
  unfold polled. fold (polling l). now rewrite counts_app, counts_polling.
Qed.

Lemma moves_payload_checks (t : Z) (ranks : list Z) :
  existsb moves_payload (checks t ranks) = false.
Proof. induction ranks as [| i ranks IH]; [reflexivity | exact IH]. Qed.

(** An iteration of [_send] either calls the mediator once, with the count
    of the loop, and goes on with the next count, or leaves the loop
    without a call of the mediator. *)
Lemma send_body_counts (count : Z) (d : demand) :
  (counts (fst (_send_body sv count d)) = [count]
   /\ snd (_send_body sv count d) = Val (count + 1))
  \/ (counts (fst (_send_body sv count d)) = []
      /\ exists o, snd (_send_body sv count d) = Exit o).
Proof.
  destruct (Z.eq_dec (tag d) 0) as [H0 | H0].
  - destruct (wait_until_cases READY_TO_TRANSFORM (demand_polls d))
      as [(sk & v & later & Hp & Hsk & Hv) | Hall].
    + left. rewrite (send_body_payload count d sk v later H0 Hp Hsk Hv).
      cbn [fst snd]. split; [| reflexivity].
      rewrite !counts_app, counts_refusals, counts_polled. reflexivity.
    + right. rewrite (send_body_polling count d H0 Hall). cbn [fst snd].
      split; [| now exists Waiting].
      rewrite !counts_app, counts_refusals, counts_polling. reflexivity.
  - right. destruct (Z.eq_dec (tag d) 1) as [H1 | H1].
    + rewrite (send_body_end count d H1). cbn [fst snd].
      split; [| now exists (Returned OK)].
      rewrite counts_app, counts_refusals. reflexivity.
    + rewrite (send_body_bad_tag count d H0 H1). cbn [fst snd].
      split; [| now exists (Returned ERROR)].
      rewrite counts_app, counts_refusals. reflexivity.
Qed.

Lemma send_loop_counts (demands : list demand) :
  forall c0,
    let run := iterate (_send_body sv) c0 demands in
    counts (fst run)
    = map (fun i => c0 + Z.of_nat i) (seq 0 (length (counts (fst run))))
    /\ forall c, snd run = Val c
                 -> c = c0 + Z.of_nat (length (counts (fst run))).
Proof.
  induction demands as [| d demands IH]; intros c0; cbn zeta.
  - cbn. split; [reflexivity |]. intros c [= <-]. lia.
  - cbn [iterate].
    destruct (send_body_counts c0 d) as [[Hc Hs] | [Hc (o & Hs)]];
      destruct (_send_body sv c0 d) as [tr r]; cbn [fst snd] in Hc, Hs;
      subst r.
    + rewrite bind_val. specialize (IH (c0 + 1)). cbn zeta in IH.
      destruct (iterate (_send_body sv) (c0 + 1) demands) as [tr' r'].
      cbn [fst snd] in *. destruct IH as [IHc IHv].
      rewrite counts_app, Hc. cbn [app length seq map]. split.
      * rewrite IHc at 1. rewrite <- seq_shift, map_map.
        f_equal; [f_equal; lia |]. apply map_ext. intros i. lia.
      * intros c Hr. rewrite (IHv c Hr). lia.
    + cbn [bind fst snd]. rewrite Hc. split; [reflexivity | discriminate].
Qed.

(** *** The claims on the NEST to TVB direction *)

(** C2.  In the receive loop of the NEST to TVB direction, at any step that
    the loop reaches, if some further rank [i] in [1, N) delivers a control
    tag that differs from the tag [t0] of rank 0, then the loop returns
    ERROR: it stops at the first such rank [j], logs the tag of that rank,
    and has exchanged no payload in that step (the trace of the step holds
    the control messages up to rank [j] and the log entry, nothing
    else). *)
Theorem C2_differing_tags_return_error
        (N : nat) (pre rest : list step) (s : step) (trp : list event)
        (c t0 : Z) (i : nat) (ti : Z) :
  iterate (_receive_body sv N) 0 pre = (trp, Val c) ->
  length (tags s) = N ->
  nth_error (tags s) 0 = Some t0 ->
  (1 <= i < N)%nat -> nth_error (tags s) i = Some ti -> ti <> t0 ->
  exists (j : nat) (tj : Z),
    (1 <= j <= i)%nat /\ nth_error (tags s) j = Some tj /\ tj <> t0
    /\ (forall k, (1 <= k < j)%nat -> nth_error (tags s) k = Some t0)
    /\ _receive sv N (pre ++ s :: rest)
       = (trp ++ checks t0 (range 0 j)
          ++ [Mpi (Recv COMM_RECEIVER (Z.of_nat j) tj CHECK);
              log_exception abnormal_state tj],
          Returned ERROR)
    /\ existsb moves_payload
               (checks t0 (range 0 j)
                ++ [Mpi (Recv COMM_RECEIVER (Z.of_nat j) tj CHECK);
                    log_exception abnormal_state tj]) = false.
Proof.
  intros Hpre Hlen H0 Hi Hnth Hne.
  destruct (first_differing (tags s) t0 (S i) ltac:(lia))
    as [Hall | (j & tj & Hj & Hjnth & Hjne & Hbefore)].
  - rewrite (Hall i ltac:(lia)) in Hnth. now injection Hnth as <-.
  - exists j, tj. repeat split; try lia; try assumption.
    + unfold _receive. apply (while_true_step _ _ _ _ _ _ _ _ _ Hpre).
      apply (receive_body_differ N c s t0 j tj); try assumption. lia.
    + rewrite existsb_app, moves_payload_checks. reflexivity.
Qed.

(** C3.  In the emit loop of the NEST to TVB direction, on a demand with
    tag 0 the sender polls the state cell until it reads
    [READY_TO_TRANSFORM] (the values read before differ from it, and while
    none equals it the sender only polls), then calls
    [mediator.spikes_to_rate] with the count of the loop, writes
    [READY_TO_RECEIVE] to the state cell, and only then sends, to the source
    of the demand and with tag 0, the two times as doubles, the length of
    the rate as one 32-bit integer and the rate as doubles, in this order;
    the count of the loop goes up by one. *)
Theorem C3_emit_on_demand
        (pre : list demand) (d : demand) (trp : list event) (c : Z) :
  iterate (_send_body sv) 0 pre = (trp, Val c) ->
  tag d = 0 ->
  (forall skipped v later,
      demand_polls d = skipped ++ v :: later ->
      Forall (fun u => PrimFloat.eqb u (sv READY_TO_TRANSFORM) = false)
             skipped ->
      PrimFloat.eqb v (sv READY_TO_TRANSFORM) = true ->
      iterate (_send_body sv) 0 (pre ++ [d])
      = (trp ++ refusals (refused d)
         ++ [Mpi (Recv COMM_SENDER (source d) 0 (OBJ true))]
         ++ polled skipped v
         ++ [spikes_to_rate c (-2) INPUT;
             set_ready_state_at (-1) READY_TO_RECEIVE INPUT]
         ++ [Mpi (Send COMM_SENDER (source d) 0
                       (MPI_DOUBLE [fst (times d); snd (times d)]));
             Mpi (Send COMM_SENDER (source d) 0
                       (MPI_INT [Z.of_nat (length (rates d))]));
             Mpi (Send COMM_SENDER (source d) 0 (MPI_DOUBLE (rates d)))],
         Val (c + 1)))
  /\ (Forall (fun u => PrimFloat.eqb u (sv READY_TO_TRANSFORM) = false)
             (demand_polls d) ->
      iterate (_send_body sv) 0 (pre ++ [d])
      = (trp ++ refusals (refused d)
         ++ [Mpi (Recv COMM_SENDER (source d) 0 (OBJ true))]
         ++ polling (demand_polls d),
         Exit Waiting)).
Proof.
  intros Hpre Ht. split.
  - intros sk v later Hp Hsk Hv.
    rewrite (iterate_snoc _ _ _ _ _ _ Hpre).
    rewrite (send_body_payload c d sk v later Ht Hp Hsk Hv). reflexivity.
  - intros Hall. rewrite (iterate_snoc _ _ _ _ _ _ Hpre).
    rewrite (send_body_polling c d Ht Hall). reflexivity.
Qed.

(** C5.  In the receive loop of the NEST to TVB direction, at any step of
    payload that the loop reaches (every rank sends the tag 0, the state
    cell comes to hold [READY_TO_RECEIVE]) and in which the sums of the
    shape values of the first ranks all fit 32 bits, the payload of rank 0
    lands at index 0 of the buffer, the payload of every further rank at the
    sum of the shape values of the ranks before it in that step, and the
    header written at index -2 is the sum of the shape values received in
    that step, whatever the steps before have received. *)
Theorem C5_header_is_sum_of_shapes
        (N : nat) (pre : list step) (s : step) (trp : list event) (c : Z)
        (skipped : list float) (v : float) (later : list float) :
  iterate (_receive_body sv N) 0 pre = (trp, Val c) ->
  (1 <= N)%nat -> tags s = repeat 0 N ->
  polls s = skipped ++ v :: later ->
  Forall (fun u => PrimFloat.eqb u (sv READY_TO_RECEIVE) = false) skipped ->
  PrimFloat.eqb v (sv READY_TO_RECEIVE) = true ->
  length (packets s) = N ->
  (forall k, (k <= N)%nat ->
             - 2 ^ 31 <= offset (packets s) k < 2 ^ 31) ->
  iterate (_receive_body sv N) 0 (pre ++ [s])
  = (trp ++ checks 0 (range 0 N) ++ polled skipped v
     ++ flat_map (transfer (packets s)) (seq 0 N)
     ++ [set_ready_state_at (-1) READY_TO_TRANSFORM INPUT;
         set_header_at (-2) (sum (map fst (packets s))) INPUT],
     Val c)
  /\ offset (packets s) 0 = 0
  /\ forall n shape data,
      nth_error (packets s) n = Some (shape, data) ->
      offset (packets s) (S n) = offset (packets s) n + shape.
Proof.
  intros Hpre HN Htags Hp Hsk Hv Hpk Hfit. split; [| split].
  - rewrite (iterate_snoc _ _ _ _ _ _ Hpre).
    rewrite (receive_body_payload N c s skipped v later
               HN Htags Hp Hsk Hv Hpk Hfit).
    reflexivity.
  - reflexivity.
  - intros n shape data. apply offset_S.
Qed.

(** C8, as the code has it.  The step counter is a local variable of the
    emit loop.  It starts at 0; the calls of the mediator carry, in order,
    the counts 0, 1, 2, ...; and when the loop goes on after its last
    demand its count is the number of calls of the mediator made so far:
    the loop adds one to its count after each emit, and the mediator only
    receives the count as an argument. *)
Theorem C8_count_follows_emits (demands : list demand) :
  counts (fst (iterate (_send_body sv) 0 demands))
  = range 0 (length (counts (fst (iterate (_send_body sv) 0 demands))))
  /\ forall c,
      snd (iterate (_send_body sv) 0 demands) = Val c ->
      c = Z.of_nat (length (counts (fst (iterate (_send_body sv) 0
                                                 demands)))).
Proof.
  destruct (send_loop_counts demands 0) as [Hc Hv]. split.
  - rewrite Hc at 1. unfold range. rewrite Nat.sub_0_r. reflexivity.
  - intros c Hr. rewrite (Hv c Hr). lia.
Qed.

(** C10.  On a rank of the intra-communicator other than 0 and 1, [start]
    of [CommunicatorNestTvb] runs neither loop, makes no call at all, and
    returns [None]. *)
Theorem C10_other_ranks_idle
        (rank : Z) (remote_size : nat) (steps : list step)
        (demands : list demand) :
  rank <> 0 -> rank <> 1 ->
  start sv rank remote_size steps demands = ([], None).
Proof.
  intros H0 H1. unfold start.
  destruct (Z.eqb_spec rank 0) as [? | _]; [contradiction |].
  destruct (Z.eqb_spec rank 1) as [? | _]; [contradiction |].
  reflexivity.
Qed.

Lemma start_rank_0 (remote_size : nat) (steps : list step)
      (demands : list demand) :
  start sv 0 remote_size steps demands
  = (fst (_receive sv remote_size steps),
     Some (snd (_receive sv remote_size steps))).
Proof.
  unfold start. cbn [Z.eqb]. now destruct (_receive sv remote_size steps).
Qed.

Lemma start_rank_1 (remote_size : nat) (steps : list step)
      (demands : list demand) :
  start sv 1 remote_size steps demands
  = (fst (_send sv demands), Some (snd (_send sv demands))).
Proof. unfold start. cbn [Z.eqb]. now destruct (_send sv demands). Qed.

(** *** A step of payload does not return *)

Lemma wait_until_stays (st : DATA_BUFFER_STATES) (polls : list float) :
  stays (wait_until sv st polls).
Proof.
  induction polls as [| u polls IH]; cbn [wait_until].
  - apply stays_waiting.
  - apply stays_call. destruct (PrimFloat.eqb u (sv st)).
    + apply stays_ret.
    + apply stays_call. exact IH.
Qed.

Lemma receive_from_stays (s : step) (head source : Z) :
  stays (receive_from s head source).
Proof.
  unfold receive_from. apply stays_call.
  destruct (nth_error (packets s) (Z.to_nat source)) as [[shape data] |].
  - do 2 apply stays_call. apply stays_ret.
  - apply stays_waiting.
Qed.

Lemma receive_body_payload_stays (N : nat) (count : Z) (s : step) :
  (1 <= N)%nat -> tags s = repeat 0 N ->
  stays (_receive_body sv N count s).
Proof.
  intros HN Htags. unfold _receive_body.
  destruct (receive_checks N s 0 HN Htags) as (st & Heq & Hst).
  rewrite <- bind_assoc, Heq. intros r. rewrite bind_val, Hst. cbn [snd Z.eqb].
  revert r. apply stays_bind; [apply wait_until_stays | intros _].
  apply stays_bind.
  - apply stays_iterate. intros h i. apply receive_from_stays.
  - intros h. do 2 apply stays_call. apply stays_ret.
Qed.

Lemma send_body_payload_stays (count : Z) (d : demand) :
  tag d = 0 -> stays (_send_body sv count d).
Proof.
  intros Ht. unfold _send_body. rewrite await_demand_eq.
  intros r. rewrite bind_val. cbn [snd Get_tag]. rewrite Ht. cbn [Z.eqb].
  revert r. apply stays_bind; [apply wait_until_stays | intros _].
  do 5 apply stays_call. apply stays_ret.
Qed.
End NestTvbFacts.

(** ** TVB to NEST: the pieces of the two loops *)

Section TvbNestFacts.
Import TvbNest TvbNestTrace.
Variable tv : DATA_BUFFER_STATES -> float.

Lemma tvb_wait_until_found (st : DATA_BUFFER_STATES) (skipped : list float)
      (v : float) (later : list float) :
  Forall (fun u => PrimFloat.eqb u (tv st) = false) skipped ->
  PrimFloat.eqb v (tv st) = true ->
  wait_until tv st (skipped ++ v :: later) = (polled skipped v, Val tt).
Proof.
  intros Hs Hv. unfold polled.
  induction Hs as [| u skipped Hu _ IH]; cbn [app wait_until flat_map].
  - rewrite bind_call, Hv. reflexivity.
  - rewrite bind_call, Hu, bind_call, IH. reflexivity.
Qed.

Lemma tvb_wait_until_starved (st : DATA_BUFFER_STATES) (polls : list float) :
  Forall (fun u => PrimFloat.eqb u (tv st) = false) polls ->
  wait_until tv st polls = (polling polls, Exit Waiting).
Proof.
  intros Hs. unfold polling.
  induction Hs as [| u polls Hu _ IH]; cbn [wait_until flat_map].
  - reflexivity.
  - rewrite bind_call, Hu, bind_call, IH. reflexivity.
Qed.

Lemma tvb_wait_until_result (st : DATA_BUFFER_STATES) (polls : list float) :
  snd (wait_until tv st polls) = Val tt
  \/ snd (wait_until tv st polls) = Exit Waiting.
Proof.
  induction polls as [| u polls IH]; cbn [wait_until].
  - now right.
  - rewrite bind_call. cbn [snd].
    destruct (PrimFloat.eqb u (tv st)); [now left |].
    rewrite bind_call. exact IH.
Qed.

(** *** The control messages of a demand *)

Lemma tvb_checks (d : demand) (t : Z) (ranks : list Z) :
  forall st,
    (forall i, In i ranks -> nth_error (tags d) (Z.to_nat i) = Some t) ->
    exists st',
      iterate (recv_check d) st ranks = (checks t ranks, Val st')
      /\ (ranks <> [] -> Get_tag st' = t).
Proof.
  induction ranks as [| i ranks IH]; intros st Hall.
  - exists st. split; [reflexivity | congruence].
  - destruct (IH (mkStatus i t)) as (st' & Heq & Htag).
    { intros k Hk. apply Hall. now right. }
    exists st'. split.
    + cbn [iterate]. unfold recv_check at 1.
      rewrite (Hall i (or_introl eq_refl)), bind_call. cbn [fst snd ret].
      rewrite bind_val, Heq. reflexivity.
    + intros _. destruct ranks as [| k ranks].
      * cbn in Heq. now injection Heq as <-.
      * apply Htag. discriminate.
Qed.

Lemma tvb_checks_same (N : nat) (d : demand) (t : Z) (st : Status) :
  (1 <= N)%nat -> tags d = repeat t N ->
  exists st',
    iterate (recv_check d) st (range 0 N) = (checks t (range 0 N), Val st')
    /\ Get_tag st' = t.
Proof.
  intros HN Htags.
  destruct (tvb_checks d t (range 0 N) st) as (st' & Heq & Htag).
  - intros i Hi. apply in_range in Hi.
    destruct Hi as (k & -> & Hk). rewrite Nat2Z.id, Htags.
    apply nth_error_repeat. lia.
  - exists st'. split; [exact Heq |]. apply Htag.
    rewrite (range_cons 0 N) by lia. discriminate.
Qed.

(** *** The answer to one rank *)

Lemma select_ids (first : Z) (d : demand) (ids : list Z) :
  Forall (fun id => 0 <= id - first < Z.of_nat (length (spikes_times d)))
         ids ->
  forall shape data,
    iterate (select first d) (shape, data) ids
    = ([], Val (shape ++ map (fun id => Z.of_nat (length (train_of
                                          first (spikes_times d) id))) ids,
                data ++ map (train_of first (spikes_times d)) ids)).
Proof.
  induction 1 as [| id ids Hid _ IH]; intros shape data.
  - cbn [iterate map]. now rewrite !app_nil_r.
  - cbn [iterate]. unfold select at 1.
    rewrite (py_index_nonneg _ _ [] Hid), bind_ret. cbn [fst snd].
    rewrite IH. cbn [map]. unfold train_of. now rewrite <- !app_assoc.
Qed.

Lemma serve_nothing (first : Z) (d : demand) (st : Status) (n : nat)
      (ids : list Z) :
  nth_error (requests d) n = Some (0, ids) ->
  serve first d st (Z.of_nat n)
  = (answer first (spikes_times d) (Z.of_nat n) 0 ids,
     Val (mkStatus (Z.of_nat n) 0)).
Proof.
  intros H. unfold serve. rewrite Nat2Z.id, H, bind_call. reflexivity.
Qed.

Lemma serve_ids (first : Z) (d : demand) (st : Status) (n : nat) (k : Z)
      (ids : list Z) :
  nth_error (requests d) n = Some (k, ids) ->
  0 < k -> Z.of_nat (length ids) = k ->
  Forall (fun id => 0 <= id - first < Z.of_nat (length (spikes_times d)))
         ids ->
  sum (map (fun id => Z.of_nat (length (train_of first (spikes_times d)
                                                 id))) ids) < 2 ^ 31 ->
  serve first d st (Z.of_nat n)
  = (answer first (spikes_times d) (Z.of_nat n) k ids,
     Val (mkStatus (Z.of_nat n) 0)).
Proof.
  intros H Hk Hlen Hids Hsum. unfold serve, answer.
  rewrite Nat2Z.id, H, bind_call. cbn [fst snd Get_source].
  destruct (Z.eqb_spec k 0) as [? | _]; [lia |].
  destruct (Z.ltb_spec k 0) as [? | _]; [lia |].
  cbn [negb]. rewrite bind_call. cbn [fst snd].
  rewrite (select_ids first d ids Hids), bind_val. cbn [app fst snd].
  destruct ids as [| id ids']; [cbn in Hlen; lia |].
  rewrite !bind_call. cbn [fst snd ret hd].
  unfold packet_sizes, packet_times.
  set (per_train := map _ (id :: ids')) in *.
  assert (Hnn : Forall (fun z => 0 <= z) per_train).
  { subst per_train. apply Forall_forall. intros z Hz.
    apply in_map_iff in Hz. destruct Hz as (i & <- & _). lia. }
  rewrite map_int32_small; [reflexivity |].
  constructor.
  - pose proof (sum_nonneg _ Hnn). lia.
  - pose proof (le_sum _ Hnn) as Hle.
    rewrite Forall_forall in Hnn, Hle. apply Forall_forall.
    intros z Hz. specialize (Hnn z Hz). specialize (Hle z Hz). lia.
Qed.

Lemma serve_well_formed (first : Z) (d : demand) (st : Status) (n : nat)
      (k : Z) (ids : list Z) :
  nth_error (requests d) n = Some (k, ids) ->
  well_formed first (spikes_times d) (k, ids) ->
  serve first d st (Z.of_nat n)
  = (answer first (spikes_times d) (Z.of_nat n) k ids,
     Val (mkStatus (Z.of_nat n) 0)).
Proof.
  intros H [-> | (Hk & Hlen & Hids & Hsum)].
  - now apply serve_nothing.
  - now apply serve_ids.
Qed.

Lemma serve_ranks (first : Z) (d : demand) (n : nat) :
  Forall (well_formed first (spikes_times d)) (requests d) ->
  (n <= length (requests d))%nat ->
  forall st,
  exists st',
    iterate (serve first d) st (range 0 n)
    = (answers first (spikes_times d) (requests d) n, Val st').
Proof.
  intros Hwf. induction n as [| n IH]; intros Hn st.
  - exists st. reflexivity.
  - destruct (IH ltac:(lia) st) as (st1 & Heq).
    destruct (nth_error (requests d) n) as [[k ids] |] eqn:Hnth;
      [| apply nth_error_None in Hnth; lia].
    exists (mkStatus (Z.of_nat n) 0).
    rewrite range_snoc by lia. rewrite (iterate_snoc _ _ _ _ _ _ Heq).
    rewrite (serve_well_formed first d st1 n k ids Hnth).
    + unfold answers. rewrite seq_S, flat_map_app. cbn [fst snd flat_map plus].
      rewrite Hnth, app_nil_r. reflexivity.
    + rewrite Forall_forall in Hwf. apply Hwf.
      eapply nth_error_In; eassumption.
Qed.

(** *** One iteration of [_send] *)

Lemma tvb_send_body_payload (first : Z) (N : nat) (st : Status) (d : demand)
      (skipped : list float) (v : float) (later : list float) :
  (1 <= N)%nat -> tags d = repeat 0 N ->
  demand_polls d = skipped ++ v :: later ->
  Forall (fun u => PrimFloat.eqb u (tv HEAD) = false) skipped ->
  PrimFloat.eqb v (tv HEAD) = true ->
  length (requests d) = N ->
  Forall (well_formed first (spikes_times d)) (requests d) ->
  exists st',
    _send_body tv first N st d
    = (checks 0 (range 0 N) ++ polled skipped v
       ++ [rate_to_spike; set_ready_at (-1)]
       ++ answers first (spikes_times d) (requests d) N,
       Val st').
Proof.
  intros HN Htags Hp Hsk Hv Hlen Hwf. unfold _send_body.
  destruct (tvb_checks_same N d 0 st HN Htags) as (st1 & Heq & Hst).
  rewrite Heq, bind_val, Hst. cbn [Z.eqb].
  rewrite Hp, (tvb_wait_until_found _ _ _ _ Hsk Hv), bind_val, !bind_call.
  destruct (serve_ranks first d N Hwf ltac:(lia) st1) as (st' & Hserve).
  exists st'. rewrite Hserve. reflexivity.
Qed.

Lemma tvb_send_body_skip (first : Z) (N : nat) (st : Status) (d : demand) :
  (1 <= N)%nat -> tags d = repeat 1 N ->
  exists st', _send_body tv first N st d = (checks 1 (range 0 N), Val st').
Proof.
  intros HN Htags. unfold _send_body.
  destruct (tvb_checks_same N d 1 st HN Htags) as (st1 & Heq & Hst).
  exists st1. rewrite Heq, bind_val, Hst. cbn [Z.eqb Pos.eqb fst snd ret].
  now rewrite app_nil_r.
Qed.

Lemma tvb_send_body_end (first : Z) (N : nat) (st : Status) (d : demand) :
  (1 <= N)%nat -> tags d = repeat 2 N ->
  _send_body tv first N st d = (checks 2 (range 0 N), Exit (Returned OK)).
Proof.
  intros HN Htags. unfold _send_body.
  destruct (tvb_checks_same N d 2 st HN Htags) as (st1 & Heq & Hst).
  rewrite Heq, bind_val, Hst. cbn [Z.eqb Pos.eqb fst snd exit_with].
  now rewrite app_nil_r.
Qed.

Lemma tvb_send_body_bad_tag (first : Z) (N : nat) (st : Status) (d : demand)
      (t : Z) :
  (1 <= N)%nat -> tags d = repeat t N ->
  t <> 0 -> t <> 1 -> t <> 2 ->
  _send_body tv first N st d
  = (checks t (range 0 N) ++ [log_exception bad_mpi_tag t],
     Exit (Returned ERROR)).
Proof.
  intros HN Htags H0 H1 H2. unfold _send_body.
  destruct (tvb_checks_same N d t st HN Htags) as (st1 & Heq & Hst).
  rewrite Heq, bind_val, Hst.
  destruct (Z.eqb_spec t 0) as [? | _]; [contradiction |].
  destruct (Z.eqb_spec t 1) as [? | _]; [contradiction |].
  destruct (Z.eqb_spec t 2) as [? | _]; [contradiction |].
  rewrite bind_call. reflexivity.
Qed.

Lemma tvb_wait_until_stays (st : DATA_BUFFER_STATES) (polls : list float) :
  stays (wait_until tv st polls).
Proof.
  induction polls as [| u polls IH]; cbn [wait_until].
  - apply stays_waiting.
  - apply stays_call. destruct (PrimFloat.eqb u (tv st)).
    + apply stays_ret.
    + apply stays_call. exact IH.
Qed.

Lemma select_stays (first : Z) (d : demand)
      (acc : list Z * list (list float)) (i : Z) :
  stays (select first d acc i).
Proof.
  unfold select. destruct (py_index (spikes_times d) (i - first)).
  - apply stays_ret.
  - apply stays_raised.
Qed.

Lemma serve_stays (first : Z) (d : demand) (st : Status) (rank : Z) :
  stays (serve first d st rank).
Proof.
  unfold serve.
  destruct (nth_error (requests d) (Z.to_nat rank)) as [[k ids] |];
    [| apply stays_waiting].
  apply stays_call. destruct (negb (k =? 0)); [| apply stays_ret].
  destruct (k <? 0); [apply stays_raised |].
  apply stays_call. apply stays_bind.
  - apply stays_iterate. intros acc i. apply select_stays.
  - intros [shape data]. destruct ids as [| id ids].
    + apply stays_raised.
    + do 2 apply stays_call. apply stays_ret.
Qed.

Lemma tvb_send_body_payload_stays (first : Z) (N : nat) (st : Status)
      (d : demand) :
  (1 <= N)%nat -> tags d = repeat 0 N ->
  stays (_send_body tv first N st d).
Proof.
  intros HN Htags. unfold _send_body.
  destruct (tvb_checks_same N d 0 st HN Htags) as (st1 & Heq & Hst).
  rewrite Heq. intros r. rewrite bind_val, Hst. cbn [snd Z.eqb].
  revert r. apply stays_bind; [apply tvb_wait_until_stays | intros _].
  do 2 apply stays_call. apply stays_iterate. intros s i. apply serve_stays.
Qed.

(** *** One iteration of [_receive] *)

Lemma announce_eq (N : nat) :
  announce N = (announced (range 0 N), Val tt).
Proof.
  unfold announce, announced.
  induction (range 0 N) as [| rank l IH]; [reflexivity |].
  cbn [iterate map]. rewrite bind_call. cbn beta. rewrite IH. reflexivity.
Qed.

Lemma tvb_receive_body_payload (N : nat) (s : step) (skipped : list float)
      (v : float) (later : list float) :
  step_tag s = 0 ->
  polls s = skipped ++ v :: later ->
  Forall (fun u => PrimFloat.eqb u (tv READY) = false) skipped ->
  PrimFloat.eqb v (tv READY) = true ->
  _receive_body tv N tt s
  = (announced (range 0 N)
     ++ [Mpi (RecvInto COMM_RECEIVER 0 0 0 (step_times s))]
     ++ polled skipped v
     ++ [Mpi (Recv COMM_RECEIVER 0 0 (MPI_INT [size s]));
         Mpi (RecvInto COMM_RECEIVER 0 0 2 (rate s));
         set_head_at (-1);
         set_custom_value_at (-2) (size s)],
     Val tt).
Proof.
  intros Ht Hp Hsk Hv. unfold _receive_body.
  rewrite announce_eq, bind_val, bind_call. cbn [Get_tag Get_source].
  rewrite Ht. cbn [Z.eqb].
  rewrite Hp, (tvb_wait_until_found _ _ _ _ Hsk Hv), bind_val, !bind_call.
  cbn [fst snd ret]. reflexivity.
Qed.

Lemma tvb_receive_body_payload_stays (N : nat) (s : step) :
  step_tag s = 0 -> stays (_receive_body tv N tt s).
Proof.
  intros Ht. unfold _receive_body. rewrite announce_eq.
  intros r. rewrite bind_val, bind_call. cbn [snd Get_tag]. rewrite Ht.
  cbn [Z.eqb]. revert r.
  apply stays_bind; [apply tvb_wait_until_stays | intros _].
  do 4 apply stays_call. apply stays_ret.
Qed.

Lemma tvb_receive_body_end (N : nat) (s : step) :
  step_tag s = 1 ->
  _receive_body tv N tt s
  = (announced (range 0 N)
     ++ [Mpi (RecvInto COMM_RECEIVER 0 1 0 (step_times s))],
     Exit (Returned OK)).
Proof.
  intros Ht. unfold _receive_body.
  rewrite announce_eq, bind_val, bind_call. cbn [Get_tag Get_source].
  rewrite Ht. reflexivity.
Qed.

Lemma tvb_receive_body_bad_tag (N : nat) (s : step) :
  step_tag s <> 0 -> step_tag s <> 1 ->
  _receive_body tv N tt s
  = (announced (range 0 N)
     ++ [Mpi (RecvInto COMM_RECEIVER 0 (step_tag s) 0 (step_times s));
         log_exception bad_mpi_tag (step_tag s)],
     Exit (Returned ERROR)).
Proof.
  intros H0 H1. unfold _receive_body.
  rewrite announce_eq, bind_val, bind_call. cbn [Get_tag Get_source].
  destruct (Z.eqb_spec (step_tag s) 0) as [? | _]; [contradiction |].
  destruct (Z.eqb_spec (step_tag s) 1) as [? | _]; [contradiction |].
  rewrite bind_call. reflexivity.
Qed.

(** What comes after a [return] of [_receive] is not looked at. *)
Lemma tvb_receive_returned (N : nat) (steps rest : list step)
      (tr : list event) (r : Response) :
  _receive tv N steps = (tr, Returned r) ->
  _receive tv N (steps ++ rest) = (tr, Returned r).
Proof.
  unfold _receive. intros H.
  destruct (while_true (_receive_body tv N) tt steps) as [tr1 o] eqn:Hw.
  injection H as <- ->.
  now rewrite (while_true_returned _ _ rest _ _ _ Hw).
Qed.

(** *** The claim on the emit loop of the TVB to NEST direction *)

(** C7.  In the emit loop of the TVB to NEST direction, at any step of
    payload that the loop reaches (every NEST rank sends the tag 0, the
    state cell comes to hold [HEAD]), after the call of the mediator and
    the re-arming of the state cell the sender receives from each rank, in
    the order of the ranks, an integer [k]; when [k] is 0 it sends nothing
    to that rank; when [k] is positive it receives the [k] requested ids,
    takes for each id the spike train at index id minus
    [id_first_spike_detector], and sends to that rank first the 32-bit
    integers [total; count of train 0; ...; count of train k-1], [total]
    being the sum of the counts, then the spike times of these trains, one
    train after the other, as doubles; both messages carry the first
    requested id as their tag. *)
Theorem C7_packets_for_requests
        (first : Z) (N : nat) (status0 : Status) (pre : list demand)
        (d : demand) (trp : list event) (st : Status)
        (skipped : list float) (v : float) (later : list float) :
  iterate (_send_body tv first N) status0 pre = (trp, Val st) ->
  (1 <= N)%nat -> tags d = repeat 0 N ->
  demand_polls d = skipped ++ v :: later ->
  Forall (fun u => PrimFloat.eqb u (tv HEAD) = false) skipped ->
  PrimFloat.eqb v (tv HEAD) = true ->
  length (requests d) = N ->
  Forall (well_formed first (spikes_times d)) (requests d) ->
  exists st',
    iterate (_send_body tv first N) status0 (pre ++ [d])
    = (trp ++ checks 0 (range 0 N) ++ polled skipped v
       ++ [rate_to_spike; set_ready_at (-1)]
       ++ flat_map
            (fun rank =>
               match nth_error (requests d) rank with
               | Some (k, ids) =>
                   Mpi (Recv COMM_SENDER (Z.of_nat rank) 0 (MPI_INT [k]))
                   :: (if k =? 0 then []
                       else
                         [Mpi (Recv COMM_SENDER (Z.of_nat rank) 0
                                    (MPI_INT ids));
                          Mpi (Send COMM_SENDER (Z.of_nat rank) (hd 0 ids)
                                    (MPI_INT (packet_sizes
                                                first (spikes_times d)
                                                ids)));
                          Mpi (Send COMM_SENDER (Z.of_nat rank) (hd 0 ids)
                                    (MPI_DOUBLE (packet_times
                                                   first (spikes_times d)
                                                   ids)))])
               | None => []
               end) (seq 0 N),
       Val st').
Proof.
  intros Hpre HN Htags Hp Hsk Hv Hlen Hwf.
  destruct (tvb_send_body_payload first N st d skipped v later
              HN Htags Hp Hsk Hv Hlen Hwf) as (st' & Heq).
  exists st'. rewrite (iterate_snoc _ _ _ _ _ _ Hpre), Heq. reflexivity.
Qed.
End TvbNestFacts.

(** ** The manager *)

(** C9, as the code has it.  On [stop], the manager of the TVB to NEST
    direction stops the communicator and then closes and finalizes one
    inter-group communicator, the one that this rank has opened: the output
    one on rank 0, the input one on every other rank.  [stop] of the
    communicator of the NEST to TVB direction closes nothing: it logs that it
    is not implemented and answers OK. *)
Theorem C9_stop_closes_the_intercomm_of_the_rank (rank : Z) :
  Manager.stop rank (Manager.data_channel_setup rank)
  = [Manager.communicator_stop OK;
     Manager.close_and_finalize
       (Some (if rank =? 0 then Manager.output_path else Manager.input_path))
       (Some (if rank =? 0 then Manager.output_path else Manager.input_path))]
  /\ NestTvb.stop
     = ([NestTvb.logger_exception "stop() is not implemented yet"], OK).
Proof.
  split; [| reflexivity].
  unfold Manager.stop, Manager.data_channel_setup.
  destruct (rank =? 0); reflexivity.
Qed.

(** Rank 0 closes the output intercomm and leaves the input one alone. *)
Lemma C9_rank_0_closes_the_output_only :
  Manager.stop 0 (Manager.data_channel_setup 0)
  = [Manager.communicator_stop OK;
     Manager.close_and_finalize (Some Manager.output_path)
                                (Some Manager.output_path)]
  /\ ~ (exists port,
           In (Manager.close_and_finalize (Some Manager.input_path) port)
              (Manager.stop 0 (Manager.data_channel_setup 0))).
Proof.
  split; [reflexivity |].
  intros (port & [H | [H | []]]); discriminate.
Qed.

(** ** The order of the two writes that end a step of payload *)

(** C1, on the code.  One step of payload in each direction: one peer, tag 0,
    the state cell ready at the first read.  In both receive loops the write
    to the state cell at index -1 that admits the consumer comes before the
    write of the header at index -2. *)
Theorem C1_state_cell_is_written_before_the_header :
  NestTvb._receive nest_tvb_values 1
    [NestTvb.mkStep [0] [1%float] [(3, [0.5; 1.5; 2.5]%float)]]
  = ([NestTvb.Mpi (Recv COMM_RECEIVER 0 0 CHECK);
      NestTvb.get_at (-1) NestTvb.INPUT 1;
      NestTvb.Mpi (Send COMM_RECEIVER 0 0 (MPI_BOOL true));
      NestTvb.Mpi (Recv COMM_RECEIVER 0 0 (MPI_INT [3]));
      NestTvb.Mpi (RecvInto COMM_RECEIVER 0 0 0 [0.5; 1.5; 2.5]%float);
      NestTvb.set_ready_state_at (-1) NestTvb.READY_TO_TRANSFORM
                                 NestTvb.INPUT;
      NestTvb.set_header_at (-2) 3 NestTvb.INPUT],
     Waiting)
  /\ TvbNest._receive tvb_nest_values 1
       [TvbNest.mkStep 0 [0; 1]%float [1%float] 1 [50%float]]
     = ([TvbNest.set_ready_at (-1);
         TvbNest.set_head_at (-2);
         TvbNest.Mpi (Send COMM_RECEIVER 0 0 (OBJ true));
         TvbNest.Mpi (RecvInto COMM_RECEIVER 0 0 0 [0; 1]%float);
         TvbNest.get_at (-1) 1;
         TvbNest.Mpi (Recv COMM_RECEIVER 0 0 (MPI_INT [1]));
         TvbNest.Mpi (RecvInto COMM_RECEIVER 0 0 2 [50%float]);
         TvbNest.set_head_at (-1);
         TvbNest.set_custom_value_at (-2) 1],
        Waiting).
Proof. split; vm_compute; reflexivity. Qed.

(** ** Who advances the count *)

(** The loops advance their counts themselves.  On a demand with tag 0 the
    body of the emit loop turns its count 0 into 1; the mediator is called
    with the count 0 and hands back times and rates only.  On a step with
    tag 1 the body of the receive loop turns its count 0 into 1 without any
    call of the mediator. *)
Lemma C8_the_loops_advance_their_own_count :
  NestTvb._send_body nest_tvb_values 0
    (NestTvb.mkDemand [] 0 0 [2%float] (0, 1)%float [])
  = ([NestTvb.Mpi (Recv COMM_SENDER 0 0 (OBJ true));
      NestTvb.get_at (-1) NestTvb.INPUT 2;
      NestTvb.spikes_to_rate 0 (-2) NestTvb.INPUT;
      NestTvb.set_ready_state_at (-1) NestTvb.READY_TO_RECEIVE NestTvb.INPUT;
      NestTvb.Mpi (Send COMM_SENDER 0 0 (MPI_DOUBLE [0; 1]%float));
      NestTvb.Mpi (Send COMM_SENDER 0 0 (MPI_INT [0]));
      NestTvb.Mpi (Send COMM_SENDER 0 0 (MPI_DOUBLE []))],
     Val 1)
  /\ NestTvb._receive_body nest_tvb_values 1 0 (NestTvb.mkStep [1] [] [])
     = ([NestTvb.Mpi (Recv COMM_RECEIVER 0 1 CHECK)], Val 1).
Proof. split; vm_compute; reflexivity. Qed.

(** ** The tags that end a loop *)

(** The emit loop of the TVB to NEST direction looks at the tag of the last
    rank only: an unknown tag from another rank goes unnoticed. *)
Lemma tvb_send_looks_at_the_last_tag_only :
  TvbNest._send tvb_nest_values 0 2 (mkStatus (-1) (-1))
    [TvbNest.mkDemand [7; 2] [] [] []]
  = ([TvbNest.Mpi (Recv COMM_SENDER 0 7 CHECK);
      TvbNest.Mpi (Recv COMM_SENDER 1 2 CHECK)],
     Returned OK).
Proof. vm_compute. reflexivity. Qed.

(** Two NEST ranks send the tags 0 and 1, both of them known tags: the
    receive loop of the NEST to TVB direction returns ERROR. *)
Lemma C4_error_without_an_unknown_tag :
  snd (NestTvb._receive nest_tvb_values 2 [NestTvb.mkStep [0; 1] [] []])
  = Returned ERROR
  /\ Forall (fun t => t = 0 \/ t = 1 \/ t = 2) [0; 1].
Proof.
  split; [vm_compute; reflexivity |].
  constructor; [now left |]. constructor; [right; now left |]. constructor.
Qed.

(** C4, as the code has it.  In a step in which the ranks of the peer all
    send the same tag [t] (the emit loop of the NEST to TVB direction and the
    receive loop of the TVB to NEST direction look at one message), each loop
    returns OK exactly when [t] is its closing tag and ERROR, with a log
    entry that names [t], exactly when [t] is none of its tags: the receive
    loop of the NEST to TVB direction closes on 2, goes on with 1 and knows 0,
    1, 2; its emit loop closes on 1 and knows 0, 1; the emit loop of the TVB
    to NEST direction closes on 2, goes on with 1 and knows 0, 1, 2; its
    receive loop closes on 1 and knows 0, 1.  The receive loop of the NEST to
    TVB direction returns ERROR also when a rank sends a tag that differs
    from the tag of rank 0.  Once a loop has returned, nothing that arrives
    later is looked at. *)
Theorem C4_loops_return_on_their_tags
        (sv : NestTvb.DATA_BUFFER_STATES -> float)
        (tv : TvbNest.DATA_BUFFER_STATES -> float)
        (first : Z) (N : nat) (t count : Z) (st : Status)
        (s : NestTvb.step) (d : NestTvb.demand)
        (e : TvbNest.demand) (u : TvbNest.step) :
  (1 <= N)%nat ->
  NestTvb.tags s = repeat t N -> NestTvb.tag d = t ->
  TvbNest.tags e = repeat t N -> TvbNest.step_tag u = t ->
  ((returns (NestTvb._receive_body sv N count s) OK <-> t = 2)
   /\ (returns (NestTvb._receive_body sv N count s) ERROR
       <-> t <> 0 /\ t <> 1 /\ t <> 2)
   /\ (t <> 0 -> t <> 1 -> t <> 2 ->
       In (NestTvb.log_exception NestTvb.bad_mpi_tag t)
          (fst (NestTvb._receive_body sv N count s)))
   /\ (t = 1 -> snd (NestTvb._receive_body sv N count s) = Val (count + 1)))
  /\ ((returns (NestTvb._send_body sv count d) OK <-> t = 1)
      /\ (returns (NestTvb._send_body sv count d) ERROR <-> t <> 0 /\ t <> 1)
      /\ (t <> 0 -> t <> 1 ->
          In (NestTvb.log_exception NestTvb.bad_mpi_tag t)
             (fst (NestTvb._send_body sv count d))))
  /\ ((returns (TvbNest._send_body tv first N st e) OK <-> t = 2)
      /\ (returns (TvbNest._send_body tv first N st e) ERROR
          <-> t <> 0 /\ t <> 1 /\ t <> 2)
      /\ (t <> 0 -> t <> 1 -> t <> 2 ->
          In (TvbNest.log_exception TvbNest.bad_mpi_tag t)
             (fst (TvbNest._send_body tv first N st e)))
      /\ (t = 1 -> exists st',
             snd (TvbNest._send_body tv first N st e) = Val st'))
  /\ ((returns (TvbNest._receive_body tv N tt u) OK <-> t = 1)
      /\ (returns (TvbNest._receive_body tv N tt u) ERROR
          <-> t <> 0 /\ t <> 1)
      /\ (t <> 0 -> t <> 1 ->
          In (TvbNest.log_exception TvbNest.bad_mpi_tag t)
             (fst (TvbNest._receive_body tv N tt u))))
  /\ (forall s' t0 j tj,
         (1 <= j < N)%nat ->
         nth_error (NestTvb.tags s') 0 = Some t0 ->
         (forall k, (1 <= k < j)%nat ->
                    nth_error (NestTvb.tags s') k = Some t0) ->
         nth_error (NestTvb.tags s') j = Some tj -> tj <> t0 ->
         returns (NestTvb._receive_body sv N count s') ERROR)
  /\ (forall steps rest tr r,
         NestTvb._receive sv N steps = (tr, Returned r) ->
         NestTvb._receive sv N (steps ++ rest) = (tr, Returned r))
  /\ (forall demands rest tr r,
         NestTvb._send sv demands = (tr, Returned r) ->
         NestTvb._send sv (demands ++ rest) = (tr, Returned r))
  /\ (forall demands rest tr r,
         TvbNest._send tv first N st demands = (tr, Returned r) ->
         TvbNest._send tv first N st (demands ++ rest) = (tr, Returned r))
  /\ (forall steps rest tr r,
         TvbNest._receive tv N steps = (tr, Returned r) ->
         TvbNest._receive tv N (steps ++ rest) = (tr, Returned r)).
Proof.
  intros HN Hs Hd He Hu.
  assert (Hcase : t = 0 \/ t = 1 \/ t = 2 \/ (t <> 0 /\ t <> 1 /\ t <> 2))
    by lia.
  repeat match goal with |- _ /\ _ => split end.
  (* the receive loop of the NEST to TVB direction *)
  - unfold returns.
    destruct Hcase as [-> | [-> | [-> | (H0 & H1 & H2)]]].
    + split; [| discriminate]. intros H.
      now apply (receive_body_payload_stays sv N count s HN Hs) in H.
    + rewrite (receive_body_skip sv N count s HN Hs). split; discriminate.
    + rewrite (receive_body_end sv N count s HN Hs). split; reflexivity.
    + rewrite (receive_body_bad_tag sv N count s t HN Hs H0 H1 H2).
      split; [discriminate | contradiction].
  - unfold returns.
    destruct Hcase as [-> | [-> | [-> | (H0 & H1 & H2)]]].
    + split; [| intros (H & _); now elim H]. intros H.
      now apply (receive_body_payload_stays sv N count s HN Hs) in H.
    + rewrite (receive_body_skip sv N count s HN Hs).
      split; [discriminate | intros (_ & H & _); now elim H].
    + rewrite (receive_body_end sv N count s HN Hs).
      split; [discriminate | intros (_ & _ & H); now elim H].
    + rewrite (receive_body_bad_tag sv N count s t HN Hs H0 H1 H2).
      split; [intros _; repeat split; assumption | reflexivity].
  - intros H0 H1 H2.
    rewrite (receive_body_bad_tag sv N count s t HN Hs H0 H1 H2).
    cbn [fst]. apply in_or_app. right. now left.
  - intros ->. now rewrite (receive_body_skip sv N count s HN Hs).
  (* the emit loop of the NEST to TVB direction *)
  - unfold returns. destruct (Z.eq_dec t 0) as [-> | H0].
    + split; [| discriminate]. intros H.
      now apply (send_body_payload_stays sv count d Hd) in H.
    + destruct (Z.eq_dec t 1) as [-> | H1].
      * rewrite (send_body_end sv count d Hd). split; reflexivity.
      * rewrite (send_body_bad_tag sv count d) by congruence.
        split; [discriminate | contradiction].
  - unfold returns. destruct (Z.eq_dec t 0) as [-> | H0].
    + split; [| intros (H & _); now elim H]. intros H.
      now apply (send_body_payload_stays sv count d Hd) in H.
    + destruct (Z.eq_dec t 1) as [-> | H1].
      * rewrite (send_body_end sv count d Hd).
        split; [discriminate | intros (_ & H); now elim H].
      * rewrite (send_body_bad_tag sv count d) by congruence.
        split; [intros _; split; assumption | reflexivity].
  - intros H0 H1. rewrite (send_body_bad_tag sv count d) by congruence.
    cbn [fst]. apply in_or_app. right. rewrite Hd. right. now left.
  (* the emit loop of the TVB to NEST direction *)
  - unfold returns.
    destruct Hcase as [-> | [-> | [-> | (H0 & H1 & H2)]]].
    + split; [| discriminate]. intros H.
      now apply (tvb_send_body_payload_stays tv first N st e HN He) in H.
    + destruct (tvb_send_body_skip tv first N st e HN He) as (st' & ->).
      split; discriminate.
    + rewrite (tvb_send_body_end tv first N st e HN He). split; reflexivity.
    + rewrite (tvb_send_body_bad_tag tv first N st e t HN He H0 H1 H2).
      split; [discriminate | contradiction].
  - unfold returns.
    destruct Hcase as [-> | [-> | [-> | (H0 & H1 & H2)]]].
    + split; [| intros (H & _); now elim H]. intros H.
      now apply (tvb_send_body_payload_stays tv first N st e HN He) in H.
    + destruct (tvb_send_body_skip tv first N st e HN He) as (st' & ->).
      split; [discriminate | intros (_ & H & _); now elim H].
    + rewrite (tvb_send_body_end tv first N st e HN He).
      split; [discriminate | intros (_ & _ & H); now elim H].
    + rewrite (tvb_send_body_bad_tag tv first N st e t HN He H0 H1 H2).
      split; [intros _; repeat split; assumption | reflexivity].
  - intros H0 H1 H2.
    rewrite (tvb_send_body_bad_tag tv first N st e t HN He H0 H1 H2).
    cbn [fst]. apply in_or_app. right. now left.
  - intros ->. destruct (tvb_send_body_skip tv first N st e HN He) as (st' & ->).
    now exists st'.
  (* the receive loop of the TVB to NEST direction *)
  - unfold returns. destruct (Z.eq_dec t 0) as [-> | H0].
    + split; [| discriminate]. intros H.
      now apply (tvb_receive_body_payload_stays tv N u Hu) in H.
    + destruct (Z.eq_dec t 1) as [-> | H1].
      * rewrite (tvb_receive_body_end tv N u Hu). split; reflexivity.
      * rewrite (tvb_receive_body_bad_tag tv N u) by congruence.
        split; [discriminate | contradiction].
  - unfold returns. destruct (Z.eq_dec t 0) as [-> | H0].
    + split; [| intros (H & _); now elim H]. intros H.
      now apply (tvb_receive_body_payload_stays tv N u Hu) in H.
    + destruct (Z.eq_dec t 1) as [-> | H1].
      * rewrite (tvb_receive_body_end tv N u Hu).
        split; [discriminate | intros (_ & H); now elim H].
      * rewrite (tvb_receive_body_bad_tag tv N u) by congruence.
        split; [intros _; split; assumption | reflexivity].
  - intros H0 H1. rewrite (tvb_receive_body_bad_tag tv N u) by congruence.
    cbn [fst]. apply in_or_app. right. rewrite Hu. right. now left.
  (* differing tags *)
  - intros s' t0 j tj Hj H0 Hbefore Hnth Hne. unfold returns.
    now rewrite (receive_body_differ sv N count s' t0 j tj Hj H0 Hbefore Hnth Hne).
  (* after a return *)
  - intros steps rest tr r. apply while_true_returned.
  - intros demands rest tr r. apply while_true_returned.
  - intros demands rest tr r. apply while_true_returned.
  - intros steps rest tr r. apply tvb_receive_returned.
Qed.

(** ** The claims at concrete inputs *)

(** Two NEST ranks send the tags 0 and 1 in the first step. *)
Lemma C2_two_ranks_tags_0_and_1 :
  NestTvb._receive nest_tvb_values 2 [NestTvb.mkStep [0; 1] [] []]
  = ([NestTvb.Mpi (Recv COMM_RECEIVER 0 0 CHECK);
      NestTvb.Mpi (Recv COMM_RECEIVER 1 1 CHECK);
      NestTvb.log_exception NestTvb.abnormal_state 1],
     Returned ERROR).
Proof.
  destruct (C2_differing_tags_return_error
              nest_tvb_values 2 [] [] (NestTvb.mkStep [0; 1] [] []) [] 0 0
              1%nat 1)
    as (j & tj & Hj & Hnth & _ & _ & Heq & _).
  - reflexivity.
  - reflexivity.
  - reflexivity.
  - lia.
  - reflexivity.
  - lia.
  - assert (j = 1%nat) as -> by lia.
    cbn in Hnth. injection Hnth as <-. exact Heq.
Defined.

(** One demand with tag 0 from rank 3; the state cell reads
    [READY_TO_TRANSFORM] at the second read. *)
Lemma C3_one_demand :
  iterate (NestTvb._send_body nest_tvb_values) 0
          [NestTvb.mkDemand [] 3 0 [1; 2]%float (0, 1)%float [0.5%float]]
  = ([NestTvb.Mpi (Recv COMM_SENDER 3 0 (OBJ true));
      NestTvb.get_at (-1) NestTvb.INPUT 1;
      NestTvb.sleep;
      NestTvb.get_at (-1) NestTvb.INPUT 2;
      NestTvb.spikes_to_rate 0 (-2) NestTvb.INPUT;
      NestTvb.set_ready_state_at (-1) NestTvb.READY_TO_RECEIVE NestTvb.INPUT;
      NestTvb.Mpi (Send COMM_SENDER 3 0 (MPI_DOUBLE [0; 1]%float));
      NestTvb.Mpi (Send COMM_SENDER 3 0 (MPI_INT [1]));
      NestTvb.Mpi (Send COMM_SENDER 3 0 (MPI_DOUBLE [0.5%float]))],
     Val 1).
Proof.
  destruct (C3_emit_on_demand
              nest_tvb_values []
              (NestTvb.mkDemand [] 3 0 [1; 2]%float (0, 1)%float [0.5%float])
              [] 0)
    as [Hemit _].
  - reflexivity.
  - reflexivity.
  - apply (Hemit [1%float] 2%float []).
    + reflexivity.
    + constructor; [reflexivity | constructor].
    + reflexivity.
Defined.

(** The four loops at the tag 2, with one peer rank. *)
Lemma C4_tag_2 :
  (returns (NestTvb._receive_body nest_tvb_values 1 0
                                  (NestTvb.mkStep [2] [] [])) OK
   <-> 2 = 2)
  /\ (returns (NestTvb._send_body
                 nest_tvb_values 0
                 (NestTvb.mkDemand [] 0 2 [] (0, 0)%float [])) ERROR
      <-> 2 <> 0 /\ 2 <> 1).
Proof.
  destruct (C4_loops_return_on_their_tags
              nest_tvb_values tvb_nest_values 0 1 2 0 (mkStatus 0 0)
              (NestTvb.mkStep [2] [] [])
              (NestTvb.mkDemand [] 0 2 [] (0, 0)%float [])
              (TvbNest.mkDemand [2] [] [] [])
              (TvbNest.mkStep 2 [] [] 0 []))
    as [[Hreceive _] [[_ [Hsend _]] _]].
  - lia.
  - reflexivity.
  - reflexivity.
  - reflexivity.
  - reflexivity.
  - split; [exact Hreceive | exact Hsend].
Defined.

(** Two NEST ranks deliver 3 and 2 doubles in the first step. *)
Lemma C5_two_ranks_shapes_3_and_2 :
  iterate (NestTvb._receive_body nest_tvb_values 2) 0
          [NestTvb.mkStep [0; 0] [1%float]
                          [(3, [0.5; 1.5; 2.5]%float); (2, [3.5; 4.5]%float)]]
  = ([NestTvb.Mpi (Recv COMM_RECEIVER 0 0 CHECK);
      NestTvb.Mpi (Recv COMM_RECEIVER 1 0 CHECK);
      NestTvb.get_at (-1) NestTvb.INPUT 1;
      NestTvb.Mpi (Send COMM_RECEIVER 0 0 (MPI_BOOL true));
      NestTvb.Mpi (Recv COMM_RECEIVER 0 0 (MPI_INT [3]));
      NestTvb.Mpi (RecvInto COMM_RECEIVER 0 0 0 [0.5; 1.5; 2.5]%float);
      NestTvb.Mpi (Send COMM_RECEIVER 1 0 (MPI_BOOL true));
      NestTvb.Mpi (Recv COMM_RECEIVER 1 0 (MPI_INT [2]));
      NestTvb.Mpi (RecvInto COMM_RECEIVER 1 0 3 [3.5; 4.5]%float);
      NestTvb.set_ready_state_at (-1) NestTvb.READY_TO_TRANSFORM
                                 NestTvb.INPUT;
      NestTvb.set_header_at (-2) 5 NestTvb.INPUT],
     Val 0).
Proof.
  destruct (C5_header_is_sum_of_shapes
              nest_tvb_values 2 []
              (NestTvb.mkStep [0; 0] [1%float]
                              [(3, [0.5; 1.5; 2.5]%float);
                               (2, [3.5; 4.5]%float)])
              [] 0 [] 1%float [])
    as [Heq _].
  - reflexivity.
  - lia.
  - reflexivity.
  - reflexivity.
  - constructor.
  - reflexivity.
  - reflexivity.
  - intros k Hk. destruct k as [| [| [| k]]]; [cbn; lia .. | lia].
  - exact Heq.
Defined.

(** One NEST rank asks for the generators 11 and 10, the first generator
    being 10; the mediator has produced two trains, of 2 spikes and of 1. *)
Lemma C7_one_rank_two_ids :
  exists st',
    iterate (TvbNest._send_body tvb_nest_values 10 1) (mkStatus (-1) (-1))
            [TvbNest.mkDemand [0] [0%float] [[0.25; 0.5]; [0.75]]%float
                              [(2, [11; 10])]]
    = ([TvbNest.Mpi (Recv COMM_SENDER 0 0 CHECK);
        TvbNest.get_at (-1) 0;
        TvbNest.rate_to_spike;
        TvbNest.set_ready_at (-1);
        TvbNest.Mpi (Recv COMM_SENDER 0 0 (MPI_INT [2]));
        TvbNest.Mpi (Recv COMM_SENDER 0 0 (MPI_INT [11; 10]));
        TvbNest.Mpi (Send COMM_SENDER 0 11 (MPI_INT [3; 1; 2]));
        TvbNest.Mpi (Send COMM_SENDER 0 11
                          (MPI_DOUBLE [0.75; 0.25; 0.5]%float))],
       Val st').
Proof.
  destruct (C7_packets_for_requests
              tvb_nest_values 10 1 (mkStatus (-1) (-1)) []
              (TvbNest.mkDemand [0] [0%float] [[0.25; 0.5]; [0.75]]%float
                                [(2, [11; 10])])
              [] (mkStatus (-1) (-1)) [] 0%float [])
    as (st' & Heq).
  - reflexivity.
  - lia.
  - reflexivity.
  - reflexivity.
  - constructor.
  - reflexivity.
  - reflexivity.
  - constructor; [| constructor]. right. cbn.
    repeat split; try lia; try reflexivity.
    constructor; [lia | constructor; [lia | constructor]].
  - exists st'. exact Heq.
Defined.

(** Rank 2 of a group of three. *)
Lemma C10_rank_2 :
  NestTvb.start nest_tvb_values 2 1
                [NestTvb.mkStep [2] [] []]
                [NestTvb.mkDemand [] 0 1 [] (0, 0)%float []]
  = ([], None).
Proof.
  apply (C10_other_ranks_idle nest_tvb_values 2 1); lia.
Defined.

(** * Further facts *)

(** ** NEST to TVB: nothing moves before the state cell allows it *)

Section NestTvbSafety.
Import NestTvb NestTvbTrace.
Variable sv : DATA_BUFFER_STATES -> float.

Lemma moves_payload_polling (l : list float) :
  existsb moves_payload (polling l) = false.
Proof. induction l as [| u l IH]; [reflexivity | exact IH]. Qed.

Lemma moves_payload_refusals (l : list (Z * Z)) :
  existsb moves_payload (refusals l) = false.
Proof. induction l as [| m l IH]; [reflexivity | exact IH]. Qed.

(** The control messages of a step, whatever the tags are: no payload
    moves, and if the loop over the ranks ends, the last tag is the tag of
    rank 0. *)
Lemma check_ranks_quiet (s : step) (t0 : Z) (ranks : list Z) :
  forall st,
    Get_tag st = t0 ->
    existsb moves_payload (fst (iterate (check_rank s t0) st ranks)) = false
    /\ forall st', snd (iterate (check_rank s t0) st ranks) = Val st' ->
                   Get_tag st' = t0.
Proof.
  induction ranks as [| i ranks IH]; intros st Hst.
  - split; [reflexivity |]. intros st' [= <-]. exact Hst.
  - cbn [iterate]. unfold check_rank at 1 3, recv_check.
    destruct (nth_error (tags s) (Z.to_nat i)) as [t |].
    + rewrite bind_call. cbn [fst snd ret]. rewrite bind_val. cbn [Get_tag].
      destruct (Z.eqb_spec t0 t) as [<- | Hne]; cbn [negb].
      * cbn [fst snd app ret]. rewrite bind_val. cbn [fst snd app existsb].
        destruct (IH (mkStatus i t0) eq_refl) as [Hq Hv]. split.
        -- cbn [moves_payload orb]. exact Hq.
        -- exact Hv.
      * rewrite bind_call. cbn. split; [reflexivity | discriminate].
    + cbn. split; [reflexivity | discriminate].
Qed.

Lemma receive_body_quiet (N : nat) (count : Z) (s : step) :
  Forall (fun u => PrimFloat.eqb u (sv READY_TO_RECEIVE) = false) (polls s) ->
  existsb moves_payload (fst (_receive_body sv N count s)) = false.
Proof.
  intros Hp. unfold _receive_body, recv_check.
  destruct (nth_error (tags s) (Z.to_nat 0)) as [t0 |]; [| reflexivity].
  rewrite bind_call. cbn [fst snd ret]. rewrite bind_val. cbn [Get_tag fst snd].
  destruct (check_ranks_quiet s t0 (range 1 N) (mkStatus 0 t0) eq_refl)
    as [Hq Hv].
  destruct (iterate (check_rank s t0) (mkStatus 0 t0) (range 1 N))
    as [tr [st' | o]]; cbn [fst snd] in Hq, Hv.
  - rewrite bind_val, (Hv st' eq_refl). cbn [fst snd app existsb].
    rewrite existsb_app, Hq. cbn [moves_payload orb].
    destruct (Z.eqb_spec t0 0) as [_ | _].
    + rewrite (wait_until_starved _ _ _ Hp). cbn [bind fst].
      apply moves_payload_polling.
    + destruct (t0 =? 1); [reflexivity |].
      destruct (t0 =? 2); [reflexivity |]. rewrite bind_call. reflexivity.
  - cbn [bind fst app existsb moves_payload orb]. exact Hq.
Qed.

Lemma send_body_quiet (count : Z) (d : demand) :
  Forall (fun u => PrimFloat.eqb u (sv READY_TO_TRANSFORM) = false)
         (demand_polls d) ->
  existsb moves_payload (fst (_send_body sv count d)) = false.
Proof.
  intros Hp.
  destruct (Z.eq_dec (tag d) 0) as [H0 | H0].
  - rewrite (send_body_polling sv count d H0 Hp). cbn [fst].
    rewrite !existsb_app, moves_payload_refusals, moves_payload_polling.
    reflexivity.
  - destruct (Z.eq_dec (tag d) 1) as [H1 | H1].
    + rewrite (send_body_end sv count d H1). cbn [fst].
      rewrite existsb_app, moves_payload_refusals. reflexivity.
    + rewrite (send_body_bad_tag sv count d H0 H1). cbn [fst].
      rewrite existsb_app, moves_payload_refusals. reflexivity.
Qed.

(** X1.  In the receive loop of the NEST to TVB direction, a step in which
    no read of the state cell gives [READY_TO_RECEIVE] moves no payload,
    whatever the tags of the NEST ranks are: the rank sends no go-ahead,
    receives no shape and no doubles, and writes neither the state cell nor
    the header; it leaves the trace of the steps before untouched. *)
Theorem X1_receiver_waits_for_ready_to_receive
        (N : nat) (pre : list step) (s : step) (trp : list event) (c : Z) :
  iterate (_receive_body sv N) 0 pre = (trp, Val c) ->
  Forall (fun u => PrimFloat.eqb u (sv READY_TO_RECEIVE) = false) (polls s) ->
  exists tr r,
    iterate (_receive_body sv N) 0 (pre ++ [s]) = (trp ++ tr, r)
    /\ existsb moves_payload tr = false.
Proof.
  intros Hpre Hp.
  exists (fst (_receive_body sv N c s)), (snd (_receive_body sv N c s)).
  split.
  - apply (iterate_snoc _ _ _ _ _ _ Hpre).
  - now apply receive_body_quiet.
Qed.

(** X2.  In the emit loop of the NEST to TVB direction, a demand during
    which no read of the state cell gives [READY_TO_TRANSFORM] moves no
    payload, whatever its tag is: the mediator is not called, the state cell
    is not written and nothing is sent to TVB. *)
Theorem X2_sender_waits_for_ready_to_transform
        (pre : list demand) (d : demand) (trp : list event) (c : Z) :
  iterate (_send_body sv) 0 pre = (trp, Val c) ->
  Forall (fun u => PrimFloat.eqb u (sv READY_TO_TRANSFORM) = false)
         (demand_polls d) ->
  exists tr r,
    iterate (_send_body sv) 0 (pre ++ [d]) = (trp ++ tr, r)
    /\ existsb moves_payload tr = false.
Proof.
  intros Hpre Hp.
  exists (fst (_send_body sv c d)), (snd (_send_body sv c d)).
  split.
  - apply (iterate_snoc _ _ _ _ _ _ Hpre).
  - now apply send_body_quiet.
Qed.
End NestTvbSafety.

(** ** TVB to NEST: the receive loop and the requests that fail *)

Lemma py_index_out {A : Type} (l : list A) (j : Z) :
  j < - Z.of_nat (length l) \/ Z.of_nat (length l) <= j ->
  py_index l j = None.
Proof.
  intros H. unfold py_index.
  destruct (Z.leb_spec 0 j); destruct (Z.ltb_spec j (Z.of_nat (length l)));
    destruct (Z.leb_spec (- Z.of_nat (length l)) j);
    destruct (Z.ltb_spec j 0); cbn [andb]; try reflexivity; lia.
Qed.

Lemma py_index_negative {A : Type} (l : list A) (j : Z) (d : A) :
  - Z.of_nat (length l) <= j < 0 ->
  py_index l j = Some (nth (Z.to_nat (Z.of_nat (length l) + j)) l d).
Proof.
  intros H. unfold py_index.
  destruct (Z.leb_spec 0 j); [lia |]. cbn [andb].
  destruct (Z.leb_spec (- Z.of_nat (length l)) j); [| lia].
  destruct (Z.ltb_spec j 0); [| lia]. cbn [andb].
  apply nth_error_nth'. lia.
Qed.

Lemma length_concat_sum (l : list (list float)) :
  Z.of_nat (length (concat l)) = sum (map (fun t => Z.of_nat (length t)) l).
Proof.
  induction l as [| t l IH]; [reflexivity |].
  cbn [concat map sum fold_right]. rewrite length_app, Nat2Z.inj_add.
  unfold sum in IH. now rewrite IH.
Qed.

Section TvbNestMore.
Import TvbNest TvbNestTrace.
Variable tv : DATA_BUFFER_STATES -> float.

Lemma tvb_receive_body_polling (N : nat) (s : step) :
  step_tag s = 0 ->
  Forall (fun u => PrimFloat.eqb u (tv READY) = false) (polls s) ->
  _receive_body tv N tt s
  = (announced (range 0 N)
     ++ [Mpi (RecvInto COMM_RECEIVER 0 0 0 (step_times s))]
     ++ polling (polls s),
     Exit Waiting).
Proof.
  intros Ht Hp. unfold _receive_body.
  rewrite announce_eq, bind_val, bind_call. cbn [Get_tag Get_source].
  rewrite Ht. cbn [Z.eqb].
  rewrite (tvb_wait_until_starved _ _ _ Hp). reflexivity.
Qed.

(** X3.  In the receive loop of the TVB to NEST direction, the two times of
    a step are received into the buffer, from index 0 on, before the state
    cell is read: in a step with tag 0 during which no read of the state cell
    gives [READY], the rank has announced itself and has received the times
    into the buffer, and then polls; it receives no size and no rate and
    writes neither the state cell nor the header. *)
Theorem X3_times_are_received_before_the_wait
        (N : nat) (pre : list step) (s : step) (trp : list event) :
  iterate (_receive_body tv N) tt pre = (trp, Val tt) ->
  step_tag s = 0 ->
  Forall (fun u => PrimFloat.eqb u (tv READY) = false) (polls s) ->
  iterate (_receive_body tv N) tt (pre ++ [s])
  = (trp ++ announced (range 0 N)
     ++ [Mpi (RecvInto COMM_RECEIVER 0 0 0 (step_times s))]
     ++ polling (polls s),
     Exit Waiting).
Proof.
  intros Hpre Ht Hp. rewrite (iterate_snoc _ _ _ _ _ _ Hpre).
  now rewrite (tvb_receive_body_polling N s Ht Hp).
Qed.

(** X4.  In the receive loop of the TVB to NEST direction, at any step of
    payload that the loop reaches (tag 0, the state cell comes to hold
    [READY]), the rank receives the size from rank 0, receives the rate into
    the buffer from index 2 on, behind the two times, writes [HEAD] to the
    state cell and writes to the header the size that it has received in
    this step, whatever the number of doubles of the rate is. *)
Theorem X4_header_is_the_received_size
        (N : nat) (pre : list step) (s : step) (trp : list event)
        (skipped : list float) (v : float) (later : list float) :
  iterate (_receive_body tv N) tt pre = (trp, Val tt) ->
  step_tag s = 0 ->
  polls s = skipped ++ v :: later ->
  Forall (fun u => PrimFloat.eqb u (tv READY) = false) skipped ->
  PrimFloat.eqb v (tv READY) = true ->
  iterate (_receive_body tv N) tt (pre ++ [s])
  = (trp ++ announced (range 0 N)
     ++ [Mpi (RecvInto COMM_RECEIVER 0 0 0 (step_times s))]
     ++ polled skipped v
     ++ [Mpi (Recv COMM_RECEIVER 0 0 (MPI_INT [size s]));
         Mpi (RecvInto COMM_RECEIVER 0 0 2 (rate s));
         set_head_at (-1);
         set_custom_value_at (-2) (size s)],
     Val tt).
Proof.
  intros Hpre Ht Hp Hsk Hv. rewrite (iterate_snoc _ _ _ _ _ _ Hpre).
  now rewrite (tvb_receive_body_payload tv N s skipped v later Ht Hp Hsk Hv).
Qed.

(** *** Requests that the emit loop cannot answer *)

Lemma serve_ranks_prefix (first : Z) (d : demand) (n : nat) :
  Forall (well_formed first (spikes_times d)) (firstn n (requests d)) ->
  (n <= length (requests d))%nat ->
  forall st,
  exists st',
    iterate (serve first d) st (range 0 n)
    = (answers first (spikes_times d) (requests d) n, Val st').
Proof.
  induction n as [| n IH]; intros Hwf Hn st.
  - exists st. reflexivity.
  - destruct (nth_error (requests d) n) as [[k ids] |] eqn:Hnth;
      [| apply nth_error_None in Hnth; lia].
    assert (Hsplit : firstn (S n) (requests d)
                     = firstn n (requests d) ++ [(k, ids)]).
    { destruct (nth_error_split _ _ Hnth) as (l1 & l2 & Heq & Hl).
      rewrite Heq. subst n.
      rewrite (firstn_app (S (length l1))), firstn_all2 by lia.
      replace (S (length l1) - length l1)%nat with 1%nat by lia.
      rewrite firstn_app, firstn_all, Nat.sub_diag. cbn [firstn].
      now rewrite app_nil_r. }
    rewrite Hsplit in Hwf. apply Forall_app in Hwf. destruct Hwf as [Hwf Hlast].
    destruct (IH Hwf ltac:(lia) st) as (st1 & Heq).
    exists (mkStatus (Z.of_nat n) 0).
    rewrite range_snoc by lia. rewrite (iterate_snoc _ _ _ _ _ _ Heq).
    rewrite (serve_well_formed first d st1 n k ids Hnth).
    + unfold answers. rewrite seq_S, flat_map_app. cbn [fst snd flat_map plus].
      rewrite Hnth, app_nil_r. reflexivity.
    + now inversion Hlast.
Qed.

(** The ranks before [n] are answered; the answer to the rank [n] ends the
    loop with [o]. *)
Lemma tvb_send_body_failing (first : Z) (N n : nat) (st : Status) (d : demand)
      (skipped : list float) (v : float) (later : list float)
      (trn : list event) (o : outcome) :
  (n < N)%nat -> tags d = repeat 0 N ->
  demand_polls d = skipped ++ v :: later ->
  Forall (fun u => PrimFloat.eqb u (tv HEAD) = false) skipped ->
  PrimFloat.eqb v (tv HEAD) = true ->
  (n <= length (requests d))%nat ->
  Forall (well_formed first (spikes_times d)) (firstn n (requests d)) ->
  (forall st1, serve first d st1 (Z.of_nat n) = (trn, Exit o)) ->
  _send_body tv first N st d
  = (checks 0 (range 0 N) ++ polled skipped v
     ++ [rate_to_spike; set_ready_at (-1)]
     ++ answers first (spikes_times d) (requests d) n ++ trn,
     Exit o).
Proof.
  intros Hn Htags Hp Hsk Hv Hlen Hwf Hserve. unfold _send_body.
  destruct (tvb_checks_same N d 0 st ltac:(lia) Htags) as (st1 & Heq & Hst).
  rewrite Heq, bind_val, Hst. cbn [Z.eqb].
  rewrite Hp, (tvb_wait_until_found _ _ _ _ _ Hsk Hv), bind_val, !bind_call.
  destruct (serve_ranks_prefix first d n Hwf Hlen st1) as (st2 & Hpre).
  rewrite (range_split 0 n N) by lia. rewrite (range_cons n N) by lia.
  rewrite iterate_app, Hpre, bind_val. cbn [iterate].
  rewrite (Hserve st2). reflexivity.
Qed.

Lemma select_fails (first : Z) (d : demand) (good : list Z) (bad : Z)
      (rest : list Z) (acc : list Z * list (list float)) :
  Forall (fun id => 0 <= id - first < Z.of_nat (length (spikes_times d)))
         good ->
  bad - first < - Z.of_nat (length (spikes_times d))
  \/ Z.of_nat (length (spikes_times d)) <= bad - first ->
  iterate (select first d) acc (good ++ bad :: rest)
  = ([], Exit (Raised IndexError)).
Proof.
  intros Hgood Hbad. destruct acc as [shape data].
  rewrite iterate_app, (select_ids first d good Hgood), bind_val.
  cbn [iterate fst snd app]. unfold select at 1 3.
  rewrite (py_index_out _ _ Hbad). reflexivity.
Qed.

Lemma serve_index_error (first : Z) (d : demand) (st : Status) (n : nat)
      (k : Z) (good : list Z) (bad : Z) (rest : list Z) :
  nth_error (requests d) n = Some (k, good ++ bad :: rest) ->
  0 < k ->
  Forall (fun id => 0 <= id - first < Z.of_nat (length (spikes_times d)))
         good ->
  bad - first < - Z.of_nat (length (spikes_times d))
  \/ Z.of_nat (length (spikes_times d)) <= bad - first ->
  serve first d st (Z.of_nat n)
  = ([Mpi (Recv COMM_SENDER (Z.of_nat n) 0 (MPI_INT [k]));
      Mpi (Recv COMM_SENDER (Z.of_nat n) 0 (MPI_INT (good ++ bad :: rest)))],
     Exit (Raised IndexError)).
Proof.
  intros H Hk Hgood Hbad. unfold serve.
  rewrite Nat2Z.id, H, bind_call. cbn [fst snd Get_source].
  destruct (Z.eqb_spec k 0) as [? | _]; [lia |].
  destruct (Z.ltb_spec k 0) as [? | _]; [lia |].
  cbn [negb]. rewrite bind_call. cbn [fst snd].
  rewrite (select_fails first d good bad rest _ Hgood Hbad). reflexivity.
Qed.

Lemma serve_value_error (first : Z) (d : demand) (st : Status) (n : nat)
      (k : Z) (ids : list Z) :
  nth_error (requests d) n = Some (k, ids) -> k < 0 ->
  serve first d st (Z.of_nat n)
  = ([Mpi (Recv COMM_SENDER (Z.of_nat n) 0 (MPI_INT [k]))],
     Exit (Raised ValueError)).
Proof.
  intros H Hk. unfold serve.
  rewrite Nat2Z.id, H, bind_call. cbn [fst snd].
  destruct (Z.eqb_spec k 0) as [? | _]; [lia |].
  destruct (Z.ltb_spec k 0) as [_ | ?]; [| lia]. reflexivity.
Qed.

(** X5.  In the emit loop of the TVB to NEST direction, a rank that asks
    for an id that is the id of no spike train (its index, id minus
    [id_first_spike_detector], lies outside [-len, len), [len] being the
    number of trains) makes the loop end with [IndexError].  By then the
    mediator has been called, the state cell has been set back to [READY]
    and the ranks before have their answers; the rank itself has been sent
    nothing, and the ranks after it are not asked. *)
Theorem X5_unknown_id_raises_index_error
        (first : Z) (N n : nat) (status0 : Status)
        (pre rest_demands : list demand) (d : demand) (trp : list event)
        (st : Status) (skipped : list float) (v : float)
        (later : list float) (k : Z) (good : list Z) (bad : Z)
        (rest : list Z) :
  iterate (_send_body tv first N) status0 pre = (trp, Val st) ->
  (n < N)%nat -> tags d = repeat 0 N ->
  demand_polls d = skipped ++ v :: later ->
  Forall (fun u => PrimFloat.eqb u (tv HEAD) = false) skipped ->
  PrimFloat.eqb v (tv HEAD) = true ->
  Forall (well_formed first (spikes_times d)) (firstn n (requests d)) ->
  nth_error (requests d) n = Some (k, good ++ bad :: rest) ->
  0 < k ->
  Forall (fun id => 0 <= id - first < Z.of_nat (length (spikes_times d)))
         good ->
  bad - first < - Z.of_nat (length (spikes_times d))
  \/ Z.of_nat (length (spikes_times d)) <= bad - first ->
  _send tv first N status0 (pre ++ d :: rest_demands)
  = (trp ++ checks 0 (range 0 N) ++ polled skipped v
     ++ [rate_to_spike; set_ready_at (-1)]
     ++ answers first (spikes_times d) (requests d) n
     ++ [Mpi (Recv COMM_SENDER (Z.of_nat n) 0 (MPI_INT [k]));
         Mpi (Recv COMM_SENDER (Z.of_nat n) 0
                   (MPI_INT (good ++ bad :: rest)))],
     Raised IndexError).
Proof.
  intros Hpre Hn Htags Hp Hsk Hv Hwf Hnth Hk Hgood Hbad.
  unfold _send. apply (while_true_step _ _ _ _ _ _ _ _ _ Hpre).
  apply (tvb_send_body_failing first N n st d skipped v later); try assumption.
  - apply Nat.lt_le_incl. apply nth_error_Some. congruence.
  - intros st1. now apply serve_index_error.
Qed.

(** X6.  In the emit loop of the TVB to NEST direction, a rank that
    announces a negative number of ids makes the loop end with [ValueError],
    right after the receive of that number: the ids are not received and
    nothing is sent to the rank. *)
Theorem X6_negative_size_raises_value_error
        (first : Z) (N n : nat) (status0 : Status)
        (pre rest_demands : list demand) (d : demand) (trp : list event)
        (st : Status) (skipped : list float) (v : float)
        (later : list float) (k : Z) (ids : list Z) :
  iterate (_send_body tv first N) status0 pre = (trp, Val st) ->
  (n < N)%nat -> tags d = repeat 0 N ->
  demand_polls d = skipped ++ v :: later ->
  Forall (fun u => PrimFloat.eqb u (tv HEAD) = false) skipped ->
  PrimFloat.eqb v (tv HEAD) = true ->
  Forall (well_formed first (spikes_times d)) (firstn n (requests d)) ->
  nth_error (requests d) n = Some (k, ids) ->
  k < 0 ->
  _send tv first N status0 (pre ++ d :: rest_demands)
  = (trp ++ checks 0 (range 0 N) ++ polled skipped v
     ++ [rate_to_spike; set_ready_at (-1)]
     ++ answers first (spikes_times d) (requests d) n
     ++ [Mpi (Recv COMM_SENDER (Z.of_nat n) 0 (MPI_INT [k]))],
     Raised ValueError).
Proof.
  intros Hpre Hn Htags Hp Hsk Hv Hwf Hnth Hk.
  unfold _send. apply (while_true_step _ _ _ _ _ _ _ _ _ Hpre).
  apply (tvb_send_body_failing first N n st d skipped v later); try assumption.
  - apply Nat.lt_le_incl. apply nth_error_Some. congruence.
  - intros st1. now apply (serve_value_error first d st1 n k ids).
Qed.

(** X7.  In the answer to a rank that asks for [k] ids of spike trains, the
    first message holds [k + 1] integers: the first one is the number of
    doubles of the second message, and it is the sum of the [k] that
    follow. *)
Theorem X7_sizes_announce_the_times
        (first : Z) (d : demand) (st : Status) (n : nat) (k : Z)
        (ids : list Z) :
  nth_error (requests d) n = Some (k, ids) ->
  0 < k -> Z.of_nat (length ids) = k ->
  Forall (fun id => 0 <= id - first < Z.of_nat (length (spikes_times d)))
         ids ->
  sum (map (fun id => Z.of_nat (length (train_of first (spikes_times d)
                                                 id))) ids) < 2 ^ 31 ->
  exists (total : Z) (per_train : list Z) (spikes : list float),
    serve first d st (Z.of_nat n)
    = ([Mpi (Recv COMM_SENDER (Z.of_nat n) 0 (MPI_INT [k]));
        Mpi (Recv COMM_SENDER (Z.of_nat n) 0 (MPI_INT ids));
        Mpi (Send COMM_SENDER (Z.of_nat n) (hd 0 ids)
                  (MPI_INT (total :: per_train)));
        Mpi (Send COMM_SENDER (Z.of_nat n) (hd 0 ids) (MPI_DOUBLE spikes))],
       Val (mkStatus (Z.of_nat n) 0))
    /\ total = Z.of_nat (length spikes)
    /\ Z.of_nat (length per_train) = k
    /\ sum per_train = total.
Proof.
  intros Hnth Hk Hlen Hids Hsum.
  exists (sum (map (fun id => Z.of_nat (length (train_of first (spikes_times d)
                                                        id))) ids)),
    (map (fun id => Z.of_nat (length (train_of first (spikes_times d) id)))
         ids),
    (packet_times first (spikes_times d) ids).
  split; [| split; [| split]].
  - rewrite (serve_ids first d st n k ids Hnth Hk Hlen Hids Hsum).
    unfold answer. destruct (Z.eqb_spec k 0) as [? | _]; [lia |]. reflexivity.
  - unfold packet_times. now rewrite length_concat_sum, map_map.
  - now rewrite length_map.
  - reflexivity.
Qed.

(** X8.  An id below [id_first_spike_detector] is not refused as long as
    its index is at least [-len]: Python counts a negative index from the
    end, and the rank is sent the spike train at index [len] plus the
    index. *)
Theorem X8_id_below_the_first_counts_from_the_end
        (first : Z) (d : demand) (st : Status) (n : nat) (id : Z) :
  nth_error (requests d) n = Some (1, [id]) ->
  - Z.of_nat (length (spikes_times d)) <= id - first < 0 ->
  serve first d st (Z.of_nat n)
  = (let train := nth (Z.to_nat (Z.of_nat (length (spikes_times d))
                                 + (id - first)))
                      (spikes_times d) [] in
     [Mpi (Recv COMM_SENDER (Z.of_nat n) 0 (MPI_INT [1]));
      Mpi (Recv COMM_SENDER (Z.of_nat n) 0 (MPI_INT [id]));
      Mpi (Send COMM_SENDER (Z.of_nat n) id
                (MPI_INT [int32 (Z.of_nat (length train));
                          int32 (Z.of_nat (length train))]));
      Mpi (Send COMM_SENDER (Z.of_nat n) id (MPI_DOUBLE train))],
     Val (mkStatus (Z.of_nat n) 0)).
Proof.
  intros Hnth Hid. unfold serve.
  rewrite Nat2Z.id, Hnth, bind_call. cbn [fst snd Get_source Z.eqb negb Z.ltb Z.compare].
  rewrite bind_call. cbn [fst snd iterate]. unfold select.
  rewrite (py_index_negative _ _ [] Hid), bind_ret. cbn [fst snd app ret].
  rewrite bind_ret, !bind_call. cbn [fst snd ret app map sum fold_right concat].
  rewrite Z.add_0_r, app_nil_r. reflexivity.
Qed.

End TvbNestMore.

(** ** The groups of ranks of the base manager *)

Section BaseManagerFacts.
Import BaseManager.

Lemma mem_In (x : Z) (l : list Z) : mem x l = true <-> In x l.
Proof.
  unfold mem. rewrite existsb_exists. split.
  - intros (y & Hy & Heq). apply Z.eqb_eq in Heq. now subst.
  - intros H. exists x. split; [exact H | apply Z.eqb_refl].
Qed.

Lemma range_NoDup (lo hi : nat) : NoDup (range lo hi).
Proof.
  unfold range. apply Injective_map_NoDup.
  - intros a b H. now apply Nat2Z.inj.
  - apply seq_NoDup.
Qed.

Lemma range_length (lo hi : nat) : length (range lo hi) = (hi - lo)%nat.
Proof. unfold range. now rewrite length_map, length_seq. Qed.

Lemma in_transformation (size : nat) (receiving sending : list Z) (r : Z) :
  In r (group_of_ranks_for_transformation size receiving sending)
  <-> In r (range 0 size) /\ ~ In r receiving /\ ~ In r sending.
Proof.
  unfold group_of_ranks_for_transformation. rewrite filter_In.
  rewrite negb_true_iff, <- not_true_iff_false, mem_In, in_app_iff.
  tauto.
Qed.

Lemma filter_length_split {A : Type} (f : A -> bool) (l : list A) :
  (length (filter f l) + length (filter (fun x => negb (f x)) l)
   = length l)%nat.
Proof.
  induction l as [| a l IH]; [reflexivity |].
  cbn [filter]. destruct (f a); cbn [negb length]; lia.
Qed.

(** The listed ranks, when they are ranks of the group and none is listed
    twice, are as many as the ranks of the group that are listed. *)
Lemma listed_length (size : nat) (l : list Z) :
  NoDup l -> (forall r, In r l -> In r (range 0 size)) ->
  length (filter (fun x => mem x l) (range 0 size)) = length l.
Proof.
  intros Hnd Hin. apply Permutation.Permutation_length.
  apply Permutation.NoDup_Permutation.
  - apply NoDup_filter, range_NoDup.
  - exact Hnd.
  - intros r. rewrite filter_In, mem_In. split; [tauto |].
    intros H. split; [now apply Hin | exact H].
Qed.

(** X10.  When the receiving and the sending list name ranks of the group
    and no rank is named twice, the three lists of ranks split the group:
    every rank of the group is in exactly one of the receiving list, the
    sending list and the list of the transformers, no transformer is listed
    twice, and the three lists together have as many ranks as the group. *)
Theorem X10_the_three_groups_split_the_ranks
        (size : nat) (receiving sending : list Z) :
  NoDup (receiving ++ sending) ->
  (forall r, In r (receiving ++ sending) -> In r (range 0 size)) ->
  (forall r, In r (range 0 size) ->
             (In r receiving /\ ~ In r sending
              /\ ~ In r (group_of_ranks_for_transformation
                           size receiving sending))
             \/ (~ In r receiving /\ In r sending
                 /\ ~ In r (group_of_ranks_for_transformation
                              size receiving sending))
             \/ (~ In r receiving /\ ~ In r sending
                 /\ In r (group_of_ranks_for_transformation
                            size receiving sending)))
  /\ NoDup (group_of_ranks_for_transformation size receiving sending)
  /\ (length receiving + length sending
      + length (group_of_ranks_for_transformation size receiving sending)
      = size)%nat.
Proof.
  intros Hnd Hin. split; [| split].
  - intros r Hr. rewrite in_transformation.
    destruct (in_dec Z.eq_dec r receiving) as [Ha | Ha];
      destruct (in_dec Z.eq_dec r sending) as [Hb | Hb].
    + exfalso. apply NoDup_app_remove_l in Hnd as Hs.
      revert Ha Hb. clear - Hnd. induction receiving as [| a l IH].
      * intros [].
      * cbn [app] in Hnd. inversion Hnd as [| ? ? Hnot Hrest]. subst.
        intros [-> | Ha] Hb.
        -- apply Hnot. apply in_or_app. now right.
        -- now apply IH.
    + left. tauto.
    + right. left. tauto.
    + right. right. tauto.
  - apply NoDup_filter, range_NoDup.
  - unfold group_of_ranks_for_transformation.
    pose proof (filter_length_split (fun x => mem x (receiving ++ sending))
                                    (range 0 size)) as Hsplit.
    rewrite (listed_length size _ Hnd Hin), length_app, range_length
      in Hsplit.
    lia.
Qed.

(** X11.  [_setup_mpi_groups_and_comms] sets up at most one communicator on
    a rank.  The first rank of the receiving list sets up the one of the
    receivers, with all the ranks of that list; the first rank of the
    sending list, if it is another rank, the one of the senders; a rank that
    is in none of the two lists the one of the transformers.  A rank that
    one of the lists names after its first rank sets up no communicator,
    also when the communicator of its group is set up, with it as a member,
    on the first rank; and with an empty receiving list every rank raises
    [IndexError]. *)
Theorem X11_who_sets_up_which_group
        (rank : Z) (size : nat) (r0 s0 : Z) (receiving sending : list Z) :
  (_setup_mpi_groups_and_comms r0 size (r0 :: receiving) sending
   = ([Incl (r0 :: receiving); Create_group],
      Val (Some _mpi_com_group_receivers)))
  /\ (s0 <> r0 ->
      _setup_mpi_groups_and_comms s0 size (r0 :: receiving) (s0 :: sending)
      = ([Incl (s0 :: sending); Create_group],
         Val (Some _mpi_com_group_senders)))
  /\ (In rank (range 0 size) ->
      ~ In rank (r0 :: receiving) -> ~ In rank (s0 :: sending) ->
      _setup_mpi_groups_and_comms rank size (r0 :: receiving) (s0 :: sending)
      = ([Incl (group_of_ranks_for_transformation
                  size (r0 :: receiving) (s0 :: sending));
          Create_group],
         Val (Some _mpi_com_group_transformers)))
  /\ (rank <> r0 -> rank <> s0 ->
      In rank receiving \/ In rank sending ->
      _setup_mpi_groups_and_comms rank size (r0 :: receiving) (s0 :: sending)
      = ([], Val None))
  /\ _setup_mpi_groups_and_comms rank size [] sending
     = ([], Exit (Raised IndexError)).
Proof.
  unfold _setup_mpi_groups_and_comms, _setup_mpi_groups_including_ranks.
  split; [| split; [| split; [| split]]].
  - rewrite Z.eqb_refl. reflexivity.
  - intros Hne. destruct (Z.eqb_spec s0 r0) as [? | _]; [contradiction |].
    rewrite Z.eqb_refl. reflexivity.
  - intros Hr Ha Hb.
    destruct (Z.eqb_spec rank r0) as [-> | _]; [elim Ha; now left |].
    destruct (Z.eqb_spec rank s0) as [-> | _]; [elim Hb; now left |].
    assert (Hm : mem rank (group_of_ranks_for_transformation
                             size (r0 :: receiving) (s0 :: sending)) = true).
    { apply mem_In, in_transformation. tauto. }
    rewrite Hm. reflexivity.
  - intros Hr Hs Hin.
    destruct (Z.eqb_spec rank r0) as [? | _]; [contradiction |].
    destruct (Z.eqb_spec rank s0) as [? | _]; [contradiction |].
    destruct (mem rank (group_of_ranks_for_transformation
                          size (r0 :: receiving) (s0 :: sending))) eqn:Hm;
      [| reflexivity].
    apply mem_In, in_transformation in Hm.
    destruct Hm as (_ & Ha & Hb). exfalso.
    destruct Hin as [Hin | Hin]; [apply Ha | apply Hb]; now right.
  - reflexivity.
Qed.
End BaseManagerFacts.

(** ** The delegation by name *)

Section DelegatorFacts.
Import ElephantDelegator.

Lemma names_In (func : string) (l : list string) :
  existsb (String.eqb func) l = true <-> In func l.
Proof.
  rewrite existsb_exists. split.
  - intros (y & Hy & Heq). apply String.eqb_eq in Heq. now subst.
  - intros H. exists func. split; [exact H | apply String.eqb_refl].
Qed.

Lemma public_In (func : string) (dir : list string) :
  In func (public_names dir)
  <-> In func dir /\ String.prefix "_" func = false.
Proof. unfold public_names. now rewrite filter_In, negb_true_iff. Qed.

(** X12.  An attribute of the delegator that normal lookup finds (one that
    [__init__] has assigned, such as [spike_rate_conversion] and
    [elephant_plugin], or a name of the class or of [object]) is never
    handed on and never refused by [__getattr__].  A call of any other name
    goes by the name alone: a name that [SpikeRateConvertor] has goes to the
    convertor, also when [ElephantPlugin] has it too; a name that only
    [ElephantPlugin] has goes to the plugin; a name that starts with an
    underscore raises [AttributeError] even when one of the two classes has
    it, and so does a name that none of them has. *)
Theorem X12_delegation_of_the_names_not_found
        (dir_ElephantDelegator dir_SpikeRateConvertor dir_ElephantPlugin
         : list string)
        (name : string) :
  (In name (instance_names ++ dir_ElephantDelegator) ->
   getattr dir_ElephantDelegator
           (__init__ dir_SpikeRateConvertor dir_ElephantPlugin) name
   = Found)
  /\ (~ In name (instance_names ++ dir_ElephantDelegator) ->
      (String.prefix "_" name = false ->
       In name dir_SpikeRateConvertor ->
       getattr dir_ElephantDelegator
               (__init__ dir_SpikeRateConvertor dir_ElephantPlugin) name
       = Through_getattr (Delegated spike_rate_conversion))
      /\ (String.prefix "_" name = false ->
          ~ In name dir_SpikeRateConvertor -> In name dir_ElephantPlugin ->
          getattr dir_ElephantDelegator
                  (__init__ dir_SpikeRateConvertor dir_ElephantPlugin) name
          = Through_getattr (Delegated elephant_plugin))
      /\ (String.prefix "_" name = true ->
          getattr dir_ElephantDelegator
                  (__init__ dir_SpikeRateConvertor dir_ElephantPlugin) name
          = Through_getattr AttributeError)
      /\ (~ In name dir_SpikeRateConvertor -> ~ In name dir_ElephantPlugin ->
          getattr dir_ElephantDelegator
                  (__init__ dir_SpikeRateConvertor dir_ElephantPlugin) name
          = Through_getattr AttributeError)).
Proof.
  unfold getattr. split.
  - intros Hin. apply names_In in Hin. now rewrite Hin.
  - intros Hnot.
    assert (Hmiss : existsb (String.eqb name)
                            (instance_names ++ dir_ElephantDelegator) = false).
    { apply not_true_iff_false. now rewrite names_In. }
    rewrite Hmiss.
    unfold __getattr__, __init__. cbn [spikerate_methods plugin_methods].
    assert (Hno : forall dir,
               (String.prefix "_" name = true \/ ~ In name dir) ->
               existsb (String.eqb name) (public_names dir) = false).
    { intros dir H. apply not_true_iff_false. rewrite names_In, public_In.
      intros [Hin Hp]. destruct H as [H | H]; [congruence | contradiction]. }
    assert (Hyes : forall dir,
               String.prefix "_" name = false -> In name dir ->
               existsb (String.eqb name) (public_names dir) = true).
    { intros dir Hp Hin. apply names_In, public_In. now split. }
    split; [| split; [| split]].
    + intros Hp Hin. now rewrite (Hyes _ Hp Hin).
    + intros Hp Ha Hb.
      now rewrite (Hno dir_SpikeRateConvertor (or_intror Ha)), (Hyes _ Hp Hb).
    + intros Hp. now rewrite !(Hno _ (or_introl Hp)).
    + intros Ha Hb.
      now rewrite (Hno dir_SpikeRateConvertor (or_intror Ha)),
        (Hno dir_ElephantPlugin (or_intror Hb)).
Qed.
End DelegatorFacts.

(** ** The spikes of each neuron *)

Lemma py_position_lt (n : nat) (j : Z) (p : nat) :
  py_position n j = Some p -> (p < n)%nat.
Proof.
  unfold py_position.
  destruct (Z.leb_spec 0 j); destruct (Z.ltb_spec j (Z.of_nat n));
    destruct (Z.leb_spec (- Z.of_nat n) j); destruct (Z.ltb_spec j 0);
    cbn [andb]; intros [= <-]; lia.
Qed.

Lemma py_position_in (n : nat) (j : Z) :
  - Z.of_nat n <= j < Z.of_nat n -> exists p, py_position n j = Some p.
Proof.
  intros H. unfold py_position.
  destruct (Z.leb_spec 0 j); destruct (Z.ltb_spec j (Z.of_nat n));
    destruct (Z.leb_spec (- Z.of_nat n) j); destruct (Z.ltb_spec j 0);
    cbn [andb]; try (eexists; reflexivity); lia.
Qed.

Lemma py_position_out (n : nat) (j : Z) :
  j < - Z.of_nat n \/ Z.of_nat n <= j -> py_position n j = None.
Proof.
  intros H. unfold py_position.
  destruct (Z.leb_spec 0 j); destruct (Z.ltb_spec j (Z.of_nat n));
    destruct (Z.leb_spec (- Z.of_nat n) j); destruct (Z.ltb_spec j 0);
    cbn [andb]; try reflexivity; lia.
Qed.

(** A list of lists in which the list at the position [p] is replaced. *)
Lemma replaced_at (l : list (list float)) :
  forall (p : nat) (x : list float),
    (p < length l)%nat ->
    length (firstn p l ++ x :: skipn (S p) l) = length l
    /\ nth p (firstn p l ++ x :: skipn (S p) l) [] = x
    /\ (forall q, q <> p ->
                  nth q (firstn p l ++ x :: skipn (S p) l) [] = nth q l [])
    /\ (length (concat (firstn p l ++ x :: skipn (S p) l))
        + length (nth p l [])
        = length (concat l) + length x)%nat.
Proof.
  induction l as [| a l IH]; intros p x Hp; [cbn in Hp; lia |].
  destruct p as [| p].
  - cbn [firstn skipn app nth length concat]. repeat split.
    + intros [| q] Hq; [congruence | reflexivity].
    + rewrite !length_app. lia.
  - cbn [length] in Hp.
    destruct (IH p x ltac:(lia)) as (Hlen & Hsame & Hother & Hsum).
    cbn [firstn skipn app nth length concat] in *. repeat split.
    + now rewrite Hlen.
    + exact Hsame.
    + intros [| q] Hq; [reflexivity |]. apply Hother. congruence.
    + rewrite !length_app. lia.
Qed.

Section ReshapeFacts.
Import SpikesToRate.
Variable int : float -> option Z.

Lemma add_spike_Spikes (first_id : Z) (buffer : list float)
      (l l' : list (list float)) (i : nat) :
  add_spike int first_id buffer l i = Spikes l' ->
  exists id z t p,
    nth_error buffer (i * 3 + 1) = Some id /\ int id = Some z
    /\ nth_error buffer (i * 3 + 2) = Some t
    /\ py_position (length l) (z - first_id) = Some p
    /\ l' = firstn p l ++ (nth p l [] ++ [t]) :: skipn (S p) l.
Proof.
  unfold add_spike, append_at.
  destruct (nth_error buffer (i * 3 + 1)) as [id |] eqn:Hid; [| discriminate].
  destruct (int id) as [z |] eqn:Hz; [| discriminate].
  destruct (nth_error buffer (i * 3 + 2)) as [t |] eqn:Ht; [| discriminate].
  destruct (py_position (length l) (z - first_id)) as [p |] eqn:Hp;
    [| discriminate].
  intros [= <-]. exists id, z, t, p. repeat split; assumption || reflexivity.
Qed.

Lemma add_spikes_app (first_id : Z) (buffer : list float) (a b : list nat) :
  forall l,
    add_spikes int first_id buffer l (a ++ b)
    = match add_spikes int first_id buffer l a with
      | Spikes l1 => add_spikes int first_id buffer l1 b
      | raised => raised
      end.
Proof.
  induction a as [| i a IH]; intros l; cbn [app add_spikes].
  - reflexivity.
  - destruct (add_spike int first_id buffer l i); auto.
Qed.

(** What the loop has added when it ends: every triple has added its time
    to the list of its neuron, behind the times that were there. *)
Lemma add_spikes_inv (first_id : Z) (buffer : list float) (nb : nat)
      (indices : list nat) :
  forall l l',
    length l = nb ->
    add_spikes int first_id buffer l indices = Spikes l' ->
    length l' = nb
    /\ (forall j, nth j l' []
                  = nth j l [] ++ times_of int nb first_id buffer indices j)
    /\ length (concat l') = (length (concat l) + length indices)%nat.
Proof.
  induction indices as [| i indices IH]; intros l l' Hlen Hrun.
  - cbn in Hrun. injection Hrun as <-. repeat split; [exact Hlen | | cbn; lia].
    intros j. cbn. now rewrite app_nil_r.
  - cbn [add_spikes] in Hrun.
    destruct (add_spike int first_id buffer l i) as [l1 | |] eqn:Hstep;
      try discriminate.
    destruct (add_spike_Spikes _ _ _ _ _ Hstep)
      as (id & z & t & p & Hid & Hz & Ht & Hp & ->).
    pose proof (py_position_lt _ _ _ Hp) as Hlt.
    destruct (replaced_at l p (nth p l [] ++ [t]) Hlt)
      as (Hlen1 & Hsame & Hother & Hsum).
    destruct (IH _ l' (eq_trans Hlen1 Hlen) Hrun) as (Hlen' & Hnth & Htotal).
    repeat split.
    + exact Hlen'.
    + intros j. rewrite Hnth. cbn [times_of flat_map].
      unfold neuron_of at 1. rewrite Hid, Hz, Ht, <- Hlen, Hp.
      fold (times_of int (length l) first_id buffer indices j). rewrite Hlen.
      destruct (Nat.eqb_spec p j) as [<- | Hne].
      * rewrite Hsame, <- !app_assoc. reflexivity.
      * rewrite (Hother j ltac:(congruence)). reflexivity.
    + rewrite Htotal. rewrite length_app in Hsum. cbn [length] in *. lia.
Qed.

(** X13.  When the loop over the triples ends without an exception, there
    are as many lists as neurons; the list of a neuron holds exactly the
    spike times (third cell) of those among the first [triples] triples
    whose id (second cell), counted from the first id, is the position of
    that neuron, in the order of the buffer; and the lists together hold
    one time for each of the triples. *)
Theorem X13_lists_hold_the_spikes_of_their_neuron
        (nb_neurons : nat) (first_id : Z) (triples : nat)
        (buffer : list float) (l : list (list float)) :
  spikes_of_neurons int nb_neurons first_id triples buffer = Spikes l ->
  length l = nb_neurons
  /\ (forall j, nth j l []
                = times_of int nb_neurons first_id buffer (seq 0 triples) j)
  /\ length (concat l) = triples.
Proof.
  unfold spikes_of_neurons. intros Hrun.
  destruct (add_spikes_inv first_id buffer nb_neurons (seq 0 triples)
                           (repeat [] nb_neurons) l (repeat_length _ _) Hrun)
    as (Hlen & Hnth & Htotal).
  assert (Hempty : forall j, nth j (repeat (@nil float) nb_neurons) [] = []).
  { intros j. clear. revert j.
    induction nb_neurons as [| n IH]; intros [| j]; cbn; auto. }
  assert (Hconcat : concat (repeat (@nil float) nb_neurons) = []).
  { clear. induction nb_neurons as [| n IH]; cbn; auto. }
  repeat split.
  - exact Hlen.
  - intros j. now rewrite Hnth, Hempty.
  - rewrite Htotal, Hconcat, length_seq. reflexivity.
Qed.

Lemma add_spikes_total (first_id : Z) (buffer : list float) (nb : nat)
      (indices : list nat) :
  forall l,
    length l = nb ->
    (forall i, In i indices ->
               (i * 3 + 2 < length buffer)%nat
               /\ neuron_of int nb first_id buffer i <> None) ->
    exists l', add_spikes int first_id buffer l indices = Spikes l'
               /\ length l' = nb.
Proof.
  induction indices as [| i indices IH]; intros l Hlen Hok.
  - exists l. now split.
  - destruct (Hok i (or_introl eq_refl)) as (Hbuf & Hneuron).
    unfold neuron_of in Hneuron. cbn [add_spikes]. unfold add_spike, append_at.
    destruct (nth_error buffer (i * 3 + 1)) as [id |]; [| congruence].
    destruct (int id) as [z |]; [| congruence].
    destruct (nth_error buffer (i * 3 + 2)) as [t |] eqn:Ht;
      [| apply nth_error_None in Ht; lia].
    rewrite Hlen.
    destruct (py_position nb (z - first_id)) as [p |] eqn:Hp; [| congruence].
    apply IH.
    + pose proof (py_position_lt _ _ _ Hp) as Hlt.
      destruct (replaced_at l p (nth p l [] ++ [t]) ltac:(lia)) as (Hl & _).
      congruence.
    + intros k Hk. apply Hok. now right.
Qed.

(** X14.  The loop over the triples ends with the lists when the buffer
    holds the [triples] triples and every triple names a neuron (its id has
    an integer value, and this value minus the first id lies in
    [-nb_neurons, nb_neurons)); it raises [IndexError] at the first triple
    whose id, counted from the first id, lies outside this range. *)
Theorem X14_when_the_loop_ends_and_when_it_raises
        (nb_neurons : nat) (first_id : Z) (triples : nat)
        (buffer : list float) :
  (triples * 3 <= length buffer)%nat ->
  ((forall i, (i < triples)%nat ->
              neuron_of int nb_neurons first_id buffer i <> None) ->
   exists l,
     spikes_of_neurons int nb_neurons first_id triples buffer = Spikes l)
  /\ (forall m id z,
         (m < triples)%nat ->
         (forall i, (i < m)%nat ->
                    neuron_of int nb_neurons first_id buffer i <> None) ->
         nth_error buffer (m * 3 + 1) = Some id -> int id = Some z ->
         z - first_id < - Z.of_nat nb_neurons
         \/ Z.of_nat nb_neurons <= z - first_id ->
         spikes_of_neurons int nb_neurons first_id triples buffer
         = Raises_IndexError).
Proof.
  intros Hbuf. unfold spikes_of_neurons. split.
  - intros Hall.
    destruct (add_spikes_total first_id buffer nb_neurons (seq 0 triples)
                               (repeat [] nb_neurons) (repeat_length _ _))
      as (l & Hl & _).
    + intros i Hi. apply in_seq in Hi. split; [lia | apply Hall; lia].
    + now exists l.
  - intros m id z Hm Hbefore Hid Hz Hout.
    replace triples with (m + (triples - m))%nat at 1 by lia.
    rewrite seq_app, add_spikes_app.
    destruct (add_spikes_total first_id buffer nb_neurons (seq 0 m)
                               (repeat [] nb_neurons) (repeat_length _ _))
      as (l1 & Hl1 & Hlen1).
    + intros i Hi. apply in_seq in Hi. split; [lia | apply Hbefore; lia].
    + rewrite Hl1. replace (triples - m)%nat with (S (triples - S m)) by lia.
      cbn [seq plus add_spikes]. unfold add_spike, append_at.
      rewrite Hid, Hz.
      destruct (nth_error buffer (m * 3 + 2)) as [t |] eqn:Ht;
        [| reflexivity].
      now rewrite Hlen1, (py_position_out _ _ Hout).
Qed.

Lemma add_spikes_ext (first_id : Z) (b1 b2 : list float)
      (indices : list nat) :
  (forall i, In i indices ->
             nth_error b1 (i * 3 + 1) = nth_error b2 (i * 3 + 1)
             /\ nth_error b1 (i * 3 + 2) = nth_error b2 (i * 3 + 2)) ->
  forall l,
    add_spikes int first_id b1 l indices = add_spikes int first_id b2 l indices.
Proof.
  induction indices as [| i indices IH]; intros Hsame l; [reflexivity |].
  cbn [add_spikes]. destruct (Hsame i (or_introl eq_refl)) as (H1 & H2).
  unfold add_spike. rewrite H1, H2.
  destruct (nth_error b2 (i * 3 + 1)) as [id |]; [| reflexivity].
  destruct (int id) as [z |]; [| reflexivity].
  destruct (nth_error b2 (i * 3 + 2)) as [t |]; [| reflexivity].
  destruct (append_at l (z - first_id) t); [| reflexivity].
  apply IH. intros k Hk. apply Hsame. now right.
Qed.

(** X15.  The loop over the triples reads the second and the third cell of
    each of the first [triples] triples and nothing else: two buffers that
    agree on these cells give the same result, whatever their device ids
    (first cells) and whatever they hold behind the last triple. *)
Theorem X15_only_ids_and_times_are_read
        (nb_neurons : nat) (first_id : Z) (triples : nat)
        (b1 b2 : list float) :
  (forall i, (i < triples)%nat ->
             nth_error b1 (i * 3 + 1) = nth_error b2 (i * 3 + 1)
             /\ nth_error b1 (i * 3 + 2) = nth_error b2 (i * 3 + 2)) ->
  spikes_of_neurons int nb_neurons first_id triples b1
  = spikes_of_neurons int nb_neurons first_id triples b2.
Proof.
  intros Hsame. unfold spikes_of_neurons. apply add_spikes_ext.
  intros i Hi. apply in_seq in Hi. apply Hsame. lia.
Qed.
End ReshapeFacts.

(** ** [SpikesToRate.transform] *)

Section TransformFacts.
Import SpikesToRate.
Variable int : float -> option Z.
Variables train rates : Type.
Variable around : float -> float.
Variable SpikeTrain : list float -> float -> float -> option train.
Variable instantaneous_rate :
  list train -> float -> float -> float -> kernel -> option rates.
Variable mean_axis_1 : rates -> list float.
Variable time_synch : float.
Variable dt : float.
Variable nb_neurons : nat.
Variable first_id : Z.

(** [rint_third] is the nearest integer to the third of a size. *)
Lemma rint_third_nearest (size_buffer : Z) :
  0 <= size_buffer ->
  - 1 <= 3 * Z.of_nat (rint_third size_buffer) - size_buffer <= 1.
Proof.
  intros Hpos. unfold rint_third.
  rewrite Z2Nat.id by (apply Z.div_pos; lia).
  pose proof (Z.div_mod (2 * size_buffer + 3) 6 ltac:(lia)) as Hdiv.
  pose proof (Z.mod_pos_bound (2 * size_buffer + 3) 6 ltac:(lia)) as Hmod.
  assert (Hodd : (2 * size_buffer + 3) mod 6 <> 0
                 /\ (2 * size_buffer + 3) mod 6 <> 2
                 /\ (2 * size_buffer + 3) mod 6 <> 4) by lia.
  lia.
Qed.

(** [np.concatenate] raises on scalars, however many. *)
Lemma concatenate_scalars (spikes : list float) :
  concatenate (map scalar spikes) = None.
Proof. destruct spikes; reflexivity. Qed.

Lemma to_SpikeTrain_of_many (count : Z) (spikes : list float) :
  (1 < length spikes)%nat ->
  to_SpikeTrain train around SpikeTrain time_synch count spikes
  = Raises ValueError_of_concatenate.
Proof.
  intros Hmany. unfold to_SpikeTrain.
  apply Nat.ltb_lt in Hmany. now rewrite Hmany, concatenate_scalars.
Qed.

Lemma to_SpikeTrain_of_few (count : Z) (spikes : list float) :
  (length spikes <= 1)%nat ->
  to_SpikeTrain train around SpikeTrain time_synch count spikes
  = spike_train train around SpikeTrain time_synch count spikes.
Proof.
  intros Hfew. unfold to_SpikeTrain.
  destruct (Nat.ltb_spec 1 (length spikes)); [lia | reflexivity].
Qed.

(** The second loop raises as soon as one neuron has more than one spike:
    with the [ValueError] of [np.concatenate] at the first such neuron,
    unless [SpikeTrain] has raised at a neuron before it. *)
Lemma to_SpikeTrains_of_many (count : Z) (spikes_neurons : list (list float)) :
  forall j,
    (1 < length (nth j spikes_neurons []))%nat ->
    to_SpikeTrains train around SpikeTrain time_synch count spikes_neurons
    = Raises ValueError_of_concatenate
    \/ to_SpikeTrains train around SpikeTrain time_synch count spikes_neurons
       = Raises Error_of_SpikeTrain.
Proof.
  induction spikes_neurons as [| spikes rest IH]; intros j Hmany.
  - destruct j; cbn in Hmany; lia.
  - cbn [to_SpikeTrains].
    destruct (Nat.ltb_spec 1 (length spikes)) as [Hfirst | Hfirst].
    + rewrite (to_SpikeTrain_of_many count spikes Hfirst). now left.
    + rewrite (to_SpikeTrain_of_few count spikes Hfirst). unfold spike_train.
      destruct (SpikeTrain spikes _ _) as [t |]; [| now right].
      destruct j as [| j]; [cbn in Hmany; lia |].
      cbn [nth] in Hmany.
      destruct (IH j Hmany) as [-> | ->]; [now left | now right].
Qed.

(** The second loop returns the spike trains when no neuron has more than
    one spike and [SpikeTrain] returns for each of them: a neuron without a
    spike has the train of no times. *)
Lemma to_SpikeTrains_of_few (count : Z) (spikes_neurons : list (list float)) :
  forall trains,
    Forall (fun spikes => (length spikes <= 1)%nat) spikes_neurons ->
    Forall2 (fun spikes t =>
               SpikeTrain spikes
                          (around (float_of_int count * time_synch))
                          (around (float_of_int (count + 1) * time_synch)
                           + 0x1.a36e2eb1c432dp-14)
               = Some t) spikes_neurons trains ->
    to_SpikeTrains train around SpikeTrain time_synch count spikes_neurons
    = Returns trains.
Proof.
  induction spikes_neurons as [| spikes rest IH]; intros trains Hfew Hall.
  - inversion Hall. reflexivity.
  - inversion Hfew as [| ? ? Hone Hrest]; subst.
    inversion Hall as [| ? t ? ts Ht Hts]; subst.
    cbn [to_SpikeTrains]. rewrite (to_SpikeTrain_of_few count spikes Hone).
    unfold spike_train. rewrite Ht. now rewrite (IH ts Hrest Hts).
Qed.

(** What [transform] returns when no neuron has more than one spike and the
    libraries return: the two ends of the window and, at each sample, the
    tenth of the mean over the neurons of the rate. *)
Lemma transform_of_few (count size_buffer : Z) (buffer : list float)
      (spikes_neurons : list (list float)) (trains : list train) (r : rates) :
  spikes_of_neurons int nb_neurons first_id (rint_third size_buffer) buffer
  = Spikes spikes_neurons ->
  Forall (fun spikes => (length spikes <= 1)%nat) spikes_neurons ->
  Forall2 (fun spikes t =>
             SpikeTrain spikes
                        (around (float_of_int count * time_synch))
                        (around (float_of_int (count + 1) * time_synch)
                         + 0x1.a36e2eb1c432dp-14)
             = Some t) spikes_neurons trains ->
  instantaneous_rate trains
                     (around (float_of_int count * time_synch))
                     (around (float_of_int (count + 1) * time_synch))
                     (dt - 0x1.0c6f7a0b5ed8dp-20)
                     (RectangularKernel 1)
  = Some r ->
  transform int train rates around SpikeTrain instantaneous_rate mean_axis_1
            time_synch dt nb_neurons first_id count size_buffer buffer
  = Returns ([(float_of_int count * time_synch)%float;
              (float_of_int (count + 1) * time_synch)%float],
             map (fun x => (x / 10)%float) (mean_axis_1 r)).
Proof.
  intros Hloop Hfew Htrains Hrates.
  unfold transform, __reshape_buffer_from_nest.
  rewrite Hloop, (to_SpikeTrains_of_few count _ trains Hfew Htrains), Hrates.
  reflexivity.
Qed.

Lemma times_of_app (buffer : list float) (x y : list nat) (j : nat) :
  times_of int nb_neurons first_id buffer (x ++ y) j
  = times_of int nb_neurons first_id buffer x j
    ++ times_of int nb_neurons first_id buffer y j.
Proof. unfold times_of. apply flat_map_app. Qed.

(** A triple that names the neuron [p] gives it one spike time. *)
Lemma times_of_one (buffer : list float) (i p : nat) :
  (i * 3 + 2 < length buffer)%nat ->
  neuron_of int nb_neurons first_id buffer i = Some p ->
  length (times_of int nb_neurons first_id buffer [i] p) = 1%nat.
Proof.
  intros Hbuf Hp. cbn [times_of flat_map]. rewrite Hp.
  destruct (nth_error buffer (i * 3 + 2)) as [t |] eqn:Ht;
    [| apply nth_error_None in Ht; lia].
  now rewrite Nat.eqb_refl.
Qed.

Lemma times_of_two (buffer : list float) (triples a b p : nat) :
  (triples * 3 <= length buffer)%nat ->
  (a < b < triples)%nat ->
  neuron_of int nb_neurons first_id buffer a = Some p ->
  neuron_of int nb_neurons first_id buffer b = Some p ->
  (1 < length (times_of int nb_neurons first_id buffer (seq 0 triples) p))%nat.
Proof.
  intros Hbuf Hab Ha Hb.
  replace triples with (a + (1 + ((b - S a) + (1 + (triples - S b)))))%nat
    at 1 by lia.
  rewrite !seq_app, !times_of_app, !length_app. cbn [seq].
  rewrite (times_of_one buffer _ p) by (cbn; (lia || exact Ha)).
  replace (0 + a + 1 + (b - S a))%nat with b by lia.
  rewrite (times_of_one buffer b p) by (lia || exact Hb).
  lia.
Qed.

(** C6.  [transform] does not return the rate that the claim describes for
    every buffer.  When the buffer holds the triples, each of them names a
    neuron, and two of them name the same neuron, the first loop ends with
    the two spike times in the list of that neuron; the second loop then
    calls [np.concatenate] on the list, whose elements are scalars, and
    this raises [ValueError] (unless [SpikeTrain] has raised for a neuron
    before it): [transform] raises and returns neither times nor rate. *)
Theorem C6_two_spikes_of_one_neuron_raise
        (count size_buffer : Z) (buffer : list float) (a b : nat) :
  (rint_third size_buffer * 3 <= length buffer)%nat ->
  (forall i, (i < rint_third size_buffer)%nat ->
             neuron_of int nb_neurons first_id buffer i <> None) ->
  (a < b < rint_third size_buffer)%nat ->
  neuron_of int nb_neurons first_id buffer a
  = neuron_of int nb_neurons first_id buffer b ->
  transform int train rates around SpikeTrain instantaneous_rate mean_axis_1
            time_synch dt nb_neurons first_id count size_buffer buffer
  = Raises ValueError_of_concatenate
  \/ transform int train rates around SpikeTrain instantaneous_rate
               mean_axis_1 time_synch dt nb_neurons first_id count
               size_buffer buffer
     = Raises Error_of_SpikeTrain.
Proof.
  intros Hbuf Hall Hab Hsame.
  destruct (neuron_of int nb_neurons first_id buffer a) as [p |] eqn:Ha;
    [| exfalso; apply (Hall a); [lia | exact Ha]].
  symmetry in Hsame.
  unfold transform, __reshape_buffer_from_nest, spikes_of_neurons.
  destruct (add_spikes_total int first_id buffer nb_neurons
                             (seq 0 (rint_third size_buffer))
                             (repeat [] nb_neurons) (repeat_length _ _))
    as (l & Hl & _).
  { intros i Hi. apply in_seq in Hi. split; [lia | apply Hall; lia]. }
  rewrite Hl.
  destruct (add_spikes_inv int first_id buffer nb_neurons _ _ l
                           (repeat_length _ _) Hl) as (_ & Hnth & _).
  assert (Hmany : (1 < length (nth p l []))%nat).
  { rewrite Hnth, length_app.
    pose proof (times_of_two buffer _ a b p Hbuf Hab Ha Hsame). lia. }
  destruct (to_SpikeTrains_of_many count l p Hmany) as [-> | ->];
    [now left | now right].
Qed.
End TransformFacts.

Section TransformExamples.
Import SpikesToRate.
Variables train rates : Type.
Variable around : float -> float.
Variable SpikeTrain : list float -> float -> float -> option train.
Variable instantaneous_rate :
  list train -> float -> float -> float -> kernel -> option rates.
Variable mean_axis_1 : rates -> list float.
Variable time_synch : float.
Variable dt : float.

(** Two spikes of the first of two neurons: [np.concatenate] raises,
    whatever the libraries do. *)
Lemma transform_two_spikes_of_the_first_neuron :
  transform python_int train rates around SpikeTrain instantaneous_rate
            mean_axis_1 time_synch dt 2 0 0 6
            [100; 0; 0.5; 100; 0; 0.75]%float
  = Raises ValueError_of_concatenate.
Proof. reflexivity. Qed.

(** One spike of each of two neurons (the buffer of the scenario S1):
    [transform] hands the two trains to [instantaneous_rate]. *)
Lemma transform_one_spike_of_each_neuron (t0 t1 : train) (r : rates) :
  let t_start := around (float_of_int 0 * time_synch) in
  let t_stop := around (float_of_int 1 * time_synch) in
  SpikeTrain [0.5%float] t_start (t_stop + 0x1.a36e2eb1c432dp-14) = Some t0 ->
  SpikeTrain [0x1.6666666666666p-1%float] t_start
             (t_stop + 0x1.a36e2eb1c432dp-14) = Some t1 ->
  instantaneous_rate [t0; t1] t_start t_stop (dt - 0x1.0c6f7a0b5ed8dp-20)
                     (RectangularKernel 1) = Some r ->
  transform python_int train rates around SpikeTrain instantaneous_rate
            mean_axis_1 time_synch dt 2 0 0 6
            [100; 0; 0.5; 100; 1; 0x1.6666666666666p-1]%float
  = Returns ([(float_of_int 0 * time_synch)%float;
              (float_of_int 1 * time_synch)%float],
             map (fun x => (x / 10)%float) (mean_axis_1 r)).
Proof.
  intros t_start t_stop H0 H1 Hr.
  apply (transform_of_few python_int train rates around SpikeTrain
                          instantaneous_rate mean_axis_1 time_synch dt 2 0
                          0 6 _ [[0.5%float]; [0x1.6666666666666p-1%float]]
                          [t0; t1] r).
  - reflexivity.
  - repeat constructor.
  - repeat constructor; assumption.
  - exact Hr.
Qed.
End TransformExamples.

(** Two spikes of the first of two neurons, at the times 0.5 and 0.75, in
    the first window of 1 ms; the libraries stand for ones that never
    raise. *)
Lemma C6_two_spikes_of_neuron_0 :
  (SpikesToRate.rint_third 6 * 3
   <= length [100; 0; 0.5; 100; 0; 0.75]%float)%nat
  /\ SpikesToRate.neuron_of python_int 2 0
                            [100; 0; 0.5; 100; 0; 0.75]%float 0
     = SpikesToRate.neuron_of python_int 2 0
                              [100; 0; 0.5; 100; 0; 0.75]%float 1
  /\ (SpikesToRate.transform
        python_int (list float) unit (fun x => x)
        (fun times _ _ => Some times) (fun _ _ _ _ _ => Some tt)
        (fun _ => []) 1 0x1.999999999999ap-4 2 0 0 6
        [100; 0; 0.5; 100; 0; 0.75]%float
      = SpikesToRate.Raises SpikesToRate.ValueError_of_concatenate
      \/ SpikesToRate.transform
           python_int (list float) unit (fun x => x)
           (fun times _ _ => Some times) (fun _ _ _ _ _ => Some tt)
           (fun _ => []) 1 0x1.999999999999ap-4 2 0 0 6
           [100; 0; 0.5; 100; 0; 0.75]%float
         = SpikesToRate.Raises SpikesToRate.Error_of_SpikeTrain).
Proof.
  split; [cbn; lia | split; [reflexivity |]].
  apply (C6_two_spikes_of_one_neuron_raise
           python_int (list float) unit (fun x => x)
           (fun times _ _ => Some times) (fun _ _ _ _ _ => Some tt)
           (fun _ => []) 1 0x1.999999999999ap-4 2 0 0 6
           [100; 0; 0.5; 100; 0; 0.75]%float 0%nat 1%nat).
  - cbn. lia.
  - intros i Hi. change (SpikesToRate.rint_third 6) with 2%nat in Hi.
    destruct i as [| [| i]]; [vm_compute; discriminate .. | lia].
  - cbn. lia.
  - reflexivity.
Defined.

(** ** The further facts at concrete inputs *)

(** One NEST rank sends the tag 0 while the state cell reads [WAIT] and then
    [READY_TO_TRANSFORM]. *)
Lemma X1_state_cell_not_ready :
  exists tr r,
    iterate (NestTvb._receive_body nest_tvb_values 1) 0
            ([] ++ [NestTvb.mkStep [0] [0; 2]%float
                                   [(3, [0.5; 1.5; 2.5]%float)]])
    = ([] ++ tr, r)
    /\ existsb NestTvbTrace.moves_payload tr = false.
Proof.
  apply (X1_receiver_waits_for_ready_to_receive nest_tvb_values 1 []
           (NestTvb.mkStep [0] [0; 2]%float [(3, [0.5; 1.5; 2.5]%float)])
           [] 0).
  - reflexivity.
  - constructor; [reflexivity |]. constructor; [reflexivity | constructor].
Defined.

(** A demand with tag 0 while the state cell reads [READY_TO_RECEIVE]. *)
Lemma X2_state_cell_not_ready :
  exists tr r,
    iterate (NestTvb._send_body nest_tvb_values) 0
            ([] ++ [NestTvb.mkDemand [] 3 0 [1%float] (0, 1)%float
                                     [0.5%float]])
    = ([] ++ tr, r)
    /\ existsb NestTvbTrace.moves_payload tr = false.
Proof.
  apply (X2_sender_waits_for_ready_to_transform nest_tvb_values []
           (NestTvb.mkDemand [] 3 0 [1%float] (0, 1)%float [0.5%float])
           [] 0).
  - reflexivity.
  - constructor; [reflexivity | constructor].
Defined.

(** TVB sends the times with tag 0 while the state cell reads [HEAD]. *)
Lemma X3_state_cell_not_ready :
  iterate (TvbNest._receive_body tvb_nest_values 1) tt
          [TvbNest.mkStep 0 [0; 1]%float [0%float] 1 [50%float]]
  = ([TvbNest.Mpi (Send COMM_RECEIVER 0 0 (OBJ true));
      TvbNest.Mpi (RecvInto COMM_RECEIVER 0 0 0 [0; 1]%float);
      TvbNest.get_at (-1) 0;
      TvbNest.sleep],
     Exit Waiting).
Proof.
  apply (X3_times_are_received_before_the_wait
           tvb_nest_values 1 []
           (TvbNest.mkStep 0 [0; 1]%float [0%float] 1 [50%float]) []).
  - reflexivity.
  - reflexivity.
  - constructor; [reflexivity | constructor].
Defined.

(** TVB announces the size 1 and sends three doubles. *)
Lemma X4_size_1_and_three_doubles :
  iterate (TvbNest._receive_body tvb_nest_values 1) tt
          [TvbNest.mkStep 0 [0; 1]%float [1%float] 1 [50; 60; 70]%float]
  = ([TvbNest.Mpi (Send COMM_RECEIVER 0 0 (OBJ true));
      TvbNest.Mpi (RecvInto COMM_RECEIVER 0 0 0 [0; 1]%float);
      TvbNest.get_at (-1) 1;
      TvbNest.Mpi (Recv COMM_RECEIVER 0 0 (MPI_INT [1]));
      TvbNest.Mpi (RecvInto COMM_RECEIVER 0 0 2 [50; 60; 70]%float);
      TvbNest.set_head_at (-1);
      TvbNest.set_custom_value_at (-2) 1],
     Val tt).
Proof.
  apply (X4_header_is_the_received_size
           tvb_nest_values 1 []
           (TvbNest.mkStep 0 [0; 1]%float [1%float] 1 [50; 60; 70]%float) []
           [] 1%float []).
  - reflexivity.
  - reflexivity.
  - reflexivity.
  - constructor.
  - reflexivity.
Defined.

(** The first generator is 10 and there are two spike trains; one NEST rank
    asks for the generator 12. *)
Lemma X5_generator_12_of_two :
  TvbNest._send tvb_nest_values 10 1 (mkStatus (-1) (-1))
    ([] ++ TvbNest.mkDemand [0] [0%float] [[0.25; 0.5]; [0.75]]%float
                            [(1, [12])] :: [])
  = ([TvbNest.Mpi (Recv COMM_SENDER 0 0 CHECK);
      TvbNest.get_at (-1) 0;
      TvbNest.rate_to_spike;
      TvbNest.set_ready_at (-1);
      TvbNest.Mpi (Recv COMM_SENDER 0 0 (MPI_INT [1]));
      TvbNest.Mpi (Recv COMM_SENDER 0 0 (MPI_INT [12]))],
     Raised IndexError).
Proof.
  apply (X5_unknown_id_raises_index_error
           tvb_nest_values 10 1 0 (mkStatus (-1) (-1)) [] []
           (TvbNest.mkDemand [0] [0%float] [[0.25; 0.5]; [0.75]]%float
                             [(1, [12])])
           [] (mkStatus (-1) (-1)) [] 0%float [] 1 [] 12 []).
  - reflexivity.
  - lia.
  - reflexivity.
  - reflexivity.
  - constructor.
  - reflexivity.
  - constructor.
  - reflexivity.
  - lia.
  - constructor.
  - right. cbn. lia.
Defined.

(** One NEST rank announces -1 ids. *)
Lemma X6_size_minus_1 :
  TvbNest._send tvb_nest_values 10 1 (mkStatus (-1) (-1))
    ([] ++ TvbNest.mkDemand [0] [0%float] [[0.25; 0.5]; [0.75]]%float
                            [(-1, [])] :: [])
  = ([TvbNest.Mpi (Recv COMM_SENDER 0 0 CHECK);
      TvbNest.get_at (-1) 0;
      TvbNest.rate_to_spike;
      TvbNest.set_ready_at (-1);
      TvbNest.Mpi (Recv COMM_SENDER 0 0 (MPI_INT [-1]))],
     Raised ValueError).
Proof.
  apply (X6_negative_size_raises_value_error
           tvb_nest_values 10 1 0 (mkStatus (-1) (-1)) [] []
           (TvbNest.mkDemand [0] [0%float] [[0.25; 0.5]; [0.75]]%float
                             [(-1, [])])
           [] (mkStatus (-1) (-1)) [] 0%float [] (-1) []).
  - reflexivity.
  - lia.
  - reflexivity.
  - reflexivity.
  - constructor.
  - reflexivity.
  - constructor.
  - reflexivity.
  - lia.
Defined.

(** One NEST rank asks for the generators 11 and 10. *)
Lemma X7_two_ids :
  exists (total : Z) (per_train : list Z) (spikes : list float),
    TvbNest.serve 10
      (TvbNest.mkDemand [0] [0%float] [[0.25; 0.5]; [0.75]]%float
                        [(2, [11; 10])])
      (mkStatus (-1) (-1)) (Z.of_nat 0)
    = ([TvbNest.Mpi (Recv COMM_SENDER (Z.of_nat 0) 0 (MPI_INT [2]));
        TvbNest.Mpi (Recv COMM_SENDER (Z.of_nat 0) 0 (MPI_INT [11; 10]));
        TvbNest.Mpi (Send COMM_SENDER (Z.of_nat 0) (hd 0 [11; 10])
                          (MPI_INT (total :: per_train)));
        TvbNest.Mpi (Send COMM_SENDER (Z.of_nat 0) (hd 0 [11; 10])
                          (MPI_DOUBLE spikes))],
       Val (mkStatus (Z.of_nat 0) 0))
    /\ total = Z.of_nat (length spikes)
    /\ Z.of_nat (length per_train) = 2
    /\ sum per_train = total.
Proof.
  apply (X7_sizes_announce_the_times
           10
           (TvbNest.mkDemand [0] [0%float] [[0.25; 0.5]; [0.75]]%float
                             [(2, [11; 10])])
           (mkStatus (-1) (-1)) 0%nat 2 [11; 10]).
  - reflexivity.
  - lia.
  - reflexivity.
  - constructor; [cbn; lia |]. constructor; [cbn; lia | constructor].
  - reflexivity.
Defined.

(** One NEST rank asks for the generator 9, the first generator being 10:
    it is sent the last of the two spike trains. *)
Lemma X8_generator_9 :
  TvbNest.serve 10
    (TvbNest.mkDemand [0] [0%float] [[0.25; 0.5]; [0.75]]%float [(1, [9])])
    (mkStatus (-1) (-1)) (Z.of_nat 0)
  = ([TvbNest.Mpi (Recv COMM_SENDER 0 0 (MPI_INT [1]));
      TvbNest.Mpi (Recv COMM_SENDER 0 0 (MPI_INT [9]));
      TvbNest.Mpi (Send COMM_SENDER 0 9 (MPI_INT [1; 1]));
      TvbNest.Mpi (Send COMM_SENDER 0 9 (MPI_DOUBLE [0.75%float]))],
     Val (mkStatus 0 0)).
Proof.
  apply (X8_id_below_the_first_counts_from_the_end
           10
           (TvbNest.mkDemand [0] [0%float] [[0.25; 0.5]; [0.75]]%float
                             [(1, [9])])
           (mkStatus (-1) (-1)) 0%nat 9).
  - reflexivity.
  - cbn. lia.
Defined.

(** A group of four ranks: rank 0 receives, rank 1 sends. *)
Lemma X10_four_ranks :
  BaseManager.group_of_ranks_for_transformation 4 [0] [1] = [2; 3]
  /\ length (BaseManager.group_of_ranks_for_transformation 4 [0] [1])
     = 2%nat.
Proof.
  destruct (X10_the_three_groups_split_the_ranks 4 [0] [1])
    as (_ & _ & Hcount).
  - constructor; [| constructor; [| constructor]]; cbn; intuition lia.
  - intros r [<- | [<- | []]]; cbn; auto.
  - split; [reflexivity |]. cbn [length] in Hcount. lia.
Defined.

(** Rank 2 of four, listed as the second receiver. *)
Lemma X11_second_receiver :
  BaseManager._setup_mpi_groups_and_comms 2 4 [0; 2] [1] = ([], Val None).
Proof.
  destruct (X11_who_sets_up_which_group 2 4 0 1 [2] [])
    as (_ & _ & _ & Hnone & _).
  apply Hnone; [lia | lia | left; now left].
Defined.

(** Both classes have [_log], a name that normal lookup does not find; the
    class of the delegator has [__repr__], from [object]. *)
Lemma X12_private_name :
  ElephantDelegator.getattr
    ["__getattr__"; "__init__"; "__repr__"]%string
    (ElephantDelegator.__init__ ["rate_to_spikes"; "_log"]%string
                                ["_log"; "analyse"]%string)
    "_log"%string
  = ElephantDelegator.Through_getattr ElephantDelegator.AttributeError
  /\ ElephantDelegator.getattr
       ["__getattr__"; "__init__"; "__repr__"]%string
       (ElephantDelegator.__init__ ["rate_to_spikes"; "_log"]%string
                                   ["_log"; "analyse"]%string)
       "__repr__"%string
     = ElephantDelegator.Found.
Proof.
  split.
  - destruct (X12_delegation_of_the_names_not_found
                ["__getattr__"; "__init__"; "__repr__"]%string
                ["rate_to_spikes"; "_log"]%string
                ["_log"; "analyse"]%string "_log"%string)
      as (_ & Hmissing).
    destruct Hmissing as (_ & _ & Hprivate & _).
    + cbn. intros H.
      repeat (destruct H as [H | H]; [discriminate |]). exact H.
    + apply Hprivate. reflexivity.
  - destruct (X12_delegation_of_the_names_not_found
                ["__getattr__"; "__init__"; "__repr__"]%string
                ["rate_to_spikes"; "_log"]%string
                ["_log"; "analyse"]%string "__repr__"%string)
      as (Hfound & _).
    apply Hfound. cbn. tauto.
Defined.

(** Two spikes of two neurons, one triple each. *)
Lemma X13_two_spikes :
  length [[0.5%float]; [0.75%float]] = 2%nat
  /\ (forall j,
         nth j [[0.5%float]; [0.75%float]] []
         = SpikesToRate.times_of python_int 2 0
             [100; 0; 0.5; 100; 1; 0.75]%float (seq 0 2) j)
  /\ length (concat [[0.5%float]; [0.75%float]]) = 2%nat.
Proof.
  apply (X13_lists_hold_the_spikes_of_their_neuron
           python_int 2 0 2 [100; 0; 0.5; 100; 1; 0.75]%float).
  vm_compute. reflexivity.
Defined.

(** The second of two triples names the neuron 2 of two. *)
Lemma X14_neuron_2_of_two :
  SpikesToRate.spikes_of_neurons python_int 2 0 2
                                 [100; 0; 0.5; 100; 2; 0.75]%float
  = SpikesToRate.Raises_IndexError.
Proof.
  destruct (X14_when_the_loop_ends_and_when_it_raises
              python_int 2 0 2 [100; 0; 0.5; 100; 2; 0.75]%float)
    as (_ & Hraises).
  - cbn. lia.
  - apply (Hraises 1%nat 2%float 2).
    + lia.
    + intros i Hi. assert (i = 0%nat) as -> by lia. vm_compute. discriminate.
    + reflexivity.
    + vm_compute. reflexivity.
    + right. cbn. lia.
Defined.

(** Two buffers that differ in the device ids and behind the two triples. *)
Lemma X15_other_device_ids :
  SpikesToRate.spikes_of_neurons python_int 2 0 2
                                 [100; 0; 0.5; 100; 1; 0.75]%float
  = SpikesToRate.spikes_of_neurons python_int 2 0 2
                                   [7; 0; 0.5; 8; 1; 0.75; 9]%float.
Proof.
  apply (X15_only_ids_and_times_are_read
           python_int 2 0 2 [100; 0; 0.5; 100; 1; 0.75]%float
           [7; 0; 0.5; 8; 1; 0.75; 9]%float).
  intros i Hi. destruct i as [| [| i]]; [split; reflexivity .. | lia].
Defined.
